(** * Flight-search: the API access layer (src/lib/api.ts)

    A shallow embedding of the API-access layer of the flight-search client:
    the expiring cache over [localStorage] ([APICacheManager]), the call
    counter ([APIRateLimiter]), the token holder ([getAmadeusToken]), the
    mock-data generators and the operations of [FlightAPI] that the user
    interface calls, followed by the properties the specification states
    about them.  The callers of the layer in the user interface (the hook
    [useFlights], the filter panel, the search form and the page) are
    embedded after it, and the last part proves properties of the whole
    that the code shows.

    Conventions of the embedding.
    - JavaScript numbers that hold counts and epoch milliseconds are [Z];
      numbers that come out of [Math.random] and the prices computed from
      them are exact rationals ([Q]), so the rounding of IEEE doubles and the
      values NaN and Infinity are outside the model.
    - A string is held as its UTF-8 encoding, which is what a string
      literal of this file is; [length16] counts the UTF-16 code units that
      [String.prototype.length] counts.  [toLowerCase] is computed on
      strings of ASCII characters; for the others, whose case mapping is in
      the Unicode tables of the engine, the answer is the surroundings'.
    - Everything the program asks of its surroundings is answered by an
      [Env]: the clock, [Math.random], the replies of the network and whether
      a write to [localStorage] goes through.  The program is a deterministic
      function of the answers, and the theorems quantify over all of them.
    - [JSON.parse] undoes [JSON.stringify] on what the program stores; a text
      under one of its keys that it did not write is [Unparseable].  An
      element of the array in a reply is an object or is [null].
    - An operation is a state transformer over [World] that ends in
      [Return] or in [Throw]; one operation runs at a time (the interleaving
      of several pending promises is not modelled), and the lines that only
      write to the console are left out. *)

From Stdlib Require Import ZArith QArith Qround Lia Lqa Ascii.
From stdpp Require Import gmap strings list pretty sorting.

Open Scope Z_scope.

(** ** Numbers *)

Definition Math_floor (q : Q) : Z := Qfloor q.
Definition Math_ceil (q : Q) : Z := Qceiling q.

(** [Math.round] rounds halves towards plus infinity. *)
Definition Math_round (q : Q) : Z := Qfloor (q + (1 # 2))%Q.

(** [x || d] on a number that is never NaN. *)
Definition or_default (x d : Z) : Z := if x =? 0 then d else x.

(** What [JSON.parse] makes of the text under a key of [localStorage]:
    a value of the expected shape, or a text it rejects. *)
Inductive Stored (A : Type) : Type :=
  | Parsed (a : A)
  | Unparseable.
Arguments Parsed {A} a.
Arguments Unparseable {A}.

(** ** Strings *)

(** [s.length]: the number of UTF-16 code units of [s].  In the UTF-8
    encoding a character of one, two or three bytes is one code unit and a
    character of four bytes (one outside the Basic Multilingual Plane) is
    two; the bytes that continue a character count for nothing. *)
Definition units_of_byte (c : ascii) : nat :=
  let n := N_of_ascii c in
  if (n <? 128)%N then 1%nat
  else if (n <? 192)%N then 0%nat
  else if (n <? 240)%N then 1%nat
  else 2%nat.

Fixpoint length16 (s : string) : nat :=
  match s with
  | EmptyString => O
  | String c rest => (units_of_byte c + length16 rest)%nat
  end.

(** All the characters of [s] are ASCII characters. *)
Fixpoint isASCII (s : string) : bool :=
  match s with
  | EmptyString => true
  | String c rest => (N_of_ascii c <? 128)%N && isASCII rest
  end.

Definition lower_ascii (c : ascii) : ascii :=
  let n := N_of_ascii c in
  if ((65 <=? n) && (n <=? 90))%N then ascii_of_N (n + 32) else c.

(** [String.prototype.toLowerCase] on a string of ASCII characters: the
    letters A to Z are put in lower case and every other character is left
    as it is. *)
Fixpoint lowerASCII (s : string) : string :=
  match s with
  | EmptyString => EmptyString
  | String c rest => String (lower_ascii c) (lowerASCII rest)
  end.

(** [s.includes(q)]: [q] occurs in [s] as a substring (of bytes, which for
    two encoded strings is the same as of characters). *)
Fixpoint includes (s q : string) : bool :=
  String.prefix q s ||
  match s with
  | EmptyString => false
  | String _ rest => includes rest q
  end.

(** [n.toString().padStart(2, '0')] *)
Definition pad2 (n : Z) : string :=
  let t := pretty n in
  if (String.length t <? 2)%nat then "0" +:+ t else t.

(** Reading a time of day "HH:MM" back as minutes after midnight. *)
Definition digit_of (c : ascii) : option Z :=
  let n := N_of_ascii c in
  if ((48 <=? n) && (n <=? 57))%N then Some (Z.of_N (n - 48)) else None.

Definition minutesOfDay (t : string) : option Z :=
  match t with
  | String h1 (String h0 (String ":" (String m1 (String m0 EmptyString)))) =>
      match digit_of h1, digit_of h0, digit_of m1, digit_of m0 with
      | Some a, Some b, Some c, Some d => Some ((a * 10 + b) * 60 + c * 10 + d)
      | _, _, _, _ => None
      end
  | _ => None
  end.

(** [arr[i]] for a number [i] that is an integer: [undefined] out of range. *)
Definition at_index {A} (arr : list A) (i : Z) : option A :=
  if i <? 0 then None else arr !! Z.to_nat i.

(** [s.replace(pat, '')]: the first occurrence of [pat] in [s] is taken
    out. *)
Fixpoint removeFirst (pat s : string) : string :=
  if String.prefix pat s
  then String.substring (String.length pat)
         (String.length s - String.length pat) s
  else
    match s with
    | EmptyString => EmptyString
    | String c rest => String c (removeFirst pat rest)
    end.

(** [s.split(':')[0]]: what stands before the first colon, all of [s] when
    it has none. *)
Fixpoint firstField (s : string) : string :=
  match s with
  | EmptyString => EmptyString
  | String c rest =>
      if Ascii.eqb c ":" then EmptyString else String c (firstField rest)
  end.

(** [parseInt(s)] without a radix, on strings of ASCII characters: leading
    white space is skipped, a sign is read, [0x] or [0X] announces
    hexadecimal digits, and the digits are read up to the first character
    that is none; [None] stands for NaN, the result when there is no
    digit. *)
Definition isWhiteSpace (c : ascii) : bool :=
  let n := N_of_ascii c in
  (((9 <=? n) && (n <=? 13)) || (n =? 32))%N.

Fixpoint trimStart (s : string) : string :=
  match s with
  | EmptyString => EmptyString
  | String c rest => if isWhiteSpace c then trimStart rest else s
  end.

Definition digitValue (c : ascii) : option Z :=
  let n := N_of_ascii c in
  if ((48 <=? n) && (n <=? 57))%N then Some (Z.of_N (n - 48))
  else if ((97 <=? n) && (n <=? 122))%N then Some (Z.of_N (n - 87))
  else if ((65 <=? n) && (n <=? 90))%N then Some (Z.of_N (n - 55))
  else None.

Fixpoint readDigits (radix : Z) (s : string) (acc : option Z) : option Z :=
  match s with
  | EmptyString => acc
  | String c rest =>
      match digitValue c with
      | Some d =>
          if d <? radix
          then readDigits radix rest (Some (default 0 acc * radix + d))
          else acc
      | None => acc
      end
  end.

Definition parseInt (s : string) : option Z :=
  let s1 := trimStart s in
  let '(sign, s2) :=
    match s1 with
    | String "-" rest => (-1, rest)
    | String "+" rest => (1, rest)
    | _ => (1, s1)
    end in
  let '(radix, s3) :=
    match s2 with
    | String "0" (String x rest) =>
        if Ascii.eqb x "x" || Ascii.eqb x "X" then (16, rest) else (10, s2)
    | _ => (10, s2)
    end in
  Z.mul sign <$> readDigits radix s3 None.

(** ** The rate limiter: class [APIRateLimiter] *)

Module APIRateLimiter.

Definition MAX_CALLS_PER_MINUTE : Z := 10.
Definition MAX_CALLS_PER_DAY : Z := 39.

(** The static fields. *)
Record t : Type := mk {
  callsToday : Z;
  callsThisMinute : Z;
  minuteStart : Z
}.

(** The object written under [STORAGE_KEY]. *)
Record Saved : Type := mkSaved {
  sv_callsToday : Z;
  sv_callsThisMinute : Z;
  sv_minuteStart : Z;
  sv_date : string
}.

(** The field initialisers of the class, run at [now]. *)
Definition fresh (now : Z) : t :=
  {| callsToday := 0; callsThisMinute := 0; minuteStart := now |}.

Definition initialize (saved : option (Stored Saved)) (now : Z) (today : string)
    (s : t) : t :=
  match saved with
  | Some (Parsed d) =>
      let s1 := {| callsToday := or_default (sv_callsToday d) 0;
                   callsThisMinute := or_default (sv_callsThisMinute d) 0;
                   minuteStart := or_default (sv_minuteStart d) now |} in
      if decide (sv_date d = today) then s1
      else {| callsToday := 0;
              callsThisMinute := callsThisMinute s1;
              minuteStart := minuteStart s1 |}
  | Some Unparseable => s
  | None => s
  end.

Inductive Reason : Type :=
  | RateLimit (waitTime : Z)
  | DailyQuota.

(** The text of [reason]. *)
Definition render (r : Reason) : string :=
  match r with
  | RateLimit w =>
      "Rate limit: " +:+ pretty MAX_CALLS_PER_MINUTE
        +:+ " calls/minute. Wait " +:+ pretty w +:+ "s"
  | DailyQuota =>
      "Daily quota exceeded: " +:+ pretty MAX_CALLS_PER_DAY +:+ " calls/day"
  end.

Record Check : Type := mkCheck {
  allowed : bool;
  reason : option Reason;
  callsLeft : Z
}.

(** The first statement of [canMakeCall]: the minute counter starts over
    once more than a minute has passed since [minuteStart]. *)
Definition rollover (now : Z) (s : t) : t :=
  if 60000 <? now - minuteStart s
  then {| callsToday := callsToday s; callsThisMinute := 0; minuteStart := now |}
  else s.

Definition canMakeCall (now : Z) (s : t) : Check * t :=
  let s1 := rollover now s in
  if MAX_CALLS_PER_MINUTE <=? callsThisMinute s1 then
    let waitTime :=
      Math_ceil (inject_Z (60000 - (now - minuteStart s1)) / 1000)%Q in
    ({| allowed := false; reason := Some (RateLimit waitTime); callsLeft := 0 |},
     s1)
  else
    let left := MAX_CALLS_PER_DAY - callsToday s1 in
    if MAX_CALLS_PER_DAY <=? callsToday s1 then
      ({| allowed := false; reason := Some DailyQuota; callsLeft := 0 |}, s1)
    else
      ({| allowed := true; reason := None; callsLeft := left |}, s1).

(** [recordCall]: both counters go up by one, and the object that is handed
    to [localStorage.setItem] is returned with the new state. *)
Definition recordCall (today : string) (s : t) : t * Saved :=
  let s1 := {| callsToday := callsToday s + 1;
               callsThisMinute := callsThisMinute s + 1;
               minuteStart := minuteStart s |} in
  (s1, {| sv_callsToday := callsToday s1;
          sv_callsThisMinute := callsThisMinute s1;
          sv_minuteStart := minuteStart s1;
          sv_date := today |}).

Definition resetDailyCount (now : Z) : t :=
  {| callsToday := 0; callsThisMinute := 0; minuteStart := now |}.

(** *** Sequences of call attempts

    Every live operation of [FlightAPI] asks [canMakeCall] and, when allowed,
    calls [recordCall] before anything can interleave.  An [Attempt] records
    what one such pair did: when it ran, which window it fell in (the value of
    [minuteStart] after the check) and whether the call was admitted. *)
Record Attempt : Type := mkAttempt {
  at_now : Z;
  at_window : Z;
  at_admitted : bool
}.

Definition attempt (today : string) (now : Z) (s : t) : Attempt * t :=
  let '(c, s1) := canMakeCall now s in
  ({| at_now := now; at_window := minuteStart s1; at_admitted := allowed c |},
   if allowed c then fst (recordCall today s1) else s1).

Fixpoint run (today : string) (times : list Z) (s : t) : list Attempt * t :=
  match times with
  | [] => ([], s)
  | now :: rest =>
      let '(a, s1) := attempt today now s in
      let '(l, s2) := run today rest s1 in
      (a :: l, s2)
  end.

(** The number of admitted calls of a trace. *)
Definition admitted (l : list Attempt) : Z :=
  Z.of_nat (length (List.filter at_admitted l)).

(** The admitted calls of the window that opened at [w]. *)
Definition admitted_in_window (w : Z) (l : list Attempt) : Z :=
  Z.of_nat (length
    (List.filter (fun a => at_admitted a && (at_window a =? w)) l)).

(** The admitted calls whose check ran in the interval [[t0, t0 + 60000)]. *)
Definition admitted_between (t0 : Z) (l : list Attempt) : Z :=
  Z.of_nat (length (List.filter
    (fun a => at_admitted a && (t0 <=? at_now a) && (at_now a <? t0 + 60000)) l)).

(** *** [canMakeCall] as the specification words it

    First the window is reset when [now - windowStart] exceeds the window
    length; then the call is denied with the seconds to wait until the window
    ends when the per-window ceiling is reached, denied when the per-day
    ceiling is reached, and allowed otherwise with what is left of the day. *)
Definition seconds_until_reset (now : Z) (s : t) : Z :=
  (minuteStart s + 60000 - now + 999) / 1000.

Definition canMakeCall_described (now : Z) (s : t) : Check * t :=
  let s1 :=
    if decide (now - minuteStart s > 60000)
    then {| callsToday := callsToday s; callsThisMinute := 0; minuteStart := now |}
    else s in
  if decide (callsThisMinute s1 >= 10) then
    ({| allowed := false;
        reason := Some (RateLimit (seconds_until_reset now s1));
        callsLeft := 0 |}, s1)
  else if decide (callsToday s1 >= 39) then
    ({| allowed := false; reason := Some DailyQuota; callsLeft := 0 |}, s1)
  else
    ({| allowed := true; reason := None; callsLeft := 39 - callsToday s1 |}, s1).

(** Ten attempts at [t1] followed by ten attempts at [t2]. *)
Definition burst (t1 t2 : Z) : list Z := replicate 10 t1 ++ replicate 10 t2.

(** [getStats] *)
Record Stats : Type := mkStats {
  st_callsToday : Z;
  st_callsThisMinute : Z;
  maxPerDay : Z;
  maxPerMinute : Z;
  callsLeftToday : Z
}.

Definition getStats (s : t) : Stats :=
  {| st_callsToday := callsToday s;
     st_callsThisMinute := callsThisMinute s;
     maxPerDay := MAX_CALLS_PER_DAY;
     maxPerMinute := MAX_CALLS_PER_MINUTE;
     callsLeftToday := MAX_CALLS_PER_DAY - callsToday s |}.

End APIRateLimiter.


(** ** The cache: class [APICacheManager] *)

Module APICacheManager.

Definition CACHE_PREFIX : string := "flight_cache_".

Section Generic.
Context {T : Type}.

(** [interface APICache<T>]; [expiry] is a length of time in milliseconds. *)
Record APICache : Type := mkCache {
  data : T;
  timestamp : Z;
  expiry : Z
}.

(** [set], run at [now].  [writable] tells whether [localStorage.setItem]
    goes through; when it throws the exception is swallowed and nothing is
    stored. *)
Definition set (key : string) (d : T) (expiryHours : Z) (now : Z)
    (writable : bool) (ls : gmap string (Stored APICache))
    : gmap string (Stored APICache) :=
  let cache :=
    {| data := d; timestamp := now; expiry := expiryHours * 60 * 60 * 1000 |} in
  if writable then <[CACHE_PREFIX +:+ key := Parsed cache]> ls else ls.

(** [get], run at [now]: the value (or [None] for [null]) and the store
    after the call. *)
Definition get (key : string) (now : Z) (ls : gmap string (Stored APICache))
    : option T * gmap string (Stored APICache) :=
  match ls !! (CACHE_PREFIX +:+ key) with
  | None => (None, ls)
  | Some Unparseable => (None, ls)
  | Some (Parsed cache) =>
      let isExpired := expiry cache <? now - timestamp cache in
      if isExpired then (None, delete (CACHE_PREFIX +:+ key) ls)
      else (Some (data cache), ls)
  end.

Definition clear (key : string) (ls : gmap string (Stored APICache))
    : gmap string (Stored APICache) :=
  delete (CACHE_PREFIX +:+ key) ls.

Definition clearAll (ls : gmap string (Stored APICache))
    : gmap string (Stored APICache) :=
  filter (fun kv => String.prefix CACHE_PREFIX (fst kv) = false) ls.

End Generic.
Arguments APICache T : clear implicits.

End APICacheManager.

(** ** Data *)

(** [interface Flight] of src/types. *)
Record StopDetail : Type := mkStop {
  stop_airport : option string;
  stop_duration : Z
}.

Record Flight : Type := mkFlight {
  id : string;
  airline : string;
  airlineLogo : string;
  flightNumber : string;
  origin : string;
  destination : string;
  departureTime : string;
  arrivalTime : string;
  duration : Z;
  price : Z;
  stops : Z;
  stopDetails : option (list StopDetail);
  aircraft : option string
}.

(** A [Date] object: an instant in milliseconds since the epoch, or the
    Invalid Date that [new Date(x)] makes of an [x] it cannot read. *)
Inductive JSDate : Type :=
  | ValidDate (ms : Z)
  | InvalidDate.

(** [interface SearchParams]; the passenger counts take no part in what the
    access layer computes. *)
Record SearchParams : Type := mkParams {
  sp_origin : string;
  sp_destination : string;
  sp_departureDate : JSDate;
  sp_passengers : Z * Z * Z
}.

Record PriceDataPoint : Type := mkPoint {
  pd_date : string;
  pd_price : Q;
  pd_airline : string
}.

Record Airport : Type := mkAirport {
  code : string;
  name : string;
  city : string
}.

(** One element of the array [response.data.data], seen through the fields
    the program reads; a missing text field is the empty (falsy) string. *)
Record Entry : Type := mkEntry {
  en_type : string;
  en_origin : string;
  en_destination : string;
  en_departureDate : string;
  en_returnDate : option string;
  (** [price?.total] when it is truthy, as [parseFloat] reads it *)
  en_priceTotal : option Q;
  en_iataCode : string;
  en_name : string;
  (** [address?.cityName] *)
  en_cityName : string
}.

(** [response.data]: the body of a reply. *)
Record Body : Type := mkBody {
  access_token : string;
  expires_in : Z;
  (** [data] when it is there and is an array; an element of the array is
      [Some] object, or [None] when it is [null].  An element that is
      neither (a number, a text) reads as an object without the fields. *)
  body_data : option (list (option Entry));
  meta_count : Z
}.

(** ** The surroundings *)

Record Config : Type := mkConfig {
  API_KEY : string;
  API_SECRET : string;
  MOCK_MODE : bool
}.

Inductive Request : Type :=
  | PostToken (client_id client_secret : string)
  | GetFlightDestinations (token origin : string) (maxPrice : Z) (oneWay : bool)
  | GetFlightDates (token origin destination : string) (oneWay : bool)
  | GetLocations (token keyword : string).

(** The address a request goes to. *)
Definition url (r : Request) : string :=
  match r with
  | PostToken _ _ => "https://test.api.amadeus.com/v1/security/oauth2/token"
  | GetFlightDestinations _ _ _ _ =>
      "https://test.api.amadeus.com/v1/shopping/flight-destinations"
  | GetFlightDates _ _ _ _ =>
      "https://test.api.amadeus.com/v1/shopping/flight-dates"
  | GetLocations _ _ =>
      "https://test.api.amadeus.com/v1/reference-data/locations"
  end.

(** What [axios] makes of a request: a response, or an error for which
    [axios.isAxiosError] holds (a status outside 2xx, a timeout, no network). *)
Inductive Reply : Type :=
  | Response (body : Body)
  | Failure (status : option Z).

(** The answers of the surroundings.  Every question the program asks takes
    the answer at the current [tick] and moves the tick on. *)
Record Env : Type := mkEnv {
  (** [Date.now()] *)
  timeAt : nat -> Z;
  (** [Math.random()] *)
  randomAt : nat -> Q;
  (** the outcome of a request *)
  replyAt : nat -> Reply;
  (** does [localStorage.setItem] go through *)
  writableAt : nat -> bool;
  (** [Date.prototype.toDateString] of an instant *)
  toDateString : Z -> string;
  (** the date part of [Date.prototype.toISOString] of an instant *)
  toISODate : Z -> string;
  (** the instant [setDate(getDate() + i)] moves an instant to *)
  addDays : Z -> Z -> Z;
  (** [new Date(text).getTime()] *)
  dateValue : string -> Z;
  (** [String.prototype.toLowerCase] of a string that has characters
      outside ASCII *)
  lowerCaseAt : string -> string
}.

(** [String.prototype.toLowerCase] *)
Definition toLowerCase (env : Env) (s : string) : string :=
  if isASCII s then lowerASCII s else lowerCaseAt env s.

(** What is thrown: an error of [axios], an [Error] made with [new
    Error(message)], or one of the errors the engine throws (their messages
    differ from engine to engine and are left out). *)
Inductive Exn : Type :=
  | AxiosError (status : option Z)
  | Error (message : string)
  | TypeError
  | RangeError.

Definition isAxiosError (e : Exn) : bool :=
  match e with AxiosError _ => true | _ => false end.

Inductive Result (A : Type) : Type :=
  | Return (a : A)
  | Throw (e : Exn).
Arguments Return {A} a.
Arguments Throw {A} e.

(** [interface TokenInfo] *)
Record TokenInfo : Type := mkToken {
  accessToken : string;
  expiresAt : Z
}.

(** The state the program keeps: the cache entries of [localStorage], one
    map for each of the three families of keys ([inspiration_...],
    [cheapest_dates_...], [airports_...], which never coincide), the entry
    under [amadeus_api_calls], the static fields of the rate limiter and the
    module variable [tokenInfo]; with them the requests sent so far and the
    tick of the surroundings. *)
Record World : Type := mkWorld {
  inspirationCache : gmap string (Stored (APICacheManager.APICache Body));
  trendsCache :
    gmap string (Stored (APICacheManager.APICache (list PriceDataPoint)));
  airportsCache : gmap string (Stored (APICacheManager.APICache (list Airport)));
  savedCalls : option (Stored APIRateLimiter.Saved);
  limiter : APIRateLimiter.t;
  tokenInfo : option TokenInfo;
  requests : list Request;
  tick : nat
}.

Definition with_inspirationCache c (w : World) : World :=
  mkWorld c (trendsCache w) (airportsCache w) (savedCalls w) (limiter w)
    (tokenInfo w) (requests w) (tick w).
Definition with_trendsCache c (w : World) : World :=
  mkWorld (inspirationCache w) c (airportsCache w) (savedCalls w) (limiter w)
    (tokenInfo w) (requests w) (tick w).
Definition with_airportsCache c (w : World) : World :=
  mkWorld (inspirationCache w) (trendsCache w) c (savedCalls w) (limiter w)
    (tokenInfo w) (requests w) (tick w).
Definition with_savedCalls c (w : World) : World :=
  mkWorld (inspirationCache w) (trendsCache w) (airportsCache w) c (limiter w)
    (tokenInfo w) (requests w) (tick w).
Definition with_limiter c (w : World) : World :=
  mkWorld (inspirationCache w) (trendsCache w) (airportsCache w) (savedCalls w)
    c (tokenInfo w) (requests w) (tick w).
Definition with_tokenInfo c (w : World) : World :=
  mkWorld (inspirationCache w) (trendsCache w) (airportsCache w) (savedCalls w)
    (limiter w) c (requests w) (tick w).
Definition with_requests c (w : World) : World :=
  mkWorld (inspirationCache w) (trendsCache w) (airportsCache w) (savedCalls w)
    (limiter w) (tokenInfo w) c (tick w).
Definition with_tick c (w : World) : World :=
  mkWorld (inspirationCache w) (trendsCache w) (airportsCache w) (savedCalls w)
    (limiter w) (tokenInfo w) (requests w) c.

(** A family of cache keys: where its entries live in the [World]. *)
Record Region (T : Type) : Type := mkRegion {
  entries : World -> gmap string (Stored (APICacheManager.APICache T));
  with_entries :
    gmap string (Stored (APICacheManager.APICache T)) -> World -> World
}.
Arguments entries {T} _ _.
Arguments with_entries {T} _ _ _.

Definition inspirationRegion : Region Body :=
  mkRegion _ inspirationCache with_inspirationCache.
Definition trendsRegion : Region (list PriceDataPoint) :=
  mkRegion _ trendsCache with_trendsCache.
Definition airportsRegion : Region (list Airport) :=
  mkRegion _ airportsCache with_airportsCache.

(** ** Operations as state transformers *)

Definition M (A : Type) : Type := World -> Result A * World.

Definition ret {A} (a : A) : M A := fun w => (Return a, w).

Definition throw {A} (e : Exn) : M A := fun w => (Throw e, w).

Definition bind {A B} (m : M A) (k : A -> M B) : M B :=
  fun w =>
    match m w with
    | (Return a, w1) => k a w1
    | (Throw e, w1) => (Throw e, w1)
    end.

(** [try { m } catch (error) { handler(error) }] *)
Definition try_catch {A} (m : M A) (handler : Exn -> M A) : M A :=
  fun w =>
    match m w with
    | (Return a, w1) => (Return a, w1)
    | (Throw e, w1) => handler e w1
    end.

Declare Scope js_scope.
Delimit Scope js_scope with js.
Notation "'let*' x ':=' m 'in' k" := (bind m (fun x => k))
  (at level 10, x name, m at level 100, k at level 200) : js_scope.
Notation "'do*' m 'in' k" := (bind m (fun _ => k))
  (at level 10, m at level 100, k at level 200) : js_scope.
Open Scope js_scope.

Definition modify (f : World -> World) : M unit := fun w => (Return tt, f w).
Definition read {A} (f : World -> A) : M A := fun w => (Return (f w), w).

Section Program.
Context (cfg : Config) (env : Env).

(** The questions to the surroundings. *)
Definition Date_now : M Z :=
  fun w => (Return (timeAt env (tick w)), with_tick (S (tick w)) w).

Definition Math_random : M Q :=
  fun w => (Return (randomAt env (tick w)), with_tick (S (tick w)) w).

Definition setItem_succeeds : M bool :=
  fun w => (Return (writableAt env (tick w)), with_tick (S (tick w)) w).

(** [d.toISOString().split('T')[0]]: the Invalid Date has no ISO text and
    [toISOString] throws a [RangeError] on it. *)
Definition isoDate (d : JSDate) : M string :=
  match d with
  | ValidDate ms => ret (toISODate env ms)
  | InvalidDate => throw RangeError
  end.

Definition axios (r : Request) : M Body :=
  fun w =>
    let w1 := with_tick (S (tick w)) (with_requests (requests w ++ [r]) w) in
    match replyAt env (tick w) with
    | Response body => (Return body, w1)
    | Failure status => (Throw (AxiosError status), w1)
    end.

(** *** The cache over the [World] *)

(** [APICacheManager.get]; the clock is read only when an entry was found
    and parsed. *)
Definition cacheGet {T} (r : Region T) (key : string) : M (option T) :=
  fun w =>
    match entries r w !! (APICacheManager.CACHE_PREFIX +:+ key) with
    | Some (Parsed _) =>
        (let* now := Date_now in
         fun w1 =>
           let '(v, ls) := APICacheManager.get key now (entries r w1) in
           (Return v, with_entries r ls w1)) w
    | _ => (Return None, w)
    end.

Definition cacheSet {T} (r : Region T) (key : string) (d : T)
    (expiryHours : Z) : M unit :=
  let* now := Date_now in
  let* ok := setItem_succeeds in
  modify (fun w =>
    with_entries r (APICacheManager.set key d expiryHours now ok (entries r w)) w).

(** *** The rate limiter over the [World] *)

Definition canMakeCall : M APIRateLimiter.Check :=
  let* now := Date_now in
  fun w =>
    let '(c, s) := APIRateLimiter.canMakeCall now (limiter w) in
    (Return c, with_limiter s w).

Definition recordCall : M unit :=
  let* now := Date_now in
  let* ok := setItem_succeeds in
  modify (fun w =>
    let '(s, d) := APIRateLimiter.recordCall (toDateString env now) (limiter w) in
    let w1 := with_limiter s w in
    if ok then with_savedCalls (Some (Parsed d)) w1 else w1).

Definition resetDailyCount : M unit :=
  let* now := Date_now in
  modify (fun w =>
    with_savedCalls None (with_limiter (APIRateLimiter.resetDailyCount now) w)).

(** *** Token management: [getAmadeusToken] *)

Definition fetchToken : M string :=
  try_catch
    (let* body := axios (PostToken (API_KEY cfg) (API_SECRET cfg)) in
     if decide (access_token body = "")
     then throw (Error "No access token in response")
     else
       let* now := Date_now in
       do* modify (with_tokenInfo
                     (Some {| accessToken := access_token body;
                              expiresAt := now + 25 * 60 * 1000 |})) in
       ret (access_token body))
    (fun _ => throw (Error "Failed to authenticate with Amadeus API")).

Definition getAmadeusToken : M string :=
  let* info := read tokenInfo in
  match info with
  | Some ti =>
      let* now := Date_now in
      if now <? expiresAt ti then ret (accessToken ti) else fetchToken
  | None => fetchToken
  end.

End Program.

(** ** Mock data *)

Definition MOCK_AIRLINES : list (string * string * string) :=
  [ ("AA", "American Airlines", "AA");
    ("DL", "Delta Air Lines", "DL");
    ("UA", "United Airlines", "UA");
    ("WN", "Southwest Airlines", "WN");
    ("B6", "JetBlue", "B6");
    ("AS", "Alaska Airlines", "AS");
    ("BA", "British Airways", "BA");
    ("LH", "Lufthansa", "LH");
    ("AF", "Air France", "AF");
    ("EK", "Emirates", "EK") ].

Definition airline_code (a : string * string * string) : string := fst (fst a).
Definition airline_name (a : string * string * string) : string := snd (fst a).

Definition MOCK_AIRPORTS : list Airport :=
  [ mkAirport "JFK" "John F. Kennedy International" "New York";
    mkAirport "LAX" "Los Angeles International" "Los Angeles";
    mkAirport "ORD" "O'Hare International" "Chicago";
    mkAirport "DFW" "Dallas/Fort Worth International" "Dallas";
    mkAirport "MIA" "Miami International" "Miami";
    mkAirport "SEA" "Seattle–Tacoma International" "Seattle";
    mkAirport "ATL" "Hartsfield-Jackson Atlanta" "Atlanta";
    mkAirport "DEN" "Denver International" "Denver";
    mkAirport "SFO" "San Francisco International" "San Francisco";
    mkAirport "LAS" "Harry Reid International" "Las Vegas";
    mkAirport "LHR" "Heathrow Airport" "London";
    mkAirport "CDG" "Charles de Gaulle Airport" "Paris";
    mkAirport "FRA" "Frankfurt Airport" "Frankfurt";
    mkAirport "DXB" "Dubai International" "Dubai" ].

Definition commonHubs : list string :=
  ["ATL"; "ORD"; "DFW"; "DEN"; "LAX"; "JFK"; "MIA"; "SEA"].

Definition aircraftTypes : list string :=
  [ "Boeing 737"; "Airbus A320"; "Boeing 787"; "Airbus A350"; "Boeing 777";
    "Airbus A330"; "Embraer E190"; "Bombardier CRJ900" ].

Definition mockDestinations : list (string * string * Z) :=
  [ ("LAX", "Los Angeles", 280); ("ORD", "Chicago", 220);
    ("MIA", "Miami", 190); ("SEA", "Seattle", 320);
    ("DEN", "Denver", 250); ("ATL", "Atlanta", 210);
    ("DFW", "Dallas", 230); ("SFO", "San Francisco", 350);
    ("LHR", "London", 550); ("CDG", "Paris", 520) ].

(** [calculateArrivalTime] *)
Definition calculateArrivalTime (departureHour durationMinutes : Z) : string :=
  let totalMinutes := departureHour * 60 + durationMinutes in
  let arrivalHour := Z.rem (Math_floor (inject_Z totalMinutes / 60)%Q) 24 in
  let arrivalMinute := Z.rem totalMinutes 60 in
  pad2 arrivalHour +:+ ":" +:+ pad2 arrivalMinute.

(** [arr.sort((a, b) => key(a) - key(b))]: the stable sort by [key]; an
    element is put in front of the elements after it that have the same
    key. *)
Fixpoint insert_by {A} (key : A -> Z) (x : A) (l : list A) : list A :=
  match l with
  | [] => [x]
  | y :: rest =>
      if key y <? key x then y :: insert_by key x rest
      else x :: y :: rest
  end.

Definition sort_by {A} (key : A -> Z) (l : list A) : list A :=
  foldr (insert_by key) [] l.

(** [arr.findIndex(p)]; [None] stands for -1. *)
Fixpoint findIndex {A} (p : A -> bool) (l : list A) : option nat :=
  match l with
  | [] => None
  | x :: rest => if p x then Some O else S <$> findIndex p rest
  end.

(** [arr.filter((x, index) => p(x, index))], for the part of the array that
    starts at index [i]. *)
Fixpoint filter_indexed {A} (p : A -> nat -> bool) (i : nat) (l : list A)
    : list A :=
  match l with
  | [] => []
  | x :: rest =>
      if p x i then x :: filter_indexed p (S i) rest
      else filter_indexed p (S i) rest
  end.

(** [x.toFixed(2)], read back as a number. *)
Definition toFixed2 (x : Q) : Q := (inject_Z (Math_round (x * 100)) / 100)%Q.

Fixpoint mapM {A B} (f : A -> M B) (l : list A) : M (list B) :=
  match l with
  | [] => ret []
  | a :: rest =>
      let* b := f a in
      let* bs := mapM f rest in
      ret (b :: bs)
  end.

Section Synthesis.
Context (env : Env).

(** A property access on [undefined] throws a [TypeError]. *)
Definition member {A} (o : option A) : M A :=
  match o with
  | Some a => ret a
  | None => throw TypeError
  end.

(** [arr[Math.floor(Math.random() * arr.length)]] *)
Definition randomElement {A} (arr : list A) : M (option A) :=
  let* r := Math_random env in
  ret (at_index arr (Math_floor (r * inject_Z (Z.of_nat (length arr))))).

Definition calculateRealisticDuration (origin destination : string) (stops : Z)
    : M Z :=
  let* r := Math_random env in
  let baseDuration := (90 + r * 300)%Q in
  let stopPenalty := stops * 120 in
  ret (Math_round (baseDuration + inject_Z stopPenalty)).

Fixpoint stopDetails_loop (n : nat) (stopAirports : list StopDetail)
    : M (list StopDetail) :=
  match n with
  | O => ret stopAirports
  | S n' =>
      let* hub := randomElement commonHubs in
      let* r := Math_random env in
      stopDetails_loop n'
        (stopAirports ++
           [{| stop_airport := hub;
               stop_duration := 60 + Math_floor (r * 120) |}])
  end.

Definition generateRealisticStopDetails (stops : Z) : M (list StopDetail) :=
  stopDetails_loop (Z.to_nat stops) [].

Definition getRandomAircraft : M (option string) :=
  randomElement aircraftTypes.

(** The body of the loop of [generateEnhancedMockFlights], for index [i]. *)
Definition mockFlight (params : SearchParams) (actualBasePrice : Q) (i : Z)
    : M Flight :=
  let* picked := randomElement MOCK_AIRLINES in
  let* r1 := Math_random env in
  let* stops :=
    if Qle_bool r1 (6 # 10) then
      let* r2 := Math_random env in
      ret (if Qle_bool r2 (85 # 100) then 0 else 2)
    else ret 1 in
  let* r3 := Math_random env in
  let departureHour := 6 + Math_floor (r3 * 16) in
  let* durationMinutes :=
    calculateRealisticDuration (sp_origin params) (sp_destination params) stops in
  let* r4 := Math_random env in
  let priceVariation := ((75 # 100) + r4 * (5 # 10))%Q in
  let price := Math_round (actualBasePrice * priceVariation) in
  let* now := Date_now env in
  let* airline := member picked in
  let* r5 := Math_random env in
  let* r6 := Math_random env in
  let* details :=
    if 0 <? stops then
      let* d := generateRealisticStopDetails stops in ret (Some d)
    else ret None in
  let* craft := getRandomAircraft in
  ret {| id := "ENHANCED-" +:+ pretty now +:+ "-" +:+ pretty i;
         airline := airline_name airline;
         airlineLogo := airline_code airline;
         flightNumber :=
           airline_code airline +:+ pretty (Math_floor (100 + r5 * 900));
         origin := sp_origin params;
         destination := sp_destination params;
         departureTime :=
           pad2 departureHour +:+ ":" +:+
           (if Qle_bool r6 (5 # 10) then "30" else "00");
         arrivalTime := calculateArrivalTime departureHour durationMinutes;
         duration := durationMinutes;
         price := price;
         stops := stops;
         stopDetails := details;
         aircraft := craft |}.

(** [for (let i = 0; i < flightCount; i++) flights.push(flight)], with [n]
    rounds left to go. *)
Fixpoint mockFlights_loop (params : SearchParams) (actualBasePrice : Q)
    (n : nat) (i : Z) (flights : list Flight) : M (list Flight) :=
  match n with
  | O => ret flights
  | S n' =>
      let* flight := mockFlight params actualBasePrice i in
      mockFlights_loop params actualBasePrice n' (i + 1) (flights ++ [flight])
  end.

(** [generateEnhancedMockFlights]; [basePrice] is [None] when the argument
    is left out. *)
Definition generateEnhancedMockFlights (params : SearchParams)
    (basePrice : option Q) : M (list Flight) :=
  let* actualBasePrice :=
    match basePrice with
    | Some b =>
        if Qeq_bool b 0
        then let* r := Math_random env in ret (200 + r * 800)%Q
        else ret b
    | None => let* r := Math_random env in ret (200 + r * 800)%Q
    end in
  let* r := Math_random env in
  let flightCount := 12 + Math_floor (r * 6) in
  let* flights :=
    mockFlights_loop params actualBasePrice (Z.to_nat flightCount) 0 [] in
  ret (sort_by price flights).

(** [getMockInspirationData] *)
Definition getMockInspirationData (origin : string) (maxPrice : Z)
    (oneWay : bool) : M Body :=
  let* data :=
    mapM (fun dest : string * string * Z =>
      let* now := Date_now env in
      let departureDate := now + 7 * 24 * 60 * 60 * 1000 in
      let returnDate :=
        if oneWay then None
        else Some (departureDate + 7 * 24 * 60 * 60 * 1000) in
      let* r := Math_random env in
      ret {| en_type := "flight-destination";
             en_origin := origin;
             en_destination := fst (fst dest);
             en_departureDate := toISODate env departureDate;
             en_returnDate := toISODate env <$> returnDate;
             en_priceTotal := Some (toFixed2 (inject_Z (snd dest) + r * 50));
             en_iataCode := "";
             en_name := "";
             en_cityName := "" |})
      (List.filter (fun dest : string * string * Z => snd dest <=? maxPrice)
         mockDestinations) in
  ret {| access_token := "";
         expires_in := 0;
         body_data := Some (Some <$> data);
         meta_count := Z.of_nat (length data) |}.

(** [getMockPriceTrendsForRoute] *)
Fixpoint mockTrends_loop (n : nat) (i : Z) (trends : list PriceDataPoint)
    : M (list PriceDataPoint) :=
  match n with
  | O => ret trends
  | S n' =>
      let* now := Date_now env in
      let date := addDays env now i in
      let* r := Math_random env in
      let fluctuation := ((8 # 10) + r * (4 # 10))%Q in
      let price := Math_round (300 * fluctuation) in
      let* picked := randomElement MOCK_AIRLINES in
      let* airline := member picked in
      mockTrends_loop n' (i + 1)
        (trends ++ [{| pd_date := toISODate env date;
                       pd_price := inject_Z price;
                       pd_airline := airline_name airline |}])
  end.

Definition getMockPriceTrendsForRoute (origin destination : string)
    : M (list PriceDataPoint) :=
  mockTrends_loop 7 0 [].

(** [getMockAirportSuggestions] *)
Definition getMockAirportSuggestions (query : string) : list Airport :=
  if decide (query = "") then []
  else
    take 8 (List.filter (fun airport =>
      includes (toLowerCase env (code airport)) (toLowerCase env query) ||
      includes (toLowerCase env (city airport)) (toLowerCase env query) ||
      includes (toLowerCase env (name airport)) (toLowerCase env query))
      MOCK_AIRPORTS).

End Synthesis.

(** ** The operations of [FlightAPI] *)

Module FlightAPI.
Section Operations.
Context (cfg : Config) (env : Env).

Definition boolToString (b : bool) : string := if b then "true" else "false".

(** The cache keys of the three operations. *)
Definition inspirationKey (origin : string) (maxPrice : Z) (oneWay : bool)
    : string :=
  "inspiration_" +:+ origin +:+ "_" +:+ pretty maxPrice +:+ "_"
    +:+ boolToString oneWay.

Definition cheapestDatesKey (origin destination : string) (oneWay : bool)
    : string :=
  "cheapest_dates_" +:+ origin +:+ "_" +:+ destination +:+ "_"
    +:+ boolToString oneWay.

Definition airportsKey (query : string) : string :=
  "airports_" +:+ toLowerCase env query.

(** The live part shared by the three operations: [recordCall], then the
    token, then the request. *)
Definition liveCall (request : string -> Request) : M Body :=
  do* recordCall env in
  let* token := getAmadeusToken cfg env in
  axios env (request token).

(** [getFlightInspiration] *)
Definition getFlightInspiration (origin : string) (maxPrice : Z)
    (oneWay : bool) : M Body :=
  let cacheKey := inspirationKey origin maxPrice oneWay in
  let* cached := cacheGet env inspirationRegion cacheKey in
  match cached with
  | Some d => ret d
  | None =>
      if MOCK_MODE cfg then getMockInspirationData env origin maxPrice oneWay
      else
        let* rateLimitCheck := canMakeCall env in
        if negb (APIRateLimiter.allowed rateLimitCheck)
        then getMockInspirationData env origin maxPrice oneWay
        else
          try_catch
            (let* body :=
               liveCall (fun token =>
                 GetFlightDestinations token origin maxPrice oneWay) in
             do* cacheSet env inspirationRegion cacheKey body 24 in
             ret body)
            (fun error =>
               if isAxiosError error
               then getMockInspirationData env origin maxPrice oneWay
               else throw error)
  end.

(** The price points read from [response.data.data]: the loop of
    [forEach], with the points pushed so far.  Reading [item.price] of an
    element that is [null] throws a [TypeError]. *)
Fixpoint extractPriceTrends (items : list (option Entry))
    (priceTrends : list PriceDataPoint) : M (list PriceDataPoint) :=
  match items with
  | [] => ret priceTrends
  | None :: _ => throw TypeError
  | Some item :: rest =>
      match en_priceTotal item with
      | Some total =>
          extractPriceTrends rest
            (priceTrends ++ [{| pd_date := en_departureDate item;
                                pd_price := total;
                                pd_airline := "Various" |}])
      | None => extractPriceTrends rest priceTrends
      end
  end.

(** [getFlightCheapestDates] *)
Definition getFlightCheapestDates (origin destination : string)
    (oneWay : bool) : M (list PriceDataPoint) :=
  if decide (origin = destination)
  then getMockPriceTrendsForRoute env origin destination
  else
    let cacheKey := cheapestDatesKey origin destination oneWay in
    let* cached := cacheGet env trendsRegion cacheKey in
    match cached with
    | Some d => ret d
    | None =>
        if MOCK_MODE cfg then getMockPriceTrendsForRoute env origin destination
        else
          let* rateLimitCheck := canMakeCall env in
          if negb (APIRateLimiter.allowed rateLimitCheck)
          then getMockPriceTrendsForRoute env origin destination
          else
            try_catch
              (let* body :=
                 liveCall (fun token =>
                   GetFlightDates token origin destination oneWay) in
               match body_data body with
               | Some items =>
                   let* extracted := extractPriceTrends items [] in
                   let priceTrends :=
                     sort_by (fun p => dateValue env (pd_date p)) extracted in
                   do* cacheSet env trendsRegion cacheKey priceTrends 168 in
                   ret priceTrends
               | None => getMockPriceTrendsForRoute env origin destination
               end)
              (fun error =>
                 if isAxiosError error
                 then getMockPriceTrendsForRoute env origin destination
                 else throw error)
    end.

(** [getPriceTrends] *)
Definition getPriceTrends (params : SearchParams) : M (list PriceDataPoint) :=
  if decide (sp_origin params = sp_destination params)
  then getMockPriceTrendsForRoute env (sp_origin params) (sp_destination params)
  else getFlightCheapestDates (sp_origin params) (sp_destination params) false.

(** [priceTrends.reduce((sum, p) => sum + p.price, 0) / priceTrends.length],
    or 300 for no price point. *)
Definition averagePrice (priceTrends : list PriceDataPoint) : Q :=
  match priceTrends with
  | [] => 300
  | _ =>
      (fold_left (fun sum p => sum + pd_price p) priceTrends 0
         / inject_Z (Z.of_nat (length priceTrends)))%Q
  end.

(** [searchFlights]; the object it logs first holds the departure date
    as [toISOString] gives it. *)
Definition searchFlights (params : SearchParams) : M (list Flight) :=
  let* departureDate := isoDate env (sp_departureDate params) in
  if decide (sp_origin params = sp_destination params)
  then generateEnhancedMockFlights env params None
  else if MOCK_MODE cfg
  then generateEnhancedMockFlights env params None
  else
    try_catch
      (let* priceTrends := getPriceTrends params in
       let avgPrice := averagePrice priceTrends in
       generateEnhancedMockFlights env params (Some avgPrice))
      (fun _ => generateEnhancedMockFlights env params None).

(** The suggestions made of [response.data.data]. *)
Definition uniqueByCode (self : list Airport) : list Airport :=
  filter_indexed
    (fun suggestion index =>
       bool_decide
         (findIndex (fun s => String.eqb (code s) (code suggestion)) self
          = Some index))
    O self.

(** [.filter(location => location.iataCode && location.name)]: reading
    [location.iataCode] of an element that is [null] throws a
    [TypeError]. *)
Fixpoint namedLocations (items : list (option Entry)) : M (list Entry) :=
  match items with
  | [] => ret []
  | None :: _ => throw TypeError
  | Some location :: rest =>
      let* kept := namedLocations rest in
      ret (if negb (String.eqb (en_iataCode location) "")
              && negb (String.eqb (en_name location) "")
           then location :: kept else kept)
  end.

Definition toSuggestions (items : list (option Entry)) : M (list Airport) :=
  let* locations := namedLocations items in
  ret (take 8
         (uniqueByCode
            (map (fun location =>
                    {| code := en_iataCode location;
                       name := en_name location;
                       city := if decide (en_cityName location = "")
                               then "Unknown" else en_cityName location |})
               locations))).

(** [getAirportSuggestions] *)
Definition getAirportSuggestions (query : string) : M (list Airport) :=
  if (length16 query <? 2)%nat then ret []
  else
    let cacheKey := airportsKey query in
    let* cached := cacheGet env airportsRegion cacheKey in
    match cached with
    | Some d => ret d
    | None =>
        if MOCK_MODE cfg then ret (getMockAirportSuggestions env query)
        else
          let* rateLimitCheck := canMakeCall env in
          if negb (APIRateLimiter.allowed rateLimitCheck)
          then ret (getMockAirportSuggestions env query)
          else
            try_catch
              (let* body := liveCall (fun token => GetLocations token query) in
               match body_data body with
               | Some items =>
                   let* suggestions := toSuggestions items in
                   do* cacheSet env airportsRegion cacheKey suggestions 168 in
                   ret suggestions
               | None => ret []
               end)
              (fun error =>
                 if isAxiosError error
                 then ret (getMockAirportSuggestions env query)
                 else throw error)
    end.

(** [clearCache] *)
Definition clearCache : M unit :=
  do* modify (fun w =>
        with_airportsCache (APICacheManager.clearAll (airportsCache w))
          (with_trendsCache (APICacheManager.clearAll (trendsCache w))
             (with_inspirationCache
                (APICacheManager.clearAll (inspirationCache w)) w))) in
  do* resetDailyCount env in
  modify (with_tokenInfo None).

(** [checkAPIStatus] *)
Record APIStatus : Type := mkStatus {
  available : bool;
  usingMock : bool;
  message : string
}.

Definition checkAPIStatus : M APIStatus :=
  if MOCK_MODE cfg then
    ret {| available := false; usingMock := true;
           message := "Using mock data (configured)" |}
  else if bool_decide (API_KEY cfg = "")
          || bool_decide (API_KEY cfg = "YOUR_API_KEY_HERE")
          || bool_decide (API_SECRET cfg = "")
          || bool_decide (API_SECRET cfg = "YOUR_API_SECRET_HERE") then
    ret {| available := false; usingMock := true;
           message := "No API credentials configured" |}
  else
    try_catch
      (let* token := getAmadeusToken cfg env in
       let isAuthenticated := negb (bool_decide (token = "")) in
       let* testSuggestions := getAirportSuggestions "JFK" in
       let message :=
         if isAuthenticated
         then "Amadeus API connected. Caching enabled to conserve quota (39 calls/month)."
         else "Amadeus API unavailable" in
       ret {| available := isAuthenticated;
              usingMock := negb isAuthenticated;
              message := message |})
      (fun _ =>
         ret {| available := false; usingMock := true;
                message := "Amadeus API check failed, using hybrid approach" |}).

(** [Object.keys(localStorage)]: the keys of the cache entries and the key
    of the rate limiter's copy.  Their order is left to the browser; the
    one taken here is the order in which the maps list them. *)
Definition storageKeys (w : World) : list string :=
  (map_to_list (inspirationCache w)).*1 ++ (map_to_list (trendsCache w)).*1
    ++ (map_to_list (airportsCache w)).*1
    ++ (match savedCalls w with Some _ => ["amadeus_api_calls"] | None => [] end).

(** [getCacheStats] *)
Record CacheStats : Type := mkCacheStats {
  total : Z;
  keys : list string
}.

Definition getCacheStats : M CacheStats :=
  read (fun w =>
    let keys :=
      List.filter (String.prefix APICacheManager.CACHE_PREFIX) (storageKeys w) in
    {| total := Z.of_nat (length keys);
       keys := map (removeFirst APICacheManager.CACHE_PREFIX) keys |}).

(** [getRateLimitInfo] *)
Definition getRateLimitInfo : M APIRateLimiter.Stats :=
  read (fun w => APIRateLimiter.getStats (limiter w)).

End Operations.
End FlightAPI.

(** ** The callers of [FlightAPI] *)

(** [interface FilterOptions] of src/types; the numbers are the integers
    the controls of the filter panel produce. *)
Record FilterOptions : Type := mkFilters {
  fo_maxPrice : Z;
  fo_stops : list Z;
  fo_airlines : list string;
  fo_departureTimeRange : Z * Z
}.

(** [Partial<FilterOptions>] *)
Record PartialFilterOptions : Type := mkPartial {
  pf_maxPrice : option Z;
  pf_stops : option (list Z);
  pf_airlines : option (list string);
  pf_departureTimeRange : option (Z * Z)
}.

(** *** The hook [useFlights] (src/hooks/useFlights.ts) *)

Module useFlights.

(** The state variables of the hook. *)
Record State : Type := mkState {
  flights : list Flight;
  filteredFlights : list Flight;
  loading : bool;
  error : option string;
  searchParams : option SearchParams;
  filters : FilterOptions
}.

(** The initial values given to [useState]. *)
Definition initial : State :=
  {| flights := [];
     filteredFlights := [];
     loading := false;
     error := None;
     searchParams := None;
     filters := {| fo_maxPrice := 1000;
                   fo_stops := [0; 1; 2];
                   fo_airlines := [];
                   fo_departureTimeRange := (0, 24) |} |}.

(** The callback given to [flightList.filter] in [applyFilters]; a
    departure hour that is NaN passes both comparisons. *)
Definition passes (filterOptions : FilterOptions) (flight : Flight) : bool :=
  if fo_maxPrice filterOptions <? price flight then false
  else if negb (existsb (Z.eqb (stops flight)) (fo_stops filterOptions))
  then false
  else if (0 <? length (fo_airlines filterOptions))%nat
          && negb (existsb (String.eqb (airline flight))
                     (fo_airlines filterOptions))
  then false
  else
    match parseInt (firstField (departureTime flight)) with
    | Some departureHour =>
        if (departureHour <? fst (fo_departureTimeRange filterOptions))
           || (snd (fo_departureTimeRange filterOptions) <? departureHour)
        then false else true
    | None => true
    end.

(** [applyFilters]: the list handed to [setFilteredFlights]. *)
Definition applyFilters (flightList : list Flight)
    (filterOptions : FilterOptions) : list Flight :=
  List.filter (passes filterOptions) flightList.

Section Hook.
Context (cfg : Config) (env : Env).

(** [search], from the state of the render in which it was made to the
    state once the updates it queued are applied. *)
Definition search (params : SearchParams) (h : State) : M State :=
  try_catch
    (let* results := FlightAPI.searchFlights cfg env params in
     ret {| flights := results;
            filteredFlights := applyFilters results (filters h);
            loading := false;
            error := None;
            searchParams := Some params;
            filters := filters h |})
    (fun _ =>
       ret {| flights := [];
              filteredFlights := [];
              loading := false;
              error := Some "Failed to search flights. Please try again.";
              searchParams := Some params;
              filters := filters h |}).

End Hook.

(** [updateFilters]: [setFilters(prev => ({ ...prev, ...newFilters }))] *)
Definition updateFilters (newFilters : PartialFilterOptions) (h : State)
    : State :=
  let prev := filters h in
  {| flights := flights h;
     filteredFlights := filteredFlights h;
     loading := loading h;
     error := error h;
     searchParams := searchParams h;
     filters :=
       {| fo_maxPrice := default (fo_maxPrice prev) (pf_maxPrice newFilters);
          fo_stops := default (fo_stops prev) (pf_stops newFilters);
          fo_airlines := default (fo_airlines prev) (pf_airlines newFilters);
          fo_departureTimeRange :=
            default (fo_departureTimeRange prev)
              (pf_departureTimeRange newFilters) |} |}.

(** The effect that runs after a render in which [filters] or [flights]
    changed. *)
Definition effect (h : State) : State :=
  if (0 <? length (flights h))%nat then
    {| flights := flights h;
       filteredFlights := applyFilters (flights h) (filters h);
       loading := loading h;
       error := error h;
       searchParams := searchParams h;
       filters := filters h |}
  else h.

End useFlights.

(** *** The filter panel (src/components/Filters/FlightFilters.tsx) *)

Module FlightFilters.

Definition noChange : PartialFilterOptions :=
  {| pf_maxPrice := None; pf_stops := None; pf_airlines := None;
     pf_departureTimeRange := None |}.

(** [handleStopsChange]: the argument it gives to [onFilterChange]. *)
Definition handleStopsChange (filters : FilterOptions) (stops : Z)
    : PartialFilterOptions :=
  let currentStops := fo_stops filters in
  if existsb (Z.eqb stops) currentStops then
    {| pf_maxPrice := None;
       pf_stops := Some (List.filter (fun s => negb (s =? stops)) currentStops);
       pf_airlines := None; pf_departureTimeRange := None |}
  else
    {| pf_maxPrice := None;
       pf_stops := Some (currentStops ++ [stops]);
       pf_airlines := None; pf_departureTimeRange := None |}.

(** [handleAirlineChange] *)
Definition handleAirlineChange (filters : FilterOptions) (airline : string)
    : PartialFilterOptions :=
  let currentAirlines := fo_airlines filters in
  if existsb (String.eqb airline) currentAirlines then
    {| pf_maxPrice := None; pf_stops := None;
       pf_airlines :=
         Some (List.filter (fun a => negb (String.eqb a airline)) currentAirlines);
       pf_departureTimeRange := None |}
  else
    {| pf_maxPrice := None; pf_stops := None;
       pf_airlines := Some (currentAirlines ++ [airline]);
       pf_departureTimeRange := None |}.

End FlightFilters.

(** *** The page (src/App.tsx) *)

Module App.
Section Page.
Context (cfg : Config) (env : Env).

(** [fetchPriceTrends]: the values it leaves in [priceTrendData] and in
    [priceTrendsLoading]. *)
Definition fetchPriceTrends (params : SearchParams)
    : M (list PriceDataPoint * bool) :=
  try_catch
    (let* trends := FlightAPI.getPriceTrends cfg env params in
     ret (trends, false))
    (fun _ => ret ([], false)).

End Page.

(** [calculateAveragePrice] *)
Definition calculateAveragePrice (filteredFlights : list Flight) : Z :=
  match filteredFlights with
  | [] => 0
  | _ =>
      let total :=
        fold_left (fun sum flight => sum + price flight) filteredFlights 0 in
      Math_round
        (inject_Z total / inject_Z (Z.of_nat (length filteredFlights)))%Q
  end.

End App.

(** *** The search form (src/components/FlightSearch/SearchForm.tsx) *)

Module SearchForm.

Definition FALLBACK_AIRPORTS : list Airport :=
  [ mkAirport "JFK" "John F. Kennedy International" "New York";
    mkAirport "LAX" "Los Angeles International" "Los Angeles";
    mkAirport "ORD" "O'Hare International" "Chicago";
    mkAirport "DFW" "Dallas/Fort Worth International" "Dallas";
    mkAirport "MIA" "Miami International" "Miami";
    mkAirport "SEA" "Seattle–Tacoma International" "Seattle";
    mkAirport "ATL" "Hartsfield-Jackson Atlanta" "Atlanta";
    mkAirport "DEN" "Denver International" "Denver";
    mkAirport "SFO" "San Francisco International" "San Francisco";
    mkAirport "LAS" "Harry Reid International" "Las Vegas";
    mkAirport "BOS" "Logan International" "Boston";
    mkAirport "PHX" "Phoenix Sky Harbor" "Phoenix" ].

Inductive FieldType : Type := origin_field | destination_field.

(** The state variables that hold the suggestions. *)
Record State : Type := mkState {
  originSuggestions : list Airport;
  destinationSuggestions : list Airport;
  isLoadingSuggestions : bool * bool;
  usingAPISuggestions : bool * bool
}.

Definition setAt (type : FieldType) (b : bool) (p : bool * bool) : bool * bool :=
  match type with
  | origin_field => (b, snd p)
  | destination_field => (fst p, b)
  end.

Definition getAt (type : FieldType) (p : bool * bool) : bool :=
  match type with
  | origin_field => fst p
  | destination_field => snd p
  end.

Definition setSuggestions (type : FieldType) (l : list Airport)
    (usingAPI : bool) (s : State) : State :=
  match type with
  | origin_field =>
      {| originSuggestions := l;
         destinationSuggestions := destinationSuggestions s;
         isLoadingSuggestions := isLoadingSuggestions s;
         usingAPISuggestions := setAt type usingAPI (usingAPISuggestions s) |}
  | destination_field =>
      {| originSuggestions := originSuggestions s;
         destinationSuggestions := l;
         isLoadingSuggestions := isLoadingSuggestions s;
         usingAPISuggestions := setAt type usingAPI (usingAPISuggestions s) |}
  end.

Definition setLoading (type : FieldType) (b : bool) (s : State) : State :=
  {| originSuggestions := originSuggestions s;
     destinationSuggestions := destinationSuggestions s;
     isLoadingSuggestions := setAt type b (isLoadingSuggestions s);
     usingAPISuggestions := usingAPISuggestions s |}.

Definition suggestionsOf (type : FieldType) (s : State) : list Airport :=
  match type with
  | origin_field => originSuggestions s
  | destination_field => destinationSuggestions s
  end.

Section Form.
Context (cfg : Config) (env : Env).

(** The local filter of the [catch] block. *)
Definition fallbackResults (query : string) : list Airport :=
  take 5 (List.filter (fun airport =>
    includes (toLowerCase env (code airport)) (toLowerCase env query) ||
    includes (toLowerCase env (city airport)) (toLowerCase env query) ||
    includes (toLowerCase env (name airport)) (toLowerCase env query))
    FALLBACK_AIRPORTS).

(** The function [searchAirports] debounces: from the state when it starts
    to the state once its updates are applied. *)
Definition searchAirports (query : string) (type : FieldType) (s : State)
    : M State :=
  if (length16 query <? 2)%nat then ret (setSuggestions type [] false s)
  else
    let* s' :=
      try_catch
        (let* suggestions := FlightAPI.getAirportSuggestions cfg env query in
         ret (setSuggestions type suggestions true (setLoading type true s)))
        (fun _ =>
           ret (setSuggestions type (fallbackResults query) false
                  (setLoading type true s))) in
    ret (setLoading type false s').

End Form.

End SearchForm.

(** ** Vocabulary of the properties *)

(** [Math.random] answers in the interval from 0 (included) to 1 (excluded). *)
Definition fair (env : Env) : Prop :=
  forall n, (0 <= randomAt env n /\ randomAt env n < 1)%Q.

(** Nothing but the tick of the surroundings differs between two worlds. *)
Definition steady (w w' : World) : Prop := w' = with_tick (tick w') w.

(** A computation that always returns, with a value in [P], and touches
    nothing but the tick. *)
Definition quiet {A} (m : M A) (P : A -> Prop) : Prop :=
  forall w, exists a w', m w = (Return a, w') /\ steady w w' /\ P a.

(** Every run of a computation relates the world before to the world after,
    whether it returns or throws. *)
Definition preserves {A} (R : World -> World -> Prop) (m : M A) : Prop :=
  forall w, R w (snd (m w)).

Definition ascending_by_price (l : list Flight) : Prop :=
  StronglySorted (fun a b => price a <= price b) l.

(** What one round of the loop of [generateEnhancedMockFlights] makes, for
    the base price [base]: the departure hour [h], the minutes [mm] shown
    after it and the factor [v] by which the price varies. *)
Definition flight_shape (base : Q) (f : Flight) : Prop :=
  exists (h : Z) (mm : string) (v : Q),
    6 <= h <= 21 /\ (mm = "00" \/ mm = "30") /\
    ((3 # 4) <= v /\ v < (5 # 4))%Q /\
    departureTime f = pad2 h +:+ ":" +:+ mm /\
    arrivalTime f = calculateArrivalTime h (duration f) /\
    90 <= duration f <= 630 /\
    price f = Math_round (base * v) /\
    (stops f = 0 \/ stops f = 1 \/ stops f = 2).

(** The base price the flights are made from: the argument when it is there
    and is not zero, a number from 200 to 1000 otherwise. *)
Definition actual_base (basePrice : option Q) (base : Q) : Prop :=
  match basePrice with
  | Some b =>
      if Qeq_bool b 0 then (200 <= base /\ base < 1000)%Q else base = b
  | None => (200 <= base /\ base < 1000)%Q
  end.

(** ** Sample surroundings *)

(** Surroundings in which [Math.random] always answers [r], every request
    is answered by [reply], the clock starts at [t0] and moves one
    millisecond with every question, and every write is accepted.  Of the
    characters outside ASCII none is taken for a letter that has a lower
    case, as is so for the dash in the name of the airport of Seattle. *)
Definition sampleEnv (t0 : Z) (r : Q) (reply : Reply) : Env :=
  {| timeAt := fun n => t0 + Z.of_nat n;
     randomAt := fun _ => r;
     replyAt := fun _ => reply;
     writableAt := fun _ => true;
     toDateString := fun _ => "Mon Nov 02 2026";
     toISODate := fun _ => "2026-11-02";
     addDays := fun t i => t + i * 86400000;
     dateValue := fun _ => 0;
     lowerCaseAt := lowerASCII |}.

(** The state of a page that was just loaded at [now] over an empty
    [localStorage]. *)
Definition newWorld (now : Z) : World :=
  {| inspirationCache := ∅;
     trendsCache := ∅;
     airportsCache := ∅;
     savedCalls := None;
     limiter := APIRateLimiter.fresh now;
     tokenInfo := None;
     requests := [];
     tick := O |}.

Definition liveConfig : Config :=
  {| API_KEY := "key"; API_SECRET := "secret"; MOCK_MODE := false |}.

Definition mockConfig : Config :=
  {| API_KEY := "key"; API_SECRET := "secret"; MOCK_MODE := true |}.

Definition route (o d : string) : SearchParams :=
  {| sp_origin := o; sp_destination := d; sp_departureDate := ValidDate 0;
     sp_passengers := (1, 0, 0) |}.


(** The claim on the two times of a flight: the arrival is the departure
    plus the duration, counted in minutes of the day. *)
Definition arrival_consistent (f : Flight) : Prop :=
  exists dep,
    minutesOfDay (departureTime f) = Some dep /\
    minutesOfDay (arrivalTime f) = Some ((dep + duration f) mod 1440).

(** All pairs of an hour and a minute read back as they were written. *)
Definition times_read_back : bool :=
  forallb (fun h =>
    forallb (fun m =>
      bool_decide (minutesOfDay (pad2 h +:+ ":" +:+ pad2 m) = Some (h * 60 + m)))
      (seqZ 0 60))
    (seqZ 0 24).

(** ** [getAmadeusToken] as the specification words it

    The cached token is returned while the clock is before its expiry.
    Otherwise the credentials are exchanged: one request to the token
    endpoint; when the reply carries a token it is kept with an expiry of 25
    minutes from the moment of the reply, and returned; when it does not, or
    the request fails, the operation fails and the token kept so far stays
    as it was. *)
Definition TOKEN_LIFETIME_MS : Z := 30 * 60 * 1000.
Definition TOKEN_MARGIN_MS : Z := 5 * 60 * 1000.

Definition exchange_described (cfg : Config) (env : Env) (w : World)
    : Result string * World :=
  let sent :=
    with_tick (S (tick w))
      (with_requests (requests w ++ [PostToken (API_KEY cfg) (API_SECRET cfg)])
         w) in
  match replyAt env (tick w) with
  | Response body =>
      if decide (access_token body = "")
      then (Throw (Error "Failed to authenticate with Amadeus API"), sent)
      else
        (Return (access_token body),
         with_tokenInfo
           (Some {| accessToken := access_token body;
                    expiresAt := timeAt env (tick sent)
                                 + (TOKEN_LIFETIME_MS - TOKEN_MARGIN_MS) |})
           (with_tick (S (tick sent)) sent))
  | Failure _ =>
      (Throw (Error "Failed to authenticate with Amadeus API"), sent)
  end.

Definition getToken_described (cfg : Config) (env : Env) (w : World)
    : Result string * World :=
  match tokenInfo w with
  | Some ti =>
      if decide (timeAt env (tick w) < expiresAt ti)
      then (Return (accessToken ti), with_tick (S (tick w)) w)
      else exchange_described cfg env (with_tick (S (tick w)) w)
  | None => exchange_described cfg env w
  end.

(** A reply of the token endpoint that grants [token] for [seconds]. *)
Definition tokenBody (token : string) (seconds : Z) : Body :=
  {| access_token := token; expires_in := seconds; body_data := None;
     meta_count := 0 |}.

(** A relation between worlds that looks at one part of them only. *)
Definition via {X} (part : World -> X) (r : relation X) : relation World :=
  fun w w' => r (part w) (part w').

(** The requests sent in between all satisfy [P]. *)
Definition sends (P : Request -> Prop) : relation (list Request) :=
  fun l l' => exists sent, l' = l ++ sent /\ Forall P sent.

(** A request for a token or for the prices of a route by date. *)
Definition price_lookup (r : Request) : Prop :=
  url r = "https://test.api.amadeus.com/v1/security/oauth2/token" \/
  url r = "https://test.api.amadeus.com/v1/shopping/flight-dates".

(** The counters have not gone down: the day counter has not, the window
    has not moved back, and within one window the minute counter has not. *)
Definition quota_grows : relation APIRateLimiter.t :=
  fun s s' =>
    APIRateLimiter.callsToday s <= APIRateLimiter.callsToday s' /\
    APIRateLimiter.minuteStart s <= APIRateLimiter.minuteStart s' /\
    (APIRateLimiter.minuteStart s' = APIRateLimiter.minuteStart s ->
     APIRateLimiter.callsThisMinute s <= APIRateLimiter.callsThisMinute s').

(** The quota check at the world [w] admits the call. *)
Definition admits (env : Env) (w : World) : Prop :=
  APIRateLimiter.allowed
    (fst (APIRateLimiter.canMakeCall (timeAt env (tick w)) (limiter w))) = true.

(** Between [w0], where the quota check starts, and [w'] one unit of quota
    was used: the day counter is one up, the minute counter is one above
    what the check left, and the copy under [amadeus_api_calls] says so
    when the write went through. *)
Definition one_unit_consumed (env : Env) (w0 w' : World) : Prop :=
  let checked := APIRateLimiter.rollover (timeAt env (tick w0)) (limiter w0) in
  APIRateLimiter.callsToday (limiter w')
    = APIRateLimiter.callsToday (limiter w0) + 1 /\
  APIRateLimiter.callsThisMinute (limiter w')
    = APIRateLimiter.callsThisMinute checked + 1 /\
  APIRateLimiter.minuteStart (limiter w') = APIRateLimiter.minuteStart checked /\
  (writableAt env (S (S (tick w0))) = true ->
   savedCalls w' =
   Some (Parsed
     {| APIRateLimiter.sv_callsToday :=
          APIRateLimiter.callsToday (limiter w0) + 1;
        APIRateLimiter.sv_callsThisMinute :=
          APIRateLimiter.callsThisMinute checked + 1;
        APIRateLimiter.sv_minuteStart := APIRateLimiter.minuteStart checked;
        APIRateLimiter.sv_date :=
          toDateString env (timeAt env (S (tick w0))) |})).

(** The part of the world the quota lives in. *)
Definition quota (w : World)
    : APIRateLimiter.t * option (Stored APIRateLimiter.Saved) :=
  (limiter w, savedCalls w).

(** ** Airport suggestions as the specification words them *)

(** [text] contains [query] as a substring, upper and lower case taken as
    the same. *)
Definition contains_ci (env : Env) (text query : string) : Prop :=
  exists before after,
    toLowerCase env text = before +:+ toLowerCase env query +:+ after.

Definition matches (env : Env) (query : string) (a : Airport) : Prop :=
  contains_ci env (code a) query \/ contains_ci env (city a) query \/
  contains_ci env (name a) query.

(** The same, said without [toLowerCase], for texts of ASCII characters:
    two characters are taken as the same when they are the same character
    or the same letter of A to Z, one in upper and one in lower case. *)
Definition same_letter (a b : ascii) : bool :=
  let x := N_of_ascii a in
  let y := N_of_ascii b in
  ((x =? y)
   || ((65 <=? x) && (x <=? 90) && (y =? x + 32))
   || ((65 <=? y) && (y <=? 90) && (x =? y + 32)))%N.

Fixpoint same_letters (s t : string) : bool :=
  match s, t with
  | EmptyString, EmptyString => true
  | String a s', String b t' => same_letter a b && same_letters s' t'
  | _, _ => false
  end.

Definition contains_ignoring_case (text query : string) : Prop :=
  exists before found after,
    text = before +:+ found +:+ after /\ same_letters found query = true.

(** [l] is the roster airports that match [query], in the order of the
    roster, cut after the eighth. *)
Definition roster_matches (env : Env) (query : string) (l : list Airport)
    : Prop :=
  exists candidates,
    l = take 8 candidates /\
    candidates `sublist_of` MOCK_AIRPORTS /\
    forall a, a ∈ candidates <-> a ∈ MOCK_AIRPORTS /\ matches env query a.

(** The entries of the cache of airport suggestions hold at most 8
    airports, no two with the same code. *)
Definition airports_wf (w : World) : Prop :=
  map_Forall
    (fun _ item =>
       match item with
       | Parsed c =>
           (length (APICacheManager.data c) <= 8)%nat /\
           NoDup (code <$> APICacheManager.data c)
       | Unparseable => True
       end)
    (airportsCache w).

(** ** What is read from the array of a reply *)

(** The price point made of an element that has a price. *)
Definition pricePoint (item : Entry) : option PriceDataPoint :=
  match en_priceTotal item with
  | Some total =>
      Some {| pd_date := en_departureDate item;
              pd_price := total;
              pd_airline := "Various" |}
  | None => None
  end.

(** The suggestions made of the elements of an array without [null]: one
    for each element that has a code and a name, the first of each code,
    eight at most. *)
Definition suggestionsMade (locations : list Entry) : list Airport :=
  take 8
    (FlightAPI.uniqueByCode
       (map (fun location =>
               {| code := en_iataCode location;
                  name := en_name location;
                  city := if decide (en_cityName location = "")
                          then "Unknown" else en_cityName location |})
          (List.filter
             (fun location =>
                negb (String.eqb (en_iataCode location) "")
                && negb (String.eqb (en_name location) ""))
             locations))).

(** A reply of the location search naming one place, which also carries a
    token, so that it answers the token request as well. *)
Definition locationsBody (iata placeName cityName : string) : Body :=
  {| access_token := "t"; expires_in := 1799;
     body_data :=
       Some [Some {| en_type := "location"; en_origin := "";
                     en_destination := ""; en_departureDate := "";
                     en_returnDate := None; en_priceTotal := None;
                     en_iataCode := iata; en_name := placeName;
                     en_cityName := cityName |}];
     meta_count := 1 |}.

(** A reply of the search by date with three elements, the second without
    a price and the third for the day before the first; it carries a token
    as well. *)
Definition datedEntry (date : string) (total : option Q) : Entry :=
  {| en_type := "flight-date"; en_origin := "JFK"; en_destination := "LAX";
     en_departureDate := date; en_returnDate := None; en_priceTotal := total;
     en_iataCode := ""; en_name := ""; en_cityName := "" |}.

Definition datesBody : Body :=
  {| access_token := "t"; expires_in := 1799;
     body_data :=
       Some [Some (datedEntry "2026-12-02" (Some 350%Q));
             Some (datedEntry "2026-12-03" None);
             Some (datedEntry "2026-12-01" (Some 300%Q))];
     meta_count := 3 |}.

(** A reply whose array holds one element, which is [null]. *)
Definition nullBody : Body :=
  {| access_token := "t"; expires_in := 1799; body_data := Some [None];
     meta_count := 1 |}.

(** Surroundings that tell the dates "YYYY-MM-DD" apart: the instant of a
    text grows with the number that its digits write. *)
Definition digitsValue (text : string) : Z :=
  (fix go (s : string) (acc : Z) : Z :=
     match s with
     | EmptyString => acc
     | String c rest =>
         match digit_of c with
         | Some d => go rest (acc * 10 + d)
         | None => go rest acc
         end
     end) text 0.

Definition withDates (env : Env) : Env :=
  {| timeAt := timeAt env;
     randomAt := randomAt env;
     replyAt := replyAt env;
     writableAt := writableAt env;
     toDateString := toDateString env;
     toISODate := toISODate env;
     addDays := addDays env;
     dateValue := digitsValue;
     lowerCaseAt := lowerCaseAt env |}.

(** A flight at 06:00 without a stop, and a hook that shows two such
    flights under the filters of a page just loaded. *)
Definition sampleFlight (cost : Z) : Flight :=
  {| id := "ENHANCED-0-0"; airline := "JetBlue"; airlineLogo := "B6";
     flightNumber := "B6100"; origin := "JFK"; destination := "LAX";
     departureTime := "06:00"; arrivalTime := "07:30"; duration := 90;
     price := cost; stops := 0; stopDetails := None;
     aircraft := Some "Boeing 737" |}.

Definition sampleHook : useFlights.State :=
  {| useFlights.flights := [sampleFlight 500; sampleFlight 900];
     useFlights.filteredFlights := [sampleFlight 500; sampleFlight 900];
     useFlights.loading := false;
     useFlights.error := None;
     useFlights.searchParams := None;
     useFlights.filters := useFlights.filters useFlights.initial |}.

(** ** What the mock generators make *)

(** A stop is at one of the hubs and lasts from 60 to 179 minutes. *)
Definition stop_shape (st : StopDetail) : Prop :=
  (exists hub, stop_airport st = Some hub /\ hub ∈ commonHubs) /\
  60 <= stop_duration st <= 179.

(** What round [i] of the loop of [generateEnhancedMockFlights] puts in the
    fields of a flight that [flight_shape] does not speak of. *)
Definition flight_details (params : SearchParams) (i : Z) (f : Flight) : Prop :=
  origin f = sp_origin params /\
  destination f = sp_destination params /\
  (exists a n,
     a ∈ MOCK_AIRLINES /\
     airline f = airline_name a /\ airlineLogo f = airline_code a /\
     100 <= n <= 999 /\ flightNumber f = airline_code a +:+ pretty n) /\
  (exists now : Z, id f = "ENHANCED-" +:+ pretty now +:+ "-" +:+ pretty i) /\
  match stopDetails f with
  | None => stops f = 0
  | Some d =>
      0 < stops f /\ Z.of_nat (length d) = stops f /\ Forall stop_shape d
  end /\
  (exists a, aircraft f = Some a /\ a ∈ aircraftTypes).

(** An entry of the mock inspiration data made for the destination [dest]
    of the list. *)
Definition destination_offer (env : Env) (origin : string) (oneWay : bool)
    (dest : string * string * Z) (e : Entry) : Prop :=
  en_type e = "flight-destination" /\
  en_origin e = origin /\
  en_destination e = fst (fst dest) /\
  (exists p, en_priceTotal e = Some p /\
             (inject_Z (snd dest) <= p /\ p <= inject_Z (snd dest) + 50)%Q) /\
  (exists now,
     en_departureDate e = toISODate env (now + 7 * 86400000) /\
     en_returnDate e =
       if oneWay then None else Some (toISODate env (now + 14 * 86400000))).

(** A point of the mock price trends for the day [i] days from now. *)
Definition trend_point (env : Env) (i : Z) (p : PriceDataPoint) : Prop :=
  (exists z, 240 <= z <= 360 /\ pd_price p = inject_Z z) /\
  (exists a, a ∈ MOCK_AIRLINES /\ pd_airline p = airline_name a) /\
  (exists now, pd_date p = toISODate env (addDays env now i)).

(** All the characters of a string are decimal digits. *)
Fixpoint all_digits (s : string) : bool :=
  match s with
  | EmptyString => true
  | String c rest => bool_decide (is_Some (digit_of c)) && all_digits rest
  end.

(** ** The common shape of the operations that go through the cache

    [getFlightInspiration], [getFlightCheapestDates] (once the origin and
    the destination differ) and [getAirportSuggestions] (once the query has
    two code units) are one pattern: the cache; then, in mock mode, the
    mock data; then the rate limiter, with the mock data on a denial; then
    the live call, with the mock data when it fails with an axios error
    and the error thrown on when it fails with another one. *)
Definition cached_operation {T} (cfg : Config) (env : Env) (rg : Region T)
    (cacheKey : string) (mock : M T) (request : string -> Request)
    (post : Body -> M T) : M T :=
  let* cached := cacheGet env rg cacheKey in
  match cached with
  | Some d => ret d
  | None =>
      if MOCK_MODE cfg then mock
      else
        let* rateLimitCheck := canMakeCall env in
        if negb (APIRateLimiter.allowed rateLimitCheck) then mock
        else
          try_catch
            (let* body := FlightAPI.liveCall cfg env request in post body)
            (fun error => if isAxiosError error then mock else throw error)
  end.

(** The entry under [cacheKey] is there and has not expired at [now]. *)
Definition fresh_entry {T} (ls : gmap string (Stored (APICacheManager.APICache T)))
    (cacheKey : string) (now : Z) (d : T) : Prop :=
  exists c,
    ls !! (APICacheManager.CACHE_PREFIX +:+ cacheKey) = Some (Parsed c) /\
    APICacheManager.data c = d /\
    now - APICacheManager.timestamp c <= APICacheManager.expiry c.

(** The parts of the world the live path works on: the requests sent, the
    rate limiter with its saved copy, and the token. *)
Definition live_state (w : World)
    : list Request * (APIRateLimiter.t * option (Stored APIRateLimiter.Saved))
      * option TokenInfo :=
  (requests w, quota w, tokenInfo w).

(** The two ways in which an operation throws [e] and leaves [w'], both on
    the live path, after a check at [w0] that admitted the call: the token
    could not be had, and the error is the one [getAmadeusToken] makes of
    that; or the array of the reply held a [null], and the error is the
    [TypeError] of reading it. *)
Definition token_failed (cfg : Config) (env : Env) (w : World) (e : Exn)
    (w' : World) : Prop :=
  e = Error "Failed to authenticate with Amadeus API" /\
  exists w0,
    admits env w0 /\ live_state w0 = live_state w /\
    getAmadeusToken cfg env (snd (recordCall env (snd (canMakeCall env w0))))
      = (Throw e, w').

Definition null_in_reply (cfg : Config) (env : Env) (w : World) (e : Exn)
    (w' : World) : Prop :=
  e = TypeError /\
  exists w0 request body items,
    admits env w0 /\ live_state w0 = live_state w /\
    FlightAPI.liveCall cfg env request (snd (canMakeCall env w0))
      = (Return body, w') /\
    body_data body = Some items /\ None ∈ items.

(** A computation that always returns and leaves a part of the world as it
    was. *)
Definition leaves {A X} (part : World -> X) (m : M A) : Prop :=
  forall w, exists a w', m w = (Return a, w') /\ part w' = part w.

(** The price points are in the order of their dates. *)
Definition ascending_by_date (env : Env) (l : list PriceDataPoint) : Prop :=
  StronglySorted
    (fun a b => dateValue env (pd_date a) <= dateValue env (pd_date b)) l.

(** What a tick on the box of [a] makes of the list of the boxes ticked:
    [a] is taken out when it is in the list and put at its end when it is
    not (the two branches of [handleStopsChange] and of
    [handleAirlineChange]). *)
Definition toggled {A} (eqb : A -> A -> bool) (a : A) (l : list A) : list A :=
  if existsb (eqb a) l then List.filter (fun s => negb (eqb s a)) l else l ++ [a].

(* ===================================================================== *)
(** * Properties *)
(* ===================================================================== *)

Module RateLimiterFacts.
Import APIRateLimiter.

Lemma admitted_cons a l :
  admitted (a :: l) = (if at_admitted a then 1 else 0) + admitted l.
Proof. unfold admitted. simpl. destruct (at_admitted a); simpl; lia. Qed.

Lemma admitted_in_window_cons w a l :
  admitted_in_window w (a :: l) =
  (if at_admitted a && (at_window a =? w) then 1 else 0) + admitted_in_window w l.
Proof.
  unfold admitted_in_window. simpl.
  destruct (at_admitted a && (at_window a =? w)); simpl; lia.
Qed.

Lemma Math_ceil_div_1000 (a : Z) :
  Math_ceil (inject_Z a / 1000)%Q = (a + 999) / 1000.
Proof.
  unfold Math_ceil, Qceiling.
  assert (E : (- (inject_Z a / 1000) == inject_Z (- a) / inject_Z 1000)%Q).
  { rewrite inject_Z_opp. change (inject_Z 1000) with 1000%Q. field. }
  rewrite (Qfloor_comp _ _ E), <- Zdiv_Qdiv.
  clear E. Z.div_mod_to_equations. lia.
Qed.

Lemma seconds_until_reset_eq now s :
  seconds_until_reset now s = (60000 - (now - minuteStart s) + 999) / 1000.
Proof. unfold seconds_until_reset. f_equal. lia. Qed.

Lemma canMakeCall_refines now s :
  canMakeCall now s = canMakeCall_described now s.
Proof.
  unfold canMakeCall, canMakeCall_described, rollover,
    MAX_CALLS_PER_MINUTE, MAX_CALLS_PER_DAY.
  rewrite Math_ceil_div_1000.
  destruct (Z.ltb_spec 60000 (now - minuteStart s));
    destruct (decide (now - minuteStart s > 60000)); try lia;
    rewrite seconds_until_reset_eq;
    cbn [callsThisMinute callsToday minuteStart];
    repeat match goal with
    | |- context [?a <=? ?b] => destruct (Z.leb_spec a b)
    | |- context [decide ?P] => destruct (decide P)
    end; try lia; reflexivity.
Qed.

Lemma attempt_state today now s :
  let s1 := rollover now s in
  attempt today now s =
  if (callsThisMinute s1 <? 10) && (callsToday s1 <? 39)
  then ({| at_now := now; at_window := minuteStart s1; at_admitted := true |},
        {| callsToday := callsToday s1 + 1;
           callsThisMinute := callsThisMinute s1 + 1;
           minuteStart := minuteStart s1 |})
  else ({| at_now := now; at_window := minuteStart s1; at_admitted := false |}, s1).
Proof.
  unfold attempt, canMakeCall, MAX_CALLS_PER_MINUTE, MAX_CALLS_PER_DAY. cbv zeta.
  destruct (Z.leb_spec 10 (callsThisMinute (rollover now s)));
    destruct (Z.ltb_spec (callsThisMinute (rollover now s)) 10); try lia; simpl; [done|].
  destruct (Z.leb_spec 39 (callsToday (rollover now s)));
    destruct (Z.ltb_spec (callsToday (rollover now s)) 39); try lia; done.
Qed.

Lemma run_cons today now rest s :
  run today (now :: rest) s =
  (fst (attempt today now s) :: fst (run today rest (snd (attempt today now s))),
   snd (run today rest (snd (attempt today now s)))).
Proof.
  simpl. destruct (attempt today now s) as [a s1]. simpl.
  by destruct (run today rest s1).
Qed.

(** Windows are told apart by their start: a reset moves [minuteStart]
    strictly forward, whatever the clock does. *)
Lemma run_window_bound today times : forall s,
  let l := fst (run today times s) in
  admitted_in_window (minuteStart s) l <= Z.max 0 (10 - callsThisMinute s) /\
  (forall w, minuteStart s < w -> admitted_in_window w l <= 10) /\
  (forall w, w < minuteStart s -> admitted_in_window w l = 0).
Proof.
  induction times as [|now rest IH]; intros s; cbv zeta.
  - simpl. unfold admitted_in_window. simpl. repeat split; intros; lia.
  - rewrite run_cons. cbn [fst]. rewrite attempt_state. cbv zeta.
    unfold rollover.
    destruct (Z.ltb_spec 60000 (now - minuteStart s)) as [Hr|Hr];
      cbn [callsThisMinute callsToday minuteStart];
      match goal with |- context [if ?b then _ else _] => destruct b eqn:Hb end;
      cbn [fst snd];
      match goal with |- context [run today rest ?s1] =>
        destruct (IH s1) as (IH1 & IH2 & IH3) end;
      cbn [callsThisMinute callsToday minuteStart] in *;
      repeat split; intros; rewrite admitted_in_window_cons;
      cbn [at_admitted at_window andb];
      repeat match goal with
      | |- context [?a =? ?b] => destruct (Z.eqb_spec a b); subst
      | H : (_ && _)%bool = true |- _ => apply andb_prop in H; destruct H
      | H : (_ <? _) = true |- _ => apply Z.ltb_lt in H
      end;
      try lia;
      try (specialize (IH2 w); lia); try (specialize (IH3 w); lia);
      try (specialize (IH3 (minuteStart s)); lia);
      (destruct (Z.lt_trichotomy w now) as [?|[?|?]];
       [specialize (IH3 w) | subst w | specialize (IH2 w)]; lia).
Qed.

(** [initialize] starts the day counter over when the saved date is not
    today's, and takes it over when it is. *)
Lemma initialize_day d now today s :
  callsToday (initialize (Some (Parsed d)) now today s)
  = if decide (sv_date d = today) then sv_callsToday d else 0.
Proof.
  unfold initialize, or_default. destruct (decide (sv_date d = today)); [|done].
  simpl. by destruct (Z.eqb_spec (sv_callsToday d) 0).
Qed.

Lemma rollover_callsToday now s : callsToday (rollover now s) = callsToday s.
Proof. unfold rollover. by destruct (60000 <? now - minuteStart s). Qed.

Lemma run_day_bound today times : forall s,
  let l := fst (run today times s) in
  callsToday s + admitted l <= Z.max 39 (callsToday s).
Proof.
  induction times as [|now rest IH]; intros s; cbv zeta.
  - simpl. unfold admitted. simpl. lia.
  - rewrite run_cons. cbn [fst]. rewrite admitted_cons, attempt_state. cbv zeta.
    destruct ((callsThisMinute (rollover now s) <? 10)
              && (callsToday (rollover now s) <? 39)) eqn:Hb;
      cbn [fst snd at_admitted];
      match goal with |- context [run today rest ?s1] => specialize (IH s1) end;
      cbv zeta in IH; cbn [callsToday] in IH.
    + apply andb_prop in Hb. destruct Hb as [_ Hd]. apply Z.ltb_lt in Hd.
      rewrite rollover_callsToday in *. lia.
    + rewrite rollover_callsToday in *. lia.
Qed.

Lemma run_within_window today times : forall s,
  Forall (fun a => at_now a - at_window a <= 60000) (fst (run today times s)).
Proof.
  induction times as [|now rest IH]; intros s.
  - constructor.
  - rewrite run_cons. cbn [fst]. constructor; [|apply IH].
    rewrite attempt_state. cbv zeta.
    assert (now - minuteStart (rollover now s) <= 60000).
    { unfold rollover. destruct (Z.ltb_spec 60000 (now - minuteStart s));
        cbn [minuteStart]; lia. }
    by destruct (_ && _).
Qed.

(** C2, as stated, does not hold when "any one 60000 ms rolling window" is
    any interval of 60000 ms: the counter is anchored at [minuteStart].  A
    tracker created at time 0 admits ten calls at 59000 ms and ten more at
    61000 ms, twenty calls within two seconds. *)
Lemma rolling_window_counterexample :
  ~ (forall (today : string) (times : list Z) (t0 : Z),
        admitted_between t0 (fst (run today times (fresh 0)))
        <= MAX_CALLS_PER_MINUTE).
Proof.
  intros H.
  specialize (H "Mon Nov 02 2026" (burst 59000 61000) 59000).
  vm_compute in H. by apply H.
Qed.

(** C2, amended.  From a state whose counters are not negative, every
    sequence of [canMakeCall]/[recordCall] pairs admits at most 10 calls in
    each window of the tracker (the calls checked while [minuteStart] holds
    one value [w], each of them at most 60000 ms after [w]) and at most 39
    calls altogether, the day counter being reset by nothing in such a
    sequence; and [canMakeCall] is the function the specification
    describes: reset of the window when [now - minuteStart > 60000], then
    denial with the seconds to wait, then denial on the daily ceiling, else
    admission with [callsLeft = 39 - callsToday]. *)
Theorem rate_limiter_ceilings (today : string) (times : list Z) (s : t) :
  0 <= callsThisMinute s ->
  0 <= callsToday s ->
  (forall w, admitted_in_window w (fst (run today times s))
             <= MAX_CALLS_PER_MINUTE) /\
  Forall (fun a => at_now a - at_window a <= 60000) (fst (run today times s)) /\
  admitted (fst (run today times s)) <= MAX_CALLS_PER_DAY /\
  (forall now, canMakeCall now s = canMakeCall_described now s).
Proof.
  intros Hm Hd. unfold MAX_CALLS_PER_MINUTE, MAX_CALLS_PER_DAY.
  destruct (run_window_bound today times s) as (W1 & W2 & W3).
  pose proof (run_day_bound today times s) as D. cbv zeta in *.
  repeat split.
  - intros w. destruct (Z.lt_trichotomy w (minuteStart s)) as [?|[->|?]].
    + rewrite W3; lia.
    + lia.
    + by apply W2.
  - apply run_within_window.
  - lia.
  - intros now. apply canMakeCall_refines.
Qed.

Lemma rate_limiter_ceilings_witness :
  (0 <= callsThisMinute (fresh 0) /\ 0 <= callsToday (fresh 0)) /\
  (forall w, admitted_in_window w
               (fst (run "Mon Nov 02 2026" (burst 59000 61000) (fresh 0)))
             <= MAX_CALLS_PER_MINUTE) /\
  Forall (fun a => at_now a - at_window a <= 60000)
         (fst (run "Mon Nov 02 2026" (burst 59000 61000) (fresh 0))) /\
  admitted (fst (run "Mon Nov 02 2026" (burst 59000 61000) (fresh 0)))
    <= MAX_CALLS_PER_DAY /\
  (forall now, canMakeCall now (fresh 0) = canMakeCall_described now (fresh 0)).
Proof.
  split; [simpl; lia|].
  apply (rate_limiter_ceilings "Mon Nov 02 2026" (burst 59000 61000) (fresh 0));
    simpl; lia.
Defined.

End RateLimiterFacts.

Module CacheFacts.
Import APICacheManager.

Section Laws.
Context {T : Type}.
Implicit Types (ls : gmap string (Stored (APICache T))) (v : T).

Lemma get_after_set key v ttlHours t0 t1 ls :
  get key t1 (set key v ttlHours t0 true ls) =
  if ttlHours * 60 * 60 * 1000 <? t1 - t0
  then (None, delete (CACHE_PREFIX +:+ key) ls)
  else (Some v, set key v ttlHours t0 true ls).
Proof.
  unfold get, set. rewrite lookup_insert_eq. cbn [expiry timestamp data].
  destruct (_ <? _); [|done]. by rewrite delete_insert_eq.
Qed.

(** A write that [localStorage] refuses is swallowed: the store is left as
    it was. *)
Lemma set_refused key v ttlHours t0 ls : set key v ttlHours t0 false ls = ls.
Proof. done. Qed.

(** C3.  After [set(key, v, ttlHours)] at [t0] has been stored, [get(key)]
    at [t1] returns [v] exactly when the time elapsed, [t1 - t0], is at most
    [ttlHours] hours in milliseconds; it returns [null] exactly when the
    elapsed time exceeds that, and exactly then the entry is gone from the
    store afterwards. *)
Theorem cache_round_trip key v ttlHours t0 t1 ls :
  (fst (get key t1 (set key v ttlHours t0 true ls)) = Some v
     <-> t1 - t0 <= ttlHours * 3600000) /\
  (fst (get key t1 (set key v ttlHours t0 true ls)) = None
     <-> ttlHours * 3600000 < t1 - t0) /\
  (snd (get key t1 (set key v ttlHours t0 true ls)) !! (CACHE_PREFIX +:+ key)
     = None
     <-> ttlHours * 3600000 < t1 - t0).
Proof.
  rewrite get_after_set.
  destruct (Z.ltb_spec (ttlHours * 60 * 60 * 1000) (t1 - t0)); cbn [fst snd].
  - rewrite lookup_delete_eq. repeat split; intros; try done; lia.
  - unfold set. rewrite lookup_insert_eq. repeat split; intros; try done; lia.
Qed.

End Laws.

Example cache_25_hours_after_24 :
  fst (get "inspiration_JFK_1000_false" (25 * 3600000)
         (set "inspiration_JFK_1000_false" 7 24 0 true ∅)) = None.
Proof. reflexivity. Qed.

End CacheFacts.

(** ** Reasoning about state transformers *)

Module MonadFacts.

Lemma steady_refl w : steady w w.
Proof. by destruct w. Qed.

Lemma steady_trans w1 w2 w3 : steady w1 w2 -> steady w2 w3 -> steady w1 w3.
Proof. unfold steady. intros -> ->. by destruct w1. Qed.

Lemma steady_tick w n : steady w (with_tick n w).
Proof. by destruct w. Qed.

Lemma quiet_ret {A} (a : A) (P : A -> Prop) : P a -> quiet (ret a) P.
Proof. intros Ha w. exists a, w. auto using steady_refl. Qed.

Lemma quiet_bind {A B} (m : M A) (k : A -> M B) (P : A -> Prop) (Q : B -> Prop) :
  quiet m P -> (forall a, P a -> quiet (k a) Q) -> quiet (bind m k) Q.
Proof.
  intros Hm Hk w. destruct (Hm w) as (a & w1 & E1 & S1 & Pa).
  destruct (Hk a Pa w1) as (b & w2 & E2 & S2 & Qb).
  exists b, w2. unfold bind. rewrite E1. eauto using steady_trans.
Qed.

Lemma quiet_weaken {A} (m : M A) (P Q : A -> Prop) :
  quiet m P -> (forall a, P a -> Q a) -> quiet m Q.
Proof.
  intros Hm HPQ w. destruct (Hm w) as (a & w1 & E1 & S1 & Pa). eauto 6.
Qed.

Lemma quiet_Date_now env : quiet (Date_now env) (fun _ => True).
Proof. intros w. eexists _, _. split; [reflexivity|]. split; [apply steady_tick|done]. Qed.

Lemma quiet_Math_random env :
  fair env -> quiet (Math_random env) (fun r => (0 <= r /\ r < 1)%Q).
Proof.
  intros F w. eexists _, _. split; [reflexivity|].
  split; [apply steady_tick | apply F].
Qed.

Lemma quiet_try_catch {A} (m : M A) (h : Exn -> M A) (P : A -> Prop) :
  quiet m P -> quiet (try_catch m h) P.
Proof.
  intros Hm w. destruct (Hm w) as (a & w1 & E1 & S1 & Pa).
  exists a, w1. unfold try_catch. by rewrite E1.
Qed.

(** *** Relations kept by every run *)

Global Instance via_preorder {X} (part : World -> X) (r : relation X) :
  PreOrder r -> PreOrder (via part r).
Proof.
  intros [Hr Ht]. split.
  - intros w. apply Hr.
  - intros w1 w2 w3. unfold via. apply Ht.
Qed.

Global Instance sends_preorder P : PreOrder (sends P).
Proof.
  split.
  - intros l. exists []. by rewrite app_nil_r.
  - intros l1 l2 l3 (s1 & -> & H1) (s2 & -> & H2).
    exists (s1 ++ s2). rewrite app_assoc. split; [done|].
    by apply Forall_app.
Qed.

Global Instance quota_grows_preorder : PreOrder quota_grows.
Proof.
  split.
  - intros s. unfold quota_grows. lia.
  - intros s1 s2 s3 (A1 & B1 & C1) (A2 & B2 & C2). unfold quota_grows.
    split; [lia|]. split; [lia|]. intros E.
    assert (APIRateLimiter.minuteStart s2 = APIRateLimiter.minuteStart s1) by lia.
    assert (APIRateLimiter.minuteStart s3 = APIRateLimiter.minuteStart s2) by lia.
    specialize (C1 ltac:(done)). specialize (C2 ltac:(done)). lia.
Qed.

Section Preserves.
Context (R : relation World) `{!PreOrder R}.

Lemma preserves_ret {A} (a : A) : preserves R (ret a).
Proof. intros w. simpl. reflexivity. Qed.

Lemma preserves_throw {A} e : preserves R (@throw A e).
Proof. intros w. simpl. reflexivity. Qed.

Lemma preserves_read {A} (f : World -> A) : preserves R (read f).
Proof. intros w. simpl. reflexivity. Qed.

Lemma preserves_bind {A B} (m : M A) (k : A -> M B) :
  preserves R m -> (forall a, preserves R (k a)) -> preserves R (bind m k).
Proof.
  intros Hm Hk w. unfold bind. specialize (Hm w).
  destruct (m w) as [[a|e] w1]; simpl in *; [|done].
  etransitivity; [exact Hm|apply Hk].
Qed.

Lemma preserves_try_catch {A} (m : M A) (h : Exn -> M A) :
  preserves R m -> (forall e, preserves R (h e)) -> preserves R (try_catch m h).
Proof.
  intros Hm Hh w. unfold try_catch. specialize (Hm w).
  destruct (m w) as [[a|e] w1]; simpl in *; [done|].
  etransitivity; [exact Hm|apply Hh].
Qed.

Lemma preserves_steady {A} (m : M A) (P : A -> Prop) :
  (forall w n, R w (with_tick n w)) -> quiet m P -> preserves R m.
Proof.
  intros Htick Hq w. destruct (Hq w) as (a & w' & E & S & _).
  rewrite E. simpl. rewrite S. apply Htick.
Qed.

End Preserves.

(** A run that leaves a part of the world as it was keeps every relation
    on that part. *)
Lemma preserves_part {X A} (part : World -> X) (r : relation X) (m : M A) :
  PreOrder r ->
  (forall w, part (snd (m w)) = part w) ->
  preserves (via part r) m.
Proof. intros Hr H w. unfold via. rewrite H. reflexivity. Qed.

End MonadFacts.

(** ** The mock generators *)

Module SynthesisFacts.
Import MonadFacts.

Lemma Qfloor_lower (x : Q) (z : Z) : (inject_Z z <= x)%Q -> z <= Qfloor x.
Proof. intros H. rewrite <- (Qfloor_Z z). by apply Qfloor_resp_le. Qed.

Lemma Qfloor_upper (x : Q) (z : Z) : (x < inject_Z z)%Q -> Qfloor x < z.
Proof.
  intros H. pose proof (Qfloor_le x) as L.
  rewrite Zlt_Qlt. by eapply Qle_lt_trans.
Qed.

Lemma Q_of_Z_le (a b : Z) : a <= b -> (inject_Z a <= inject_Z b)%Q.
Proof. by rewrite <- Zle_Qle. Qed.

Lemma Q_of_Z_lt (a b : Z) : a < b -> (inject_Z a < inject_Z b)%Q.
Proof. by rewrite <- Zlt_Qlt. Qed.

Lemma Math_floor_scaled (r : Q) (n : Z) :
  (0 <= r /\ r < 1)%Q -> 0 < n -> 0 <= Math_floor (r * inject_Z n) < n.
Proof.
  intros [H0 H1] Hn. unfold Math_floor.
  assert (0 < inject_Z n)%Q by (by apply (Q_of_Z_lt 0 n)).
  split.
  - apply Qfloor_lower. change (inject_Z 0) with 0%Q.
    apply Qmult_le_0_compat; [done | by apply Qlt_le_weak].
  - apply Qfloor_upper.
    eapply Qlt_le_trans; [apply Qmult_lt_compat_r; eassumption|].
    rewrite Qmult_1_l. apply Qle_refl.
Qed.

Lemma at_index_in_range {A} (arr : list A) (i : Z) :
  0 <= i < Z.of_nat (length arr) -> is_Some (at_index arr i).
Proof.
  intros H. unfold at_index. destruct (Z.ltb_spec i 0); [lia|].
  apply lookup_lt_is_Some. lia.
Qed.

Section Generators.
Context (env : Env) (Hfair : fair env).

Lemma quiet_randomElement {A} (arr : list A) :
  (0 < length arr)%nat -> quiet (randomElement env arr) is_Some.
Proof.
  intros Hlen. unfold randomElement.
  eapply quiet_bind; [by apply quiet_Math_random|]. intros r Hr.
  apply quiet_ret. apply at_index_in_range.
  apply Math_floor_scaled; [done|lia].
Qed.

Lemma quiet_anyElement {A} (arr : list A) :
  quiet (randomElement env arr) (fun _ => True).
Proof.
  unfold randomElement.
  eapply quiet_bind; [by apply quiet_Math_random|]. intros r Hr.
  by apply quiet_ret.
Qed.

Lemma quiet_calculateRealisticDuration o d stops :
  0 <= stops <= 2 ->
  quiet (calculateRealisticDuration env o d stops) (fun m => 90 <= m <= 630).
Proof.
  intros Hs. unfold calculateRealisticDuration.
  eapply quiet_bind; [by apply quiet_Math_random|]. intros r [H0 H1].
  apply quiet_ret. unfold Math_round.
  assert (0 <= inject_Z (stops * 120) /\ inject_Z (stops * 120) <= 240)%Q as [? ?].
  { split; [apply (Q_of_Z_le 0) | apply (Q_of_Z_le _ 240)]; lia. }
  cbv zeta. generalize dependent (inject_Z (stops * 120)). intros p ? ?.
  split.
  - apply Qfloor_lower. change (inject_Z 90) with 90%Q. lra.
  - assert (Qfloor (90 + r * 300 + p + (1 # 2)) < 631); [|lia].
    apply Qfloor_upper. change (inject_Z 631) with 631%Q. lra.
Qed.

Lemma quiet_stopDetails_loop n : forall acc,
  quiet (stopDetails_loop env n acc) (fun _ => True).
Proof.
  induction n as [|n IH]; intros acc; simpl.
  - by apply quiet_ret.
  - eapply quiet_bind; [apply quiet_anyElement|]. intros hub _.
    eapply quiet_bind; [by apply quiet_Math_random|]. intros r _.
    apply IH.
Qed.

Lemma quiet_mockFlight params base i :
  quiet (mockFlight env params base i) (flight_shape base).
Proof.
  unfold mockFlight.
  eapply quiet_bind; [apply quiet_randomElement; simpl; lia|].
  intros picked [a ->].
  eapply quiet_bind; [by apply quiet_Math_random|]. intros r1 _.
  eapply quiet_bind with (P := fun s => s = 0 \/ s = 1 \/ s = 2).
  { destruct (Qle_bool r1 (6 # 10)); [|apply quiet_ret; auto].
    eapply quiet_bind; [by apply quiet_Math_random|]. intros r2 _.
    apply quiet_ret. destruct (Qle_bool r2 (85 # 100)); auto. }
  intros st Hst.
  eapply quiet_bind; [by apply quiet_Math_random|]. intros r3 Hr3.
  eapply quiet_bind; [apply quiet_calculateRealisticDuration; lia|].
  intros dur Hdur.
  eapply quiet_bind; [by apply quiet_Math_random|]. intros r4 Hr4.
  eapply quiet_bind; [apply quiet_Date_now|]. intros now _.
  eapply quiet_bind; [by apply (quiet_ret a (fun _ => True))|]. intros a' _.
  eapply quiet_bind; [by apply quiet_Math_random|]. intros r5 _.
  eapply quiet_bind; [by apply quiet_Math_random|]. intros r6 _.
  eapply quiet_bind with (P := fun _ => True).
  { destruct (0 <? st); [|by apply quiet_ret].
    eapply quiet_bind; [apply quiet_stopDetails_loop|]. intros d _.
    by apply quiet_ret. }
  intros details _.
  eapply quiet_bind; [apply quiet_anyElement|]. intros craft _.
  apply quiet_ret.
  exists (6 + Math_floor (r3 * 16)),
         (if Qle_bool r6 (5 # 10) then "30" else "00"),
         ((75 # 100) + r4 * (5 # 10))%Q.
  cbn [departureTime arrivalTime duration price stops].
  pose proof (Math_floor_scaled r3 16 Hr3 ltac:(lia)) as H16.
  change (inject_Z 16) with 16%Q in H16.
  cbv beta in *.
  repeat split; try done; try lia; try lra.
  destruct (Qle_bool r6 (5 # 10)); auto.
Qed.

Lemma quiet_mockFlights_loop params base n : forall i acc,
  Forall (flight_shape base) acc ->
  quiet (mockFlights_loop env params base n i acc)
    (fun l => Forall (flight_shape base) l /\
              length l = (length acc + n)%nat).
Proof.
  induction n as [|n IH]; intros i acc Hacc; simpl.
  - apply quiet_ret. split; [done|lia].
  - eapply quiet_bind; [apply quiet_mockFlight|]. intros f Hf.
    eapply quiet_weaken.
    + apply IH. apply Forall_app. split; [done|]. by constructor.
    + intros l [? Hl]. split; [done|]. rewrite Hl, length_app. simpl. lia.
Qed.

Lemma quiet_default_base :
  quiet (let* r := Math_random env in ret (200 + r * 800)%Q)
    (fun base => (200 <= base /\ base < 1000)%Q).
Proof.
  eapply quiet_bind; [by apply quiet_Math_random|]. intros r Hr.
  apply quiet_ret. cbv beta in Hr. lra.
Qed.

End Generators.

Lemma insert_by_Permutation {A} (key : A -> Z) x l :
  insert_by key x l ≡ₚ x :: l.
Proof.
  induction l as [|y l IH]; simpl; [done|].
  destruct (key y <? key x); [|done].
  rewrite IH. apply perm_swap.
Qed.

Lemma sort_by_Permutation {A} (key : A -> Z) l : sort_by key l ≡ₚ l.
Proof.
  induction l as [|x l IH]; simpl; [done|].
  unfold sort_by in *. simpl. rewrite insert_by_Permutation. by constructor.
Qed.

Lemma insert_by_sorted {A} (key : A -> Z) x l :
  StronglySorted (fun a b => key a <= key b) l ->
  StronglySorted (fun a b => key a <= key b) (insert_by key x l).
Proof.
  induction 1 as [|y l Hs IH Hy]; simpl.
  - repeat constructor.
  - destruct (Z.ltb_spec (key y) (key x)).
    + constructor; [done|].
      rewrite insert_by_Permutation. constructor; [lia|done].
    + constructor; [by constructor|].
      constructor; [lia|].
      eapply Forall_impl; [exact Hy|]. simpl. intros. lia.
Qed.

Lemma sort_by_sorted {A} (key : A -> Z) l :
  StronglySorted (fun a b => key a <= key b) (sort_by key l).
Proof.
  induction l as [|x l IH]; [constructor|].
  by apply insert_by_sorted.
Qed.

Section Flights.
Context (env : Env) (Hfair : fair env).

Lemma quiet_generateEnhancedMockFlights params basePrice :
  quiet (generateEnhancedMockFlights env params basePrice)
    (fun l => exists base,
       actual_base basePrice base /\
       Forall (flight_shape base) l /\
       ascending_by_price l /\
       (12 <= length l <= 17)%nat).
Proof.
  unfold generateEnhancedMockFlights.
  eapply quiet_bind with (P := actual_base basePrice).
  { unfold actual_base. destruct basePrice as [b|];
      [destruct (Qeq_bool b 0)|]; try by apply quiet_default_base.
    by apply quiet_ret. }
  intros base Hbase.
  eapply quiet_bind; [by apply quiet_Math_random|]. intros r Hr.
  pose proof (Math_floor_scaled r 6 Hr ltac:(lia)) as H6.
  change (inject_Z 6) with 6%Q in H6.
  eapply quiet_bind; [by apply quiet_mockFlights_loop|].
  intros flights [Hall Hlen]. apply quiet_ret.
  exists base. split; [done|]. split; [|split].
  - by rewrite sort_by_Permutation.
  - apply sort_by_sorted.
  - rewrite sort_by_Permutation, Hlen. cbn [length]. lia.
Qed.

Lemma Math_round_positive (base v : Q) :
  ((2 # 3) <= base)%Q -> ((3 # 4) <= v)%Q -> 0 < Math_round (base * v).
Proof.
  intros Hb Hv. unfold Math_round.
  assert (1 <= Qfloor (base * v + (1 # 2))); [|lia].
  apply Qfloor_lower. change (inject_Z 1) with 1%Q. nra.
Qed.

(** C7, amended.  Whatever the route and the base price,
    [generateEnhancedMockFlights] returns a list that is sorted ascending
    by price and has 12 to 18 records (17 at most, in fact), each with
    [duration >= 0] and a stop count of 0, 1 or 2; and each price is
    positive when the base price is left out, is zero (the default is then
    drawn) or is at least 2/3. *)
Theorem synthesized_flights_shape params (basePrice : option Q) w :
  exists flights w',
    generateEnhancedMockFlights env params basePrice w = (Return flights, w') /\
    ascending_by_price flights /\
    (12 <= length flights <= 17)%nat /\
    Forall (fun f => 0 <= duration f /\
                     (stops f = 0 \/ stops f = 1 \/ stops f = 2)) flights /\
    (match basePrice with
     | Some b => (b == 0 \/ (2 # 3) <= b)%Q
     | None => True
     end ->
     Forall (fun f => 0 < price f) flights).
Proof.
  destruct (quiet_generateEnhancedMockFlights params basePrice w)
    as (flights & w' & E & _ & base & Hbase & Hall & Hsorted & Hlen).
  exists flights, w'.
  split; [done|]. split; [done|]. split; [done|]. split.
  - eapply Forall_impl; [exact Hall|]. cbv beta.
    intros f (h & mm & v & _ & _ & _ & _ & _ & Hd & _ & Hs).
    split; [lia | done].
  - intros Hb.
    assert (Hpos : ((2 # 3) <= base)%Q).
    { unfold actual_base in Hbase. destruct basePrice as [b|]; [|lra].
      destruct (Qeq_bool b 0) eqn:Eb; [lra|]. subst base.
      destruct Hb as [Hz|]; [|done].
      apply Qeq_bool_neq in Eb. by destruct Eb. }
    eapply Forall_impl; [exact Hall|]. cbv beta.
    intros f (h & mm & v & _ & _ & Hv & _ & _ & _ & Hp & _).
    rewrite Hp. apply Math_round_positive; [done|lra].
Qed.

(** Every synthesized list has 12 to 17 records. *)
Lemma synthesized_flights_count params basePrice w :
  (12 <= length (match fst (generateEnhancedMockFlights env params basePrice w)
                 with Return l => l | Throw _ => [] end) <= 17)%nat.
Proof.
  destruct (quiet_generateEnhancedMockFlights params basePrice w)
    as (flights & w' & E & _ & base & _ & _ & _ & Hlen).
  by rewrite E.
Qed.

End Flights.

Lemma sampleEnv_fair t0 reply : fair (sampleEnv t0 0 reply).
Proof. intros n. simpl. lra. Qed.

Lemma synthesized_flights_shape_witness :
  fair (sampleEnv 0 0 (Failure None)) /\
  exists flights w',
    generateEnhancedMockFlights (sampleEnv 0 0 (Failure None))
      (route "JFK" "LAX") (Some (1 # 1)) (newWorld 0) = (Return flights, w') /\
    ascending_by_price flights /\
    (12 <= length flights <= 17)%nat /\
    Forall (fun f => 0 <= duration f /\
                     (stops f = 0 \/ stops f = 1 \/ stops f = 2)) flights /\
    Forall (fun f => 0 < price f) flights.
Proof.
  split; [apply sampleEnv_fair|].
  destruct (synthesized_flights_shape (sampleEnv 0 0 (Failure None))
              (sampleEnv_fair 0 (Failure None)) (route "JFK" "LAX")
              (Some (1 # 1)) (newWorld 0))
    as (flights & w' & E & Hsorted & Hlen & Hall & Hprice).
  exists flights, w'. repeat (split; [assumption|]).
  apply Hprice. right. lra.
Defined.

(** C7, as stated, fails on the price: with a base price of one half, as an
    average of live prices can be, and [Math.random] answering 0, every
    price is [Math.round(0.375)], which is 0. *)
Lemma synthesized_price_counterexample :
  ~ (forall env params basePrice w flights w',
       fair env ->
       generateEnhancedMockFlights env params basePrice w
         = (Return flights, w') ->
       ascending_by_price flights /\
       (12 <= length flights <= 18)%nat /\
       Forall (fun f => 0 <= duration f /\ 0 < price f /\
                        (stops f = 0 \/ stops f = 1 \/ stops f = 2)) flights).
Proof.
  intros H.
  edestruct (H (sampleEnv 0 0 (Failure None)) (route "JFK" "LAX")
               (Some (1 # 2)) (newWorld 0)) as (_ & _ & Hall);
    [apply sampleEnv_fair | vm_compute; reflexivity |].
  apply Forall_cons_1 in Hall. destruct Hall as [(_ & Hp & _) _].
  by apply Z.lt_irrefl in Hp.
Qed.

Lemma minutesOfDay_pad2 (h m : Z) :
  0 <= h < 24 -> 0 <= m < 60 ->
  minutesOfDay (pad2 h +:+ ":" +:+ pad2 m) = Some (h * 60 + m).
Proof.
  intros Hh Hm.
  assert (E : times_read_back = true) by (vm_compute; reflexivity).
  unfold times_read_back in E. rewrite forallb_forall in E.
  assert (Hin : forall k n, 0 <= k < n -> In k (seqZ 0 n)).
  { intros k n Hk. apply list_elem_of_In, elem_of_seqZ. lia. }
  specialize (E h (Hin h 24 Hh)). rewrite forallb_forall in E.
  specialize (E m (Hin m 60 Hm)). by rewrite bool_decide_eq_true in E.
Qed.

Lemma minutesOfDay_calculateArrivalTime (h d : Z) :
  0 <= h * 60 + d ->
  minutesOfDay (calculateArrivalTime h d) = Some ((h * 60 + d) mod 1440).
Proof.
  intros Hpos. unfold calculateArrivalTime, Math_floor. cbv zeta.
  change 60%Q with (inject_Z 60). rewrite <- Zdiv_Qdiv.
  rewrite !Z.rem_mod_nonneg by (try lia; apply Z.div_pos; lia).
  rewrite minutesOfDay_pad2.
  - f_equal. Z.div_mod_to_equations. lia.
  - apply Z.mod_pos_bound. lia.
  - apply Z.mod_pos_bound. lia.
Qed.

(** What the code does about the two times: the arrival is computed from
    the departure hour alone, so it agrees with the departure time shown
    exactly when that time is on the hour. *)
Lemma arrival_from_departure_hour base f :
  flight_shape base f ->
  exists h mins,
    (mins = 0 \/ mins = 30) /\
    minutesOfDay (departureTime f) = Some (h * 60 + mins) /\
    minutesOfDay (arrivalTime f) = Some ((h * 60 + duration f) mod 1440) /\
    (arrival_consistent f <-> mins = 0).
Proof.
  intros (h & mm & v & Hh & Hmm & _ & Hdep & Harr & Hd & _).
  assert (Ha : minutesOfDay (arrivalTime f)
               = Some ((h * 60 + duration f) mod 1440)).
  { rewrite Harr. apply minutesOfDay_calculateArrivalTime. lia. }
  destruct Hmm as [-> | ->].
  - assert (Hd0 : minutesOfDay (departureTime f) = Some (h * 60 + 0)).
    { rewrite Hdep. apply (minutesOfDay_pad2 h 0); lia. }
    exists h, 0. repeat split; auto.
    exists (h * 60 + 0). split; [done|]. rewrite Ha. do 2 f_equal. lia.
  - assert (Hd30 : minutesOfDay (departureTime f) = Some (h * 60 + 30)).
    { rewrite Hdep. apply (minutesOfDay_pad2 h 30); lia. }
    exists h, 30. repeat split; auto; [|intros; lia].
    intros (dep & E1 & E2). rewrite Hd30 in E1. injection E1 as <-.
    rewrite Ha in E2. injection E2 as E2. exfalso.
    revert E2. Z.div_mod_to_equations. lia.
Qed.

(** C8 fails on the code.  With [Math.random] answering 0 the first flight
    leaves at 06:30 and lasts 90 minutes; its arrival time is 07:30, computed
    from the hour 6 alone, where the claim asks for 08:00. *)
Theorem arrival_ignores_departure_minutes :
  exists flights w' f,
    generateEnhancedMockFlights (sampleEnv 0 0 (Failure None))
      (route "JFK" "LAX") None (newWorld 0) = (Return flights, w') /\
    flights !! O = Some f /\
    departureTime f = "06:30" /\
    duration f = 90 /\
    arrivalTime f = "07:30" /\
    minutesOfDay (arrivalTime f) = Some 450 /\
    (fun dep => (dep + duration f) mod 1440) <$> minutesOfDay (departureTime f)
      = Some 480 /\
    ~ arrival_consistent f.
Proof.
  eexists _, _, _. split; [vm_compute; reflexivity|].
  split; [reflexivity|]. repeat split.
  intros (dep & E1 & E2). vm_compute in E1. injection E1 as <-.
  vm_compute in E2. discriminate.
Qed.

End SynthesisFacts.

(** ** The token *)

Module TokenFacts.

Lemma fetchToken_described cfg env w :
  fetchToken cfg env w = exchange_described cfg env w.
Proof.
  unfold fetchToken, exchange_described, try_catch, bind, axios.
  destruct (replyAt env (tick w)) as [body|status]; [|done].
  destruct (decide (access_token body = "")); [done|].
  by destruct w.
Qed.

Lemma getAmadeusToken_described cfg env w :
  getAmadeusToken cfg env w = getToken_described cfg env w.
Proof.
  unfold getAmadeusToken, getToken_described, bind, read.
  destruct (tokenInfo w) as [ti|]; [|apply fetchToken_described].
  cbn [Date_now].
  destruct (Z.ltb_spec (timeAt env (tick w)) (expiresAt ti));
    destruct (decide (timeAt env (tick w) < expiresAt ti)); try lia; [done|].
  apply fetchToken_described.
Qed.

Lemma exchange_sends_request cfg env w :
  requests (snd (exchange_described cfg env w))
  = requests w ++ [PostToken (API_KEY cfg) (API_SECRET cfg)].
Proof.
  unfold exchange_described.
  destruct (replyAt env (tick w)) as [body|status]; [|by destruct w].
  destruct (decide (access_token body = "")); by destruct w.
Qed.

Lemma exchange_success cfg env w body :
  replyAt env (tick w) = Response body ->
  access_token body <> "" ->
  fst (exchange_described cfg env w) = Return (access_token body) /\
  tokenInfo (snd (exchange_described cfg env w))
  = Some {| accessToken := access_token body;
            expiresAt := timeAt env (S (tick w)) + 25 * 60 * 1000 |}.
Proof.
  intros Hreply Htok. unfold exchange_described. rewrite Hreply.
  destruct (decide (access_token body = "")); [done|].
  split; [done|]. by destruct w.
Qed.

(** C6, as stated, fails in its last part: no margin makes the stored
    expiry [now + (grantedLifetime - margin)], because the lifetime the
    reply grants is not read.  Replies granting 1799 s and 3600 s get the
    same expiry. *)
Lemma token_expiry_counterexample :
  ~ (exists margin : Z,
       forall cfg env w body,
         tokenInfo w = None ->
         replyAt env (tick w) = Response body ->
         access_token body <> "" ->
         tokenInfo (snd (getAmadeusToken cfg env w))
         = Some {| accessToken := access_token body;
                   expiresAt := timeAt env (S (tick w))
                                + (expires_in body * 1000 - margin) |}).
Proof.
  intros [margin H].
  assert (G : forall seconds,
             25 * 60 * 1000 = seconds * 1000 - margin).
  { intros seconds.
    set (env := sampleEnv 0 0 (Response (tokenBody "t" seconds))).
    specialize (H liveConfig env (newWorld 0) (tokenBody "t" seconds)
                  eq_refl eq_refl ltac:(discriminate)).
    rewrite getAmadeusToken_described in H.
    change (getToken_described liveConfig env (newWorld 0))
      with (exchange_described liveConfig env (newWorld 0)) in H.
    destruct (exchange_success liveConfig env (newWorld 0)
                (tokenBody "t" seconds) eq_refl ltac:(discriminate))
      as [_ E].
    rewrite E in H. injection H as H. lia. }
  pose proof (G 1799). pose proof (G 3600). lia.
Qed.

(** C6, amended.  [getAmadeusToken] returns the cached token, and sends
    nothing, exactly when there is one and the clock is strictly before its
    expiry; otherwise (no token, or a token whose expiry has passed) it
    exchanges the credentials afresh and never hands out the stale token; on
    a successful exchange the expiry stored is the time of the reply plus 25
    minutes, a lifetime of 30 minutes taken for granted less a margin of 5
    minutes, whatever lifetime the reply grants. *)
Theorem token_lifecycle cfg env w :
  getAmadeusToken cfg env w = getToken_described cfg env w /\
  (requests (snd (getAmadeusToken cfg env w)) = requests w
   <-> exists ti, tokenInfo w = Some ti /\ timeAt env (tick w) < expiresAt ti) /\
  (requests (snd (getAmadeusToken cfg env w))
     = requests w ++ [PostToken (API_KEY cfg) (API_SECRET cfg)]
   <-> ~ exists ti, tokenInfo w = Some ti /\ timeAt env (tick w) < expiresAt ti) /\
  (forall ti body,
     tokenInfo w = Some ti ->
     expiresAt ti <= timeAt env (tick w) ->
     replyAt env (S (tick w)) = Response body ->
     access_token body <> "" ->
     fst (getAmadeusToken cfg env w) = Return (access_token body) /\
     tokenInfo (snd (getAmadeusToken cfg env w))
     = Some {| accessToken := access_token body;
               expiresAt := timeAt env (S (S (tick w))) + 25 * 60 * 1000 |}) /\
  (forall body,
     tokenInfo w = None ->
     replyAt env (tick w) = Response body ->
     access_token body <> "" ->
     fst (getAmadeusToken cfg env w) = Return (access_token body) /\
     tokenInfo (snd (getAmadeusToken cfg env w))
     = Some {| accessToken := access_token body;
               expiresAt := timeAt env (S (tick w)) + 25 * 60 * 1000 |}).
Proof.
  assert (Hne : forall l : list Request,
             l ++ [PostToken (API_KEY cfg) (API_SECRET cfg)] <> l).
  { intros l E. apply (f_equal length) in E. rewrite length_app in E.
    simpl in E. lia. }
  assert (Hreq : forall n, requests (with_tick n w) = requests w)
    by (by destruct w).
  assert (Htick : forall n, tick (with_tick n w) = n) by (by destruct w).
  pose proof (exchange_success cfg env) as Hok.
  split; [apply getAmadeusToken_described|].
  rewrite getAmadeusToken_described. unfold getToken_described.
  destruct (tokenInfo w) as [ti|] eqn:Eti.
  - destruct (decide (timeAt env (tick w) < expiresAt ti)) as [Hlt|Hge].
    + cbn [snd]. rewrite Hreq.
      split; [|split; [|split]].
      * split; [intros _; by exists ti | done].
      * split; [intros E; exfalso; symmetry in E; by apply Hne in E|].
        intros Hn. exfalso. apply Hn. by exists ti.
      * intros ti' body [= <-] Hexp. lia.
      * intros body [=].
    + rewrite exchange_sends_request, Hreq.
      split; [|split; [|split]].
      * split; [intros E; exfalso; by apply Hne in E|].
        by intros (ti' & [= <-] & Hlt).
      * split; [|done]. by intros _ (ti' & [= <-] & Hlt).
      * intros ti' body [= <-] Hexp Hreply Htok.
        rewrite <- (Htick (S (tick w))) in Hreply.
        destruct (Hok _ _ Hreply Htok) as [H1 H2].
        rewrite Htick in H2. done.
      * intros body [=].
  - rewrite exchange_sends_request.
    split; [|split; [|split]].
    + split; [intros E; exfalso; by apply Hne in E|].
      by intros (ti' & [=] & _).
    + split; [|done]. by intros _ (ti' & [=] & _).
    + intros ti' body [=].
    + intros body _ Hreply Htok. by apply Hok.
Qed.

End TokenFacts.

(** ** The footprint of the operations *)

Module FootprintFacts.
Import MonadFacts.

Section Kept.
Context (cfg : Config) (env : Env).
Context {X : Type} (part : World -> X) (r : relation X) `{!PreOrder r}.
Hypothesis part_tick : forall w n, part (with_tick n w) = part w.

Lemma kept_Date_now : preserves (via part r) (Date_now env).
Proof. apply preserves_part; [done|]. intros w. apply part_tick. Qed.

Lemma kept_Math_random : preserves (via part r) (Math_random env).
Proof. apply preserves_part; [done|]. intros w. apply part_tick. Qed.

Lemma kept_setItem_succeeds : preserves (via part r) (setItem_succeeds env).
Proof. apply preserves_part; [done|]. intros w. apply part_tick. Qed.

Lemma kept_quiet {A} (m : M A) (P : A -> Prop) :
  quiet m P -> preserves (via part r) m.
Proof.
  intros Hq. apply preserves_part; [done|]. intros w.
  destruct (Hq w) as (a & w' & E & S & _). rewrite E. simpl.
  rewrite S. apply part_tick.
Qed.

Lemma kept_cacheGet {T} (rg : Region T) key :
  (forall w ls, part (with_entries rg ls w) = part w) ->
  preserves (via part r) (cacheGet env rg key).
Proof.
  intros Hrg. apply preserves_part; [done|]. intros w. unfold cacheGet.
  destruct (entries rg w !! _) as [[c|]|]; [|done..].
  unfold bind. cbn [Date_now].
  destruct (APICacheManager.get _ _ _) as [v ls]. simpl.
  by rewrite Hrg, part_tick.
Qed.

Lemma kept_cacheSet {T} (rg : Region T) key (d : T) hours :
  (forall w ls, part (with_entries rg ls w) = part w) ->
  preserves (via part r) (cacheSet env rg key d hours).
Proof.
  intros Hrg. apply preserves_part; [done|]. intros w.
  unfold cacheSet, bind, modify. simpl. by rewrite Hrg, !part_tick.
Qed.

Lemma kept_canMakeCall :
  (forall w s, part (with_limiter s w) = part w) ->
  preserves (via part r) (canMakeCall env).
Proof.
  intros Hl. apply preserves_part; [done|]. intros w.
  unfold canMakeCall, bind. cbn [Date_now].
  destruct (APIRateLimiter.canMakeCall _ _) as [c s0]. simpl.
  by rewrite Hl, part_tick.
Qed.

Lemma kept_recordCall :
  (forall w s, part (with_limiter s w) = part w) ->
  (forall w s, part (with_savedCalls s w) = part w) ->
  preserves (via part r) (recordCall env).
Proof.
  intros Hl Hs. apply preserves_part; [done|]. intros w.
  unfold recordCall, bind, modify. simpl.
  destruct (writableAt env _); by rewrite ?Hs, Hl, !part_tick.
Qed.

Lemma kept_axios rq :
  (forall w l, part (with_requests l w) = part w) ->
  preserves (via part r) (axios env rq).
Proof.
  intros Hq. apply preserves_part; [done|]. intros w. unfold axios.
  destruct (replyAt env (tick w)); simpl; by rewrite part_tick, Hq.
Qed.

Lemma kept_getAmadeusToken :
  (forall w l, part (with_requests l w) = part w) ->
  (forall w t, part (with_tokenInfo t w) = part w) ->
  preserves (via part r) (getAmadeusToken cfg env).
Proof.
  intros Hq Ht. apply preserves_part; [done|]. intros w.
  rewrite TokenFacts.getAmadeusToken_described.
  assert (E : forall w0, part (snd (exchange_described cfg env w0)) = part w0).
  { intros w0. unfold exchange_described.
    destruct (replyAt env (tick w0)) as [body|];
      [destruct (decide (access_token body = ""))|]; simpl;
      by rewrite ?Ht, ?part_tick, Hq. }
  unfold getToken_described. destruct (tokenInfo w) as [ti|]; [|apply E].
  destruct (decide _); simpl; [apply part_tick|].
  by rewrite E, part_tick.
Qed.

Lemma kept_liveCall request :
  (forall w s, part (with_limiter s w) = part w) ->
  (forall w s, part (with_savedCalls s w) = part w) ->
  (forall w l, part (with_requests l w) = part w) ->
  (forall w t, part (with_tokenInfo t w) = part w) ->
  preserves (via part r) (FlightAPI.liveCall cfg env request).
Proof.
  intros Hl Hs Hq Ht. unfold FlightAPI.liveCall.
  apply preserves_bind; [by apply _ | by apply kept_recordCall|]. intros _.
  apply preserves_bind; [by apply _ | by apply kept_getAmadeusToken|].
  intros token. by apply kept_axios.
Qed.

End Kept.
End FootprintFacts.

(** ** The operations *)

Module OperationFacts.
Import MonadFacts SynthesisFacts FootprintFacts.

(** Closes the side conditions of the footprint lemmas. *)
Ltac side := solve [apply _ | done].

Section Fair.
Context (cfg : Config) (env : Env) (Hfair : fair env).

Lemma quiet_mockTrends_loop n : forall i acc,
  quiet (mockTrends_loop env n i acc)
    (fun l => length l = (length acc + n)%nat).
Proof.
  induction n as [|n IH]; intros i acc; simpl.
  - apply quiet_ret. lia.
  - eapply quiet_bind; [apply quiet_Date_now|]. intros now _.
    eapply quiet_bind; [by apply quiet_Math_random|]. intros r _.
    eapply quiet_bind; [apply quiet_randomElement; [done|simpl; lia]|].
    intros picked [a ->].
    eapply quiet_bind; [by apply (quiet_ret a (fun _ => True))|]. intros a' _.
    eapply quiet_weaken; [apply IH|]. cbv beta. intros l ->.
    rewrite length_app. simpl. lia.
Qed.

Lemma quiet_getMockPriceTrendsForRoute o d :
  quiet (getMockPriceTrendsForRoute env o d) (fun l => length l = 7%nat).
Proof. apply (quiet_mockTrends_loop 7 0 []). Qed.

Lemma quiet_mapM {A B} (f : A -> M B) (l : list A) :
  (forall a, quiet (f a) (fun _ => True)) ->
  quiet (mapM f l) (fun bs => length bs = length l).
Proof.
  intros Hf. induction l as [|a l IH]; simpl.
  - by apply quiet_ret.
  - eapply quiet_bind; [apply Hf|]. intros b _.
    eapply quiet_bind; [apply IH|]. cbv beta. intros bs Hbs.
    apply quiet_ret. simpl. by rewrite Hbs.
Qed.

Lemma quiet_getMockInspirationData o maxPrice oneWay :
  quiet (getMockInspirationData env o maxPrice oneWay) (fun _ => True).
Proof.
  unfold getMockInspirationData.
  eapply quiet_bind.
  - apply quiet_mapM. intros dest.
    eapply quiet_bind; [apply quiet_Date_now|]. intros now _.
    eapply quiet_bind; [by apply quiet_Math_random|]. intros r _.
    by apply quiet_ret.
  - intros data _. by apply quiet_ret.
Qed.

Lemma steady_parts w w' :
  steady w w' ->
  requests w' = requests w /\ limiter w' = limiter w /\
  savedCalls w' = savedCalls w /\ tokenInfo w' = tokenInfo w /\
  inspirationCache w' = inspirationCache w /\
  trendsCache w' = trendsCache w /\ airportsCache w' = airportsCache w.
Proof. intros ->. by destruct w. Qed.

(** [searchFlights] begins with the text of the departure date, which it
    logs: with a date that has one it goes on as if the line were not
    there. *)
Lemma searchFlights_valid_date params ms w :
  sp_departureDate params = ValidDate ms ->
  FlightAPI.searchFlights cfg env params w =
  (if decide (sp_origin params = sp_destination params)
   then generateEnhancedMockFlights env params None
   else if MOCK_MODE cfg
   then generateEnhancedMockFlights env params None
   else
     try_catch
       (let* priceTrends := FlightAPI.getPriceTrends cfg env params in
        generateEnhancedMockFlights env params
          (Some (FlightAPI.averagePrice priceTrends)))
       (fun _ => generateEnhancedMockFlights env params None)) w.
Proof. intros Hdate. unfold FlightAPI.searchFlights. by rewrite Hdate. Qed.

Lemma searchFlights_invalid_date params w :
  sp_departureDate params = InvalidDate ->
  FlightAPI.searchFlights cfg env params w = (Throw RangeError, w).
Proof. intros Hdate. unfold FlightAPI.searchFlights. by rewrite Hdate. Qed.


(** X29.  When the origin code equals the destination code and the
    departure date is a valid date, the flight search returns what the mock
    generator makes, a list that is not empty; so does the price-trend
    request (through [getPriceTrends] and through
    [getFlightCheapestDates]), whatever the date; no request is sent and the
    rate limiter, its saved copy included, is as before. *)
Theorem same_route_is_synthesized (params : SearchParams) (oneWay : bool)
    (ms : Z) (w : World) :
  sp_origin params = sp_destination params ->
  sp_departureDate params = ValidDate ms ->
  (exists flights w',
     FlightAPI.searchFlights cfg env params w = (Return flights, w') /\
     generateEnhancedMockFlights env params None w = (Return flights, w') /\
     flights <> [] /\
     requests w' = requests w /\ limiter w' = limiter w /\
     savedCalls w' = savedCalls w) /\
  (exists trends w',
     FlightAPI.getPriceTrends cfg env params w = (Return trends, w') /\
     getMockPriceTrendsForRoute env (sp_origin params) (sp_destination params) w
       = (Return trends, w') /\
     trends <> [] /\
     requests w' = requests w /\ limiter w' = limiter w /\
     savedCalls w' = savedCalls w) /\
  (exists trends w',
     FlightAPI.getFlightCheapestDates cfg env (sp_origin params)
       (sp_destination params) oneWay w = (Return trends, w') /\
     getMockPriceTrendsForRoute env (sp_origin params) (sp_destination params) w
       = (Return trends, w') /\
     trends <> [] /\
     requests w' = requests w /\ limiter w' = limiter w /\
     savedCalls w' = savedCalls w).
Proof.
  intros Hsame Hdate.
  destruct (quiet_getMockPriceTrendsForRoute (sp_origin params)
              (sp_destination params) w) as (trends & w1 & E1 & S1 & Hlen).
  apply steady_parts in S1. destruct S1 as (? & ? & ? & _).
  assert (trends <> []) by (intros ->; discriminate).
  split; [|split].
  - destruct (quiet_generateEnhancedMockFlights env Hfair params None w)
      as (flights & w' & E & S & base & _ & _ & _ & Hn).
    apply steady_parts in S. destruct S as (? & ? & ? & _).
    exists flights, w'. rewrite (searchFlights_valid_date _ _ _ Hdate).
    destruct (decide (sp_origin params = sp_destination params)); [|done].
    repeat split; try done. intros ->. simpl in Hn. lia.
  - exists trends, w1. unfold FlightAPI.getPriceTrends.
    destruct (decide (sp_origin params = sp_destination params)); [|done].
    by repeat split.
  - exists trends, w1. unfold FlightAPI.getFlightCheapestDates.
    destruct (decide (sp_origin params = sp_destination params)); [|done].
    by repeat split.
Qed.

(** *** The requests an operation sends *)

Lemma sends_axios P rq :
  P rq -> preserves (via requests (sends P)) (axios env rq).
Proof.
  intros HP w. unfold via, axios.
  destruct (replyAt env (tick w)); simpl; exists [rq]; by repeat constructor.
Qed.

Lemma sends_getAmadeusToken P :
  P (PostToken (API_KEY cfg) (API_SECRET cfg)) ->
  preserves (via requests (sends P)) (getAmadeusToken cfg env).
Proof.
  intros HP w. unfold via.
  rewrite TokenFacts.getAmadeusToken_described. unfold getToken_described.
  assert (E : forall w0, requests w0 = requests w ->
              sends P (requests w) (requests (snd (exchange_described cfg env w0)))).
  { intros w0 Hw0. rewrite TokenFacts.exchange_sends_request, Hw0.
    exists [PostToken (API_KEY cfg) (API_SECRET cfg)]. by repeat constructor. }
  destruct (tokenInfo w) as [ti|]; [|by apply E].
  destruct (decide _); [|by apply E].
  simpl. reflexivity.
Qed.

Lemma sends_liveCall P request :
  P (PostToken (API_KEY cfg) (API_SECRET cfg)) ->
  (forall token, P (request token)) ->
  preserves (via requests (sends P)) (FlightAPI.liveCall cfg env request).
Proof.
  intros HP Hr. unfold FlightAPI.liveCall.
  apply preserves_bind; [apply _ | apply kept_recordCall; side |]. intros _.
  apply preserves_bind; [apply _ | by apply sends_getAmadeusToken |].
  intros token. by apply sends_axios.
Qed.

(** *** Reading the array of a reply

    The array is read without a look at the world.  When it has no [null]
    the reading goes through; at a [null] a [TypeError] is thrown. *)
Lemma items_cases (items : list (option Entry)) :
  (exists entries, items = Some <$> entries) \/ None ∈ items.
Proof.
  induction items as [|[item|] items IH].
  - left. by exists [].
  - destruct IH as [[entries ->]|Hin].
    + left. by exists (item :: entries).
    + right. apply elem_of_cons. by right.
  - right. apply elem_of_cons. by left.
Qed.

Lemma extractPriceTrends_objects entries acc w :
  FlightAPI.extractPriceTrends (Some <$> entries) acc w
  = (Return (acc ++ omap pricePoint entries), w).
Proof.
  revert acc. induction entries as [|item entries IH]; intros acc.
  - cbn. by rewrite app_nil_r.
  - cbn [fmap list_fmap FlightAPI.extractPriceTrends omap list_omap].
    change (list_fmap Entry (option Entry) Some entries)
      with (Some <$> entries).
    change (list_omap Entry PriceDataPoint pricePoint entries)
      with (omap pricePoint entries).
    unfold pricePoint at 1.
    destruct (en_priceTotal item) as [total|]; rewrite IH; [|done].
    by rewrite <- app_assoc.
Qed.

Lemma extractPriceTrends_null items acc w :
  None ∈ items -> FlightAPI.extractPriceTrends items acc w = (Throw TypeError, w).
Proof.
  revert acc. induction items as [|[item|] items IH]; intros acc Hin.
  - by apply elem_of_nil in Hin.
  - apply elem_of_cons in Hin as [?|Hin]; [done|].
    cbn [FlightAPI.extractPriceTrends].
    destruct (en_priceTotal item); by apply IH.
  - done.
Qed.

Lemma extractPriceTrends_world items acc w :
  snd (FlightAPI.extractPriceTrends items acc w) = w.
Proof.
  destruct (items_cases items) as [[entries ->]|Hin].
  - by rewrite extractPriceTrends_objects.
  - by rewrite extractPriceTrends_null.
Qed.

Lemma namedLocations_objects entries w :
  FlightAPI.namedLocations (Some <$> entries) w
  = (Return (List.filter
               (fun location =>
                  negb (String.eqb (en_iataCode location) "")
                  && negb (String.eqb (en_name location) ""))
               entries), w).
Proof.
  induction entries as [|item entries IH]; [done|].
  cbn [fmap list_fmap FlightAPI.namedLocations List.filter].
  change (list_fmap Entry (option Entry) Some entries) with (Some <$> entries).
  unfold bind. rewrite IH. cbn [ret]. by destruct (_ && _).
Qed.

Lemma namedLocations_null items w :
  None ∈ items -> FlightAPI.namedLocations items w = (Throw TypeError, w).
Proof.
  induction items as [|[item|] items IH]; intros Hin.
  - by apply elem_of_nil in Hin.
  - apply elem_of_cons in Hin as [?|Hin]; [done|].
    cbn [FlightAPI.namedLocations]. unfold bind. by rewrite IH.
  - done.
Qed.

Lemma toSuggestions_objects entries w :
  FlightAPI.toSuggestions (Some <$> entries) w
  = (Return (suggestionsMade entries), w).
Proof.
  unfold FlightAPI.toSuggestions, bind. by rewrite namedLocations_objects.
Qed.

Lemma toSuggestions_null items w :
  None ∈ items -> FlightAPI.toSuggestions items w = (Throw TypeError, w).
Proof.
  intros Hin. unfold FlightAPI.toSuggestions, bind.
  by rewrite namedLocations_null.
Qed.

Lemma toSuggestions_world items w : snd (FlightAPI.toSuggestions items w) = w.
Proof.
  destruct (items_cases items) as [[entries ->]|Hin].
  - by rewrite toSuggestions_objects.
  - by rewrite toSuggestions_null.
Qed.

Lemma preserves_still {A} (R : relation World) `{!Reflexive R} (m : M A) :
  (forall w, snd (m w) = w) -> preserves R m.
Proof. intros Hm w. by rewrite Hm. Qed.

(** *** Relations kept by the operations

    An operation keeps a relation that its parts keep. *)
Section Structure.
Context (R : relation World) `{!PreOrder R} (Q : Request -> Prop).
Hypothesis R_quiet : forall A (m : M A) P, quiet m P -> preserves R m.
Hypothesis R_getInspiration :
  forall key, preserves R (cacheGet env inspirationRegion key).
Hypothesis R_getTrends : forall key, preserves R (cacheGet env trendsRegion key).
Hypothesis R_getAirports :
  forall key, preserves R (cacheGet env airportsRegion key).
Hypothesis R_setInspiration :
  forall key d hours, preserves R (cacheSet env inspirationRegion key d hours).
Hypothesis R_setTrends :
  forall key d hours, preserves R (cacheSet env trendsRegion key d hours).
Hypothesis R_setAirports :
  forall key d hours, preserves R (cacheSet env airportsRegion key d hours).
Hypothesis R_canMakeCall : preserves R (canMakeCall env).
Hypothesis R_liveCall :
  forall request, (forall token, Q (request token)) ->
                  preserves R (FlightAPI.liveCall cfg env request).
Hypothesis Q_destinations : forall t o p ow, Q (GetFlightDestinations t o p ow).
Hypothesis Q_dates : forall t o d ow, Q (GetFlightDates t o d ow).
Hypothesis Q_locations : forall t k, Q (GetLocations t k).

Lemma preserved_by_getFlightInspiration o maxPrice oneWay :
  preserves R (FlightAPI.getFlightInspiration cfg env o maxPrice oneWay).
Proof.
  assert (Hmock : preserves R (getMockInspirationData env o maxPrice oneWay))
    by (eapply R_quiet, quiet_getMockInspirationData).
  unfold FlightAPI.getFlightInspiration.
  apply preserves_bind; [done | apply R_getInspiration |].
  intros [cached|]; [by apply preserves_ret|].
  destruct (MOCK_MODE cfg); [done|].
  apply preserves_bind; [done | apply R_canMakeCall |].
  intros check. destruct (negb _); [done|].
  apply preserves_try_catch; [done | |].
  - apply preserves_bind; [done | by apply R_liveCall |]. intros body.
    apply preserves_bind; [done | apply R_setInspiration |].
    intros _. by apply preserves_ret.
  - intros e. destruct (isAxiosError e); [done|]. by apply preserves_throw.
Qed.

Lemma preserved_by_getFlightCheapestDates o d oneWay :
  preserves R (FlightAPI.getFlightCheapestDates cfg env o d oneWay).
Proof.
  assert (Hmock : preserves R (getMockPriceTrendsForRoute env o d))
    by (eapply R_quiet, quiet_getMockPriceTrendsForRoute).
  unfold FlightAPI.getFlightCheapestDates.
  destruct (decide (o = d)); [done|].
  apply preserves_bind; [done | apply R_getTrends |].
  intros [cached|]; [by apply preserves_ret|].
  destruct (MOCK_MODE cfg); [done|].
  apply preserves_bind; [done | apply R_canMakeCall |].
  intros check. destruct (negb _); [done|].
  apply preserves_try_catch; [done | |].
  - apply preserves_bind; [done | by apply R_liveCall |]. intros body.
    destruct (body_data body) as [items|]; [|done].
    apply preserves_bind; [done | |].
    { apply preserves_still; [apply _|]. apply extractPriceTrends_world. }
    intros extracted.
    apply preserves_bind; [done | apply R_setTrends |].
    intros _. by apply preserves_ret.
  - intros e. destruct (isAxiosError e); [done|]. by apply preserves_throw.
Qed.

Lemma preserved_by_getPriceTrends params :
  preserves R (FlightAPI.getPriceTrends cfg env params).
Proof.
  unfold FlightAPI.getPriceTrends. destruct (decide _).
  - eapply R_quiet, quiet_getMockPriceTrendsForRoute.
  - apply preserved_by_getFlightCheapestDates.
Qed.

Lemma preserved_by_searchFlights params :
  preserves R (FlightAPI.searchFlights cfg env params).
Proof.
  assert (Hgen : forall bp,
             preserves R (generateEnhancedMockFlights env params bp))
    by (intros bp; eapply R_quiet, quiet_generateEnhancedMockFlights, Hfair).
  unfold FlightAPI.searchFlights.
  apply preserves_bind; [done | |].
  { apply preserves_still; [apply _|]. intros w.
    by destruct (sp_departureDate params). }
  intros _.
  destruct (decide _); [done|]. destruct (MOCK_MODE cfg); [done|].
  apply preserves_try_catch; [done | | done].
  apply preserves_bind; [done | apply preserved_by_getPriceTrends | done].
Qed.

Lemma preserved_by_getAirportSuggestions query :
  preserves R (FlightAPI.getAirportSuggestions cfg env query).
Proof.
  unfold FlightAPI.getAirportSuggestions.
  destruct (_ <? _)%nat; [by apply preserves_ret|].
  apply preserves_bind; [done | apply R_getAirports |].
  intros [cached|]; [by apply preserves_ret|].
  destruct (MOCK_MODE cfg); [by apply preserves_ret|].
  apply preserves_bind; [done | apply R_canMakeCall |].
  intros check. destruct (negb _); [by apply preserves_ret|].
  apply preserves_try_catch; [done | |].
  - apply preserves_bind; [done | by apply R_liveCall |]. intros body.
    destruct (body_data body) as [items|]; [|by apply preserves_ret].
    apply preserves_bind; [done | |].
    { apply preserves_still; [apply _|]. apply toSuggestions_world. }
    intros suggestions.
    apply preserves_bind; [done | apply R_setAirports |].
    intros _. by apply preserves_ret.
  - intros e. destruct (isAxiosError e);
      [by apply preserves_ret | by apply preserves_throw].
Qed.

End Structure.

Lemma sends_getPriceTrends params :
  preserves (via requests (sends price_lookup))
    (FlightAPI.getPriceTrends cfg env params).
Proof.
  apply (preserved_by_getPriceTrends _ price_lookup).
  - intros A m P. apply kept_quiet; side.
  - intros key. apply kept_cacheGet; side.
  - intros key d hours. apply kept_cacheSet; side.
  - apply kept_canMakeCall; side.
  - intros request Hq. apply sends_liveCall; [by left | done].
  - intros t o d ow. by right.
Qed.

(** *** The quota *)

Lemma canMakeCall_snd now s0 :
  snd (APIRateLimiter.canMakeCall now s0) = APIRateLimiter.rollover now s0.
Proof.
  unfold APIRateLimiter.canMakeCall. by repeat destruct (_ <=? _).
Qed.

Lemma canMakeCall_run w :
  canMakeCall env w =
  (Return (fst (APIRateLimiter.canMakeCall (timeAt env (tick w)) (limiter w))),
   with_limiter (APIRateLimiter.rollover (timeAt env (tick w)) (limiter w))
     (with_tick (S (tick w)) w)).
Proof.
  unfold canMakeCall, bind. cbn [Date_now].
  rewrite <- canMakeCall_snd.
  by destruct (APIRateLimiter.canMakeCall _ _).
Qed.

Lemma recordCall_run w :
  recordCall env w =
  (Return tt,
   let today := toDateString env (timeAt env (tick w)) in
   let w1 :=
     with_limiter (fst (APIRateLimiter.recordCall today (limiter w)))
       (with_tick (S (S (tick w))) w) in
   if writableAt env (S (tick w))
   then with_savedCalls
          (Some (Parsed (snd (APIRateLimiter.recordCall today (limiter w))))) w1
   else w1).
Proof.
  unfold recordCall, bind, modify. simpl.
  destruct (writableAt env (S (tick w))); by destruct w.
Qed.

Lemma grows_canMakeCall : preserves (via limiter quota_grows) (canMakeCall env).
Proof.
  intros w. unfold via. rewrite canMakeCall_run. simpl.
  unfold quota_grows, APIRateLimiter.rollover.
  destruct (Z.ltb_spec 60000 (timeAt env (tick w)
                              - APIRateLimiter.minuteStart (limiter w)));
    simpl; lia.
Qed.

Lemma grows_recordCall : preserves (via limiter quota_grows) (recordCall env).
Proof.
  intros w. unfold via. rewrite recordCall_run. cbv zeta.
  destruct (writableAt env _); simpl; unfold quota_grows; simpl; lia.
Qed.

Lemma grows_liveCall request :
  preserves (via limiter quota_grows) (FlightAPI.liveCall cfg env request).
Proof.
  unfold FlightAPI.liveCall.
  apply preserves_bind; [apply _ | apply grows_recordCall |]. intros _.
  apply preserves_bind; [apply _ | apply kept_getAmadeusToken; side |].
  intros token. apply kept_axios; side.
Qed.

Lemma bind_bind {A B C} (m : M A) (k : A -> M B) (f : B -> M C) w :
  bind (bind m k) f w = bind m (fun a => bind (k a) f) w.
Proof. unfold bind. by destruct (m w) as [[a|e] w1]. Qed.

(** The run once the check has admitted the call: whatever the token
    exchange and the request come to, one unit is gone. *)
Lemma admitted_run {A} (fallback : M A) request (post : Body -> M A)
    (handler : Exn -> M A) w0 :
  admits env w0 ->
  (forall body, preserves (via quota eq) (post body)) ->
  (forall e, preserves (via quota eq) (handler e)) ->
  one_unit_consumed env w0
    (snd ((let* check := canMakeCall env in
           if negb (APIRateLimiter.allowed check) then fallback
           else try_catch
                  (let* body := FlightAPI.liveCall cfg env request in post body)
                  handler) w0)).
Proof.
  intros Hadm Hpost Hhandler. unfold admits in Hadm.
  unfold bind at 1. rewrite canMakeCall_run, Hadm. cbn [negb].
  set (w1 := with_limiter _ (with_tick (S (tick w0)) w0)).
  assert (Hkeep : preserves (via quota eq)
            (try_catch
               (let* body :=
                  (let* token := getAmadeusToken cfg env in
                   axios env (request token)) in post body) handler)).
  { apply preserves_try_catch; [apply _ | | done].
    apply preserves_bind; [apply _ | | done].
    apply preserves_bind; [apply _ | apply kept_getAmadeusToken; side |].
    intros token. apply kept_axios; side. }
  assert (E : try_catch
                (let* body := FlightAPI.liveCall cfg env request in post body)
                handler w1
              = try_catch
                  (let* body :=
                     (let* token := getAmadeusToken cfg env in
                      axios env (request token)) in post body)
                  handler (snd (recordCall env w1))).
  { reflexivity. }
  rewrite E. clear E.
  remember (snd (recordCall env w1)) as w2 eqn:Ew2.
  specialize (Hkeep w2). unfold via, quota in Hkeep.
  destruct (try_catch _ _ w2) as [res w']. cbn [snd] in *.
  injection Hkeep as Hl Hs.
  unfold one_unit_consumed. rewrite <- Hl, <- Hs. subst w2.
  rewrite recordCall_run. subst w1. cbv zeta.
  destruct w0 as [? ? ? ? lim ? ? tk]; simpl.
  destruct (writableAt env (S (S tk))); simpl;
    rewrite ?RateLimiterFacts.rollover_callsToday; repeat split; done.
Qed.

Lemma quota_kept_quiet {A} (m : M A) P :
  quiet m P -> preserves (via quota eq) m.
Proof. apply kept_quiet; side. Qed.

Lemma quota_kept_cacheSet {T} (rg : Region T) key d hours :
  (forall w ls, quota (with_entries rg ls w) = quota w) ->
  preserves (via quota eq) (cacheSet env rg key d hours).
Proof. intros H. apply kept_cacheSet; side. Qed.

(** C10.  [liveCall], the live part of the three operations, begins with
    [recordCall]: the token and the request come after it, and nothing has
    been sent when it is done.  So once the quota check of an operation in
    live mode has admitted the call (after a miss in the cache), the run
    ends with exactly one unit used, and saved when the write goes through,
    whatever the token exchange and the request come to: a reply, a failure
    or an exception.  And no operation makes the counters of the rate
    limiter go down: the day counter never, the minute counter only with the
    start of a new window. *)
Theorem quota_is_spent_before_the_call (w : World) :
  (forall request,
     FlightAPI.liveCall cfg env request w
     = (let* token := getAmadeusToken cfg env in axios env (request token))
         (snd (recordCall env w)) /\
     requests (snd (recordCall env w)) = requests w) /\
  (forall o maxPrice oneWay w0,
     MOCK_MODE cfg = false ->
     cacheGet env inspirationRegion (FlightAPI.inspirationKey o maxPrice oneWay) w
       = (Return None, w0) ->
     admits env w0 ->
     one_unit_consumed env w0
       (snd (FlightAPI.getFlightInspiration cfg env o maxPrice oneWay w))) /\
  (forall o d oneWay w0,
     o <> d ->
     MOCK_MODE cfg = false ->
     cacheGet env trendsRegion (FlightAPI.cheapestDatesKey o d oneWay) w
       = (Return None, w0) ->
     admits env w0 ->
     one_unit_consumed env w0
       (snd (FlightAPI.getFlightCheapestDates cfg env o d oneWay w))) /\
  (forall query w0,
     (2 <= length16 query)%nat ->
     MOCK_MODE cfg = false ->
     cacheGet env airportsRegion (FlightAPI.airportsKey env query) w
       = (Return None, w0) ->
     admits env w0 ->
     one_unit_consumed env w0
       (snd (FlightAPI.getAirportSuggestions cfg env query w))) /\
  (forall params,
     quota_grows (limiter w)
       (limiter (snd (FlightAPI.searchFlights cfg env params w)))) /\
  (forall params,
     quota_grows (limiter w)
       (limiter (snd (FlightAPI.getPriceTrends cfg env params w)))) /\
  (forall o maxPrice oneWay,
     quota_grows (limiter w)
       (limiter (snd (FlightAPI.getFlightInspiration cfg env o maxPrice oneWay w)))) /\
  (forall o d oneWay,
     quota_grows (limiter w)
       (limiter (snd (FlightAPI.getFlightCheapestDates cfg env o d oneWay w)))) /\
  (forall query,
     quota_grows (limiter w)
       (limiter (snd (FlightAPI.getAirportSuggestions cfg env query w)))).
Proof.
  assert (Hthrow : forall A e, preserves (via quota eq) (@throw A e))
    by (intros; apply preserves_throw; side).
  assert (Hret : forall A (a : A), preserves (via quota eq) (ret a))
    by (intros; apply preserves_ret; side).
  split; [|split; [|split; [|split]]].
  - intros request. split; [reflexivity|].
    rewrite recordCall_run. cbv zeta.
    destruct (writableAt env _); by destruct w.
  - intros o maxPrice oneWay w0 Hlive Hmiss Hadm.
    unfold FlightAPI.getFlightInspiration. cbv zeta.
    unfold bind at 1. rewrite Hmiss, Hlive.
    apply admitted_run; [done | |].
    + intros body. apply preserves_bind; [apply _ | | done].
      by apply quota_kept_cacheSet.
    + intros e. destruct (isAxiosError e); [|done].
      eapply quota_kept_quiet, quiet_getMockInspirationData.
  - intros o d oneWay w0 Hdiff Hlive Hmiss Hadm.
    unfold FlightAPI.getFlightCheapestDates. cbv zeta.
    destruct (decide (o = d)); [done|].
    unfold bind at 1. rewrite Hmiss, Hlive.
    apply admitted_run; [done | |].
    + intros body. destruct (body_data body);
        [|eapply quota_kept_quiet, quiet_getMockPriceTrendsForRoute].
      apply preserves_bind; [apply _ | |].
      { apply preserves_still; [apply _|]. apply extractPriceTrends_world. }
      intros extracted.
      apply preserves_bind; [apply _ | | done].
      by apply quota_kept_cacheSet.
    + intros e. destruct (isAxiosError e); [|done].
      eapply quota_kept_quiet, quiet_getMockPriceTrendsForRoute.
  - intros query w0 Hlen Hlive Hmiss Hadm.
    unfold FlightAPI.getAirportSuggestions. cbv zeta.
    destruct (Nat.ltb_spec (length16 query) 2); [lia|].
    unfold bind at 1. rewrite Hmiss, Hlive.
    apply admitted_run; [done | |].
    + intros body. destruct (body_data body); [|done].
      apply preserves_bind; [apply _ | |].
      { apply preserves_still; [apply _|]. apply toSuggestions_world. }
      intros suggestions.
      apply preserves_bind; [apply _ | | done].
      by apply quota_kept_cacheSet.
    + intros e. by destruct (isAxiosError e).
  - assert (Hq : forall A (m : M A) P,
               quiet m P -> preserves (via limiter quota_grows) m)
      by (intros; eapply kept_quiet; [side | side | eassumption]).
    assert (Hg : forall T (rg : Region T) key,
               (forall w ls, limiter (with_entries rg ls w) = limiter w) ->
               preserves (via limiter quota_grows) (cacheGet env rg key))
      by (intros; apply kept_cacheGet; side).
    assert (Hs : forall T (rg : Region T) key d hours,
               (forall w ls, limiter (with_entries rg ls w) = limiter w) ->
               preserves (via limiter quota_grows) (cacheSet env rg key d hours))
      by (intros; apply kept_cacheSet; side).
    assert (Hrun : forall A (m : M A),
               preserves (via limiter quota_grows) m ->
               quota_grows (limiter w) (limiter (snd (m w))))
      by (intros A m Hm; apply Hm).
    split; [|split; [|split; [|split]]]; intros; apply Hrun;
      [ apply (preserved_by_searchFlights _ (fun _ => True))
      | apply (preserved_by_getPriceTrends _ (fun _ => True))
      | apply (preserved_by_getFlightInspiration _ (fun _ => True))
      | apply (preserved_by_getFlightCheapestDates _ (fun _ => True))
      | apply (preserved_by_getAirportSuggestions _ (fun _ => True)) ];
      try done; try apply grows_canMakeCall;
      try (intros; apply grows_liveCall);
      try (intros; apply Hg; done); try (intros; apply Hs; done);
      try apply Hq.
Qed.

(** C5, amended.  With a valid departure date [searchFlights] never throws
    and what it returns is always a list made by
    [generateEnhancedMockFlights]; the only requests sent on the way are for
    a token and for the prices of the route by date: no flight offers are
    requested.  The generator runs without a base price (its default, a
    number from 200 to 1000, is then drawn) when the route is from an
    airport to itself or the mock mode is on, and when [getPriceTrends]
    throws.  Otherwise it runs, from the world [getPriceTrends] left, with
    the average of the price points [getPriceTrends] returned, whatever
    their source, or with 300 when it returned none. *)
Theorem searchFlights_is_synthesis (params : SearchParams) (ms : Z)
    (w : World) :
  sp_departureDate params = ValidDate ms ->
  exists flights w',
    FlightAPI.searchFlights cfg env params w = (Return flights, w') /\
    sends price_lookup (requests w) (requests w') /\
    if bool_decide (sp_origin params = sp_destination params) || MOCK_MODE cfg
    then generateEnhancedMockFlights env params None w = (Return flights, w')
    else
      match FlightAPI.getPriceTrends cfg env params w with
      | (Return priceTrends, w1) =>
          generateEnhancedMockFlights env params
            (Some (match priceTrends with
                   | [] => 300
                   | _ =>
                       fold_left (fun sum p => sum + pd_price p) priceTrends 0
                         / inject_Z (Z.of_nat (length priceTrends))
                   end)%Q) w1
          = (Return flights, w')
      | (Throw _, w1) =>
          generateEnhancedMockFlights env params None w1 = (Return flights, w')
      end.
Proof.
  intros Hdate. rewrite (searchFlights_valid_date _ _ _ Hdate).
  assert (Hgen : forall bp w1,
            sends price_lookup (requests w) (requests w1) ->
            exists flights w',
              generateEnhancedMockFlights env params bp w1 = (Return flights, w') /\
              sends price_lookup (requests w) (requests w')).
  { intros bp w1 Hs.
    destruct (quiet_generateEnhancedMockFlights env Hfair params bp w1)
      as (flights & w' & E & S & _).
    exists flights, w'. split; [done|].
    apply steady_parts in S. destruct S as (-> & _). done. }
  destruct (decide (sp_origin params = sp_destination params)) as [Hsame|Hdiff].
  { destruct (Hgen None w ltac:(reflexivity)) as (flights & w' & E & Hs).
    exists flights, w'. by rewrite bool_decide_eq_true_2. }
  rewrite bool_decide_eq_false_2 by done. cbn [orb].
  destruct (MOCK_MODE cfg).
  { destruct (Hgen None w ltac:(reflexivity)) as (flights & w' & E & Hs).
    by exists flights, w'. }
  pose proof (sends_getPriceTrends params w) as Hs1. unfold via in Hs1.
  unfold try_catch, bind.
  destruct (FlightAPI.getPriceTrends cfg env params w) as [[trends|e] w1] eqn:Et;
    simpl in Hs1.
  - destruct (Hgen (Some (FlightAPI.averagePrice trends)) w1 Hs1)
      as (flights & w' & E & Hs).
    exists flights, w'. rewrite E. done.
  - destruct (Hgen None w1 Hs1) as (flights & w' & E & Hs).
    exists flights, w'. rewrite E. done.
Qed.

(** *** A failed token exchange

    [getAmadeusToken] turns whatever went wrong into a plain [Error], which
    is not an axios error, and the [catch] of the three live operations
    throws every error that is not an axios error on to the caller. *)
Lemma token_failure_escapes {A} request (post : Body -> M A) (fallback : M A)
    w status :
  tokenInfo w = None ->
  replyAt env (S (S (tick w))) = Failure status ->
  fst (try_catch
         (let* body := FlightAPI.liveCall cfg env request in post body)
         (fun error => if isAxiosError error then fallback else throw error) w)
  = Throw (Error "Failed to authenticate with Amadeus API").
Proof.
  intros Htok Hreply.
  assert (E : exists w3,
             FlightAPI.liveCall cfg env request w
             = (Throw (Error "Failed to authenticate with Amadeus API"), w3)).
  { unfold FlightAPI.liveCall. unfold bind at 1.
    rewrite recordCall_run. cbv zeta.
    set (w2 := if writableAt env (S (tick w)) then _ else _).
    assert (Ht : tokenInfo w2 = None /\ tick w2 = S (S (tick w))).
    { subst w2. destruct (writableAt env _); by destruct w. }
    destruct Ht as [Ht Hk].
    unfold bind at 1. rewrite TokenFacts.getAmadeusToken_described.
    unfold getToken_described. rewrite Ht.
    unfold exchange_described. rewrite Hk, Hreply. eauto. }
  destruct E as [w3 E]. unfold try_catch, bind. by rewrite E.
Qed.

End Fair.

Lemma same_route_is_synthesized_witness :
  sp_origin (route "JFK" "JFK") = sp_destination (route "JFK" "JFK") /\
  sp_departureDate (route "JFK" "JFK") = ValidDate 0 /\
  exists flights w',
    FlightAPI.searchFlights liveConfig (sampleEnv 0 0 (Failure None))
      (route "JFK" "JFK") (newWorld 0) = (Return flights, w') /\
    flights <> [] /\ requests w' = [] /\
    limiter w' = APIRateLimiter.fresh 0.
Proof.
  split; [reflexivity|]. split; [reflexivity|].
  destruct (same_route_is_synthesized liveConfig (sampleEnv 0 0 (Failure None))
              (sampleEnv_fair 0 (Failure None)) (route "JFK" "JFK") false 0
              (newWorld 0) eq_refl eq_refl)
    as [(flights & w' & E & _ & Hne & Hr & Hl & _) _].
  exists flights, w'. repeat split; assumption.
Defined.

(** A request from JFK to LAX in live mode, with a price point of 400 in
    the cache. *)
Lemma searchFlights_is_synthesis_witness :
  fair (sampleEnv 0 0 (Failure None)) /\
  sp_departureDate (route "JFK" "LAX") = ValidDate 0 /\
  exists flights w',
    FlightAPI.searchFlights liveConfig (sampleEnv 0 0 (Failure None))
      (route "JFK" "LAX")
      (with_trendsCache
         {[ "flight_cache_cheapest_dates_JFK_LAX_false" :=
              Parsed (APICacheManager.mkCache
                        [mkPoint "2026-12-01" 400 "Various"] 0 604800000) ]}
         (newWorld 0))
    = (Return flights, w').
Proof.
  split; [apply sampleEnv_fair|]. split; [reflexivity|].
  destruct (searchFlights_is_synthesis liveConfig (sampleEnv 0 0 (Failure None))
              (sampleEnv_fair 0 (Failure None)) (route "JFK" "LAX") 0
              (with_trendsCache
                 {[ "flight_cache_cheapest_dates_JFK_LAX_false" :=
                      Parsed (APICacheManager.mkCache
                                [mkPoint "2026-12-01" 400 "Various"]
                                0 604800000) ]}
                 (newWorld 0)) eq_refl)
    as (flights & w' & E & _).
  by exists flights, w'.
Defined.

(** C5, as stated, fails in two places.  With the Invalid Date for the
    departure date no list is returned: [searchFlights] throws.  And a
    failure in obtaining the live price does not always fall back to the
    default base price: when the quota is used up, [getPriceTrends] returns
    the mock price trends and [searchFlights] takes their average for the
    base price.  With [Math.random] answering 0 the seven mock prices are
    240 and every flight costs 180, where the default base price, 200,
    makes every flight cost 150. *)
Lemma default_base_counterexample :
  ~ (forall cfg env params w,
       fair env ->
       exists flights w',
         FlightAPI.searchFlights cfg env params w = (Return flights, w')) /\
  ~ (forall cfg env params ms w,
       fair env ->
       sp_departureDate params = ValidDate ms ->
       MOCK_MODE cfg = false ->
       sp_origin params <> sp_destination params ->
       trendsCache w = ∅ ->
       ~ admits env w ->
       FlightAPI.searchFlights cfg env params w
       = generateEnhancedMockFlights env params None
           (snd (FlightAPI.getPriceTrends cfg env params w))).
Proof.
  split.
  - intros H.
    destruct (H liveConfig (sampleEnv 0 0 (Failure None))
                (mkParams "JFK" "LAX" InvalidDate (1, 0, 0)) (newWorld 0)
                (sampleEnv_fair 0 (Failure None))) as (flights & w' & E).
    discriminate E.
  - intros H.
    specialize (H liveConfig (sampleEnv 0 0 (Failure None)) (route "JFK" "LAX") 0
                  (with_limiter (APIRateLimiter.mk 39 0 0) (newWorld 0))
                  (sampleEnv_fair 0 (Failure None)) eq_refl eq_refl
                  ltac:(discriminate) eq_refl
                  ltac:(unfold admits; simpl; discriminate)).
    assert (Hcost : forall r : Result (list Flight) * World,
              r = FlightAPI.searchFlights liveConfig
                    (sampleEnv 0 0 (Failure None)) (route "JFK" "LAX")
                    (with_limiter (APIRateLimiter.mk 39 0 0) (newWorld 0)) ->
              match fst r with
              | Return (f :: _) => price f = 180
              | _ => False
              end)
      by (intros r ->; vm_compute; reflexivity).
    specialize (Hcost _ (eq_sym H)). vm_compute in Hcost. discriminate Hcost.
Qed.

Lemma quota_is_spent_before_the_call_witness :
  fair (sampleEnv 0 0 (Failure None)) /\
  one_unit_consumed (sampleEnv 0 0 (Failure None)) (newWorld 0)
    (snd (FlightAPI.getFlightInspiration liveConfig
            (sampleEnv 0 0 (Failure None)) "JFK" 1000 false (newWorld 0))) /\
  quota_grows (limiter (newWorld 0))
    (limiter (snd (FlightAPI.searchFlights liveConfig
                     (sampleEnv 0 0 (Failure None)) (route "JFK" "LAX")
                     (newWorld 0)))).
Proof.
  split; [apply sampleEnv_fair|].
  destruct (quota_is_spent_before_the_call liveConfig
              (sampleEnv 0 0 (Failure None)) (sampleEnv_fair 0 (Failure None))
              (newWorld 0))
    as (_ & Hinspiration & _ & _ & Hsearch & _).
  split.
  - apply Hinspiration; reflexivity.
  - apply Hsearch.
Defined.

(** C1 fails on the code.  In live mode, with nothing cached and quota
    left, a token endpoint that answers 401 makes [getFlightCheapestDates],
    [getPriceTrends], [getFlightInspiration] and [getAirportSuggestions]
    throw to their caller; of the four operations only [searchFlights]
    catches the error and returns synthesized flights. *)
Theorem authentication_failure_is_thrown :
  fst (FlightAPI.getFlightCheapestDates liveConfig
         (sampleEnv 0 0 (Failure (Some 401))) "JFK" "LAX" false (newWorld 0))
    = Throw (Error "Failed to authenticate with Amadeus API") /\
  fst (FlightAPI.getPriceTrends liveConfig
         (sampleEnv 0 0 (Failure (Some 401))) (route "JFK" "LAX") (newWorld 0))
    = Throw (Error "Failed to authenticate with Amadeus API") /\
  fst (FlightAPI.getFlightInspiration liveConfig
         (sampleEnv 0 0 (Failure (Some 401))) "JFK" 1000 false (newWorld 0))
    = Throw (Error "Failed to authenticate with Amadeus API") /\
  fst (FlightAPI.getAirportSuggestions liveConfig
         (sampleEnv 0 0 (Failure (Some 401))) "JFK" (newWorld 0))
    = Throw (Error "Failed to authenticate with Amadeus API") /\
  exists flights,
    fst (FlightAPI.searchFlights liveConfig
           (sampleEnv 0 0 (Failure (Some 401))) (route "JFK" "LAX") (newWorld 0))
      = Return flights /\
    length flights = 12%nat.
Proof.
  repeat split; try (vm_compute; reflexivity).
  eexists. split; vm_compute; reflexivity.
Qed.

End OperationFacts.

(** ** Airport suggestions *)

Module AirportFacts.
Import MonadFacts FootprintFacts OperationFacts.

Lemma prefix_spec (q s : string) :
  String.prefix q s = true <-> exists after, s = q +:+ after.
Proof.
  revert s. induction q as [|c q IH]; intros [|d s]; simpl.
  - split; [intros _; by exists "" | done].
  - split; [intros _; by exists (String d s) | done].
  - split; [done | by intros [? ?]].
  - destruct (Ascii.ascii_dec c d) as [->|Hne].
    + rewrite IH. split; intros [after E]; exists after.
      * by rewrite E.
      * by injection E.
    + split; [done|]. intros [after E]. injection E as E1 E2. done.
Qed.

Lemma includes_spec (s q : string) :
  includes s q = true <-> exists before after, s = before +:+ q +:+ after.
Proof.
  induction s as [|c s IH]; cbn [includes].
  - rewrite orb_false_r, prefix_spec. split.
    + intros [after E]. by exists "", after.
    + intros (before & after & E). destruct before; [by exists after|done].
  - rewrite orb_true_iff, prefix_spec, IH. split.
    + intros [[after E] | (before & after & E)].
      * by exists "", after.
      * exists (String c before), after. simpl. by rewrite E.
    + intros (before & after & E). destruct before as [|d before].
      * left. by exists after.
      * right. simpl in E. injection E as -> E. by exists before, after.
Qed.

Lemma contains_ci_includes env text query :
  contains_ci env text query <->
  includes (toLowerCase env text) (toLowerCase env query) = true.
Proof. unfold contains_ci. by rewrite includes_spec. Qed.

(** *** Upper and lower case on ASCII texts *)

Lemma same_letter_lower a b :
  same_letter a b = Ascii.eqb (lower_ascii a) (lower_ascii b).
Proof.
  assert (H : forallb (fun x =>
                forallb (fun y =>
                  Bool.eqb
                    (same_letter (ascii_of_nat x) (ascii_of_nat y))
                    (Ascii.eqb (lower_ascii (ascii_of_nat x))
                               (lower_ascii (ascii_of_nat y))))
                  (seq 0 256))
                (seq 0 256) = true) by (vm_compute; reflexivity).
  rewrite forallb_forall in H.
  specialize (H (nat_of_ascii a)). rewrite forallb_forall in H.
  specialize (H ltac:(apply in_seq; pose proof (nat_ascii_bounded a); lia)
                (nat_of_ascii b)
                ltac:(apply in_seq; pose proof (nat_ascii_bounded b); lia)).
  rewrite !ascii_nat_embedding in H. by apply Bool.eqb_prop in H.
Qed.

Lemma same_letters_lower s t :
  same_letters s t = true <-> lowerASCII s = lowerASCII t.
Proof.
  revert t. induction s as [|a s IH]; intros [|b t]; cbn; try done.
  rewrite andb_true_iff, IH, same_letter_lower, Ascii.eqb_eq.
  split; [by intros [-> ->] | intros E; by injection E].
Qed.

Lemma lowerASCII_app s t : lowerASCII (s +:+ t) = lowerASCII s +:+ lowerASCII t.
Proof.
  induction s as [|a s IH]; [done|].
  change (lowerASCII (String a (s +:+ t))
          = String (lower_ascii a) (lowerASCII s +:+ lowerASCII t)).
  cbn [lowerASCII]. by rewrite IH.
Qed.

Lemma lowerASCII_split text x y :
  lowerASCII text = x +:+ y ->
  exists t1 t2, text = t1 +:+ t2 /\ lowerASCII t1 = x /\ lowerASCII t2 = y.
Proof.
  revert text. induction x as [|c x IH]; intros text E.
  - by exists "", text.
  - destruct text as [|a text]; [done|]. cbn in E. injection E as Ha E.
    destruct (IH _ E) as (t1 & t2 & -> & H1 & H2).
    exists (String a t1), t2. cbn. by rewrite Ha, H1.
Qed.

Lemma contains_ci_ascii env text query :
  isASCII text = true -> isASCII query = true ->
  contains_ci env text query <-> contains_ignoring_case text query.
Proof.
  intros Ht Hq. unfold contains_ci, contains_ignoring_case, toLowerCase.
  rewrite Ht, Hq. split.
  - intros (before & after & E).
    apply lowerASCII_split in E as (t1 & rest & -> & <- & E).
    apply lowerASCII_split in E as (t2 & t3 & -> & E & <-).
    exists t1, t2, t3. split; [done|]. by apply same_letters_lower.
  - intros (before & found & after & -> & E).
    apply same_letters_lower in E.
    exists (lowerASCII before), (lowerASCII after).
    by rewrite !lowerASCII_app, E.
Qed.

Lemma findIndex_first {A} (p : A -> bool) (l : list A) : forall j,
  findIndex p l = Some j ->
  forall k y, (k < j)%nat -> l !! k = Some y -> p y = false.
Proof.
  induction l as [|x l IH]; intros j Hj k y Hk Hy; [done|].
  simpl in Hj. destruct (p x) eqn:Hx; [injection Hj as <-; lia|].
  destruct (findIndex p l) as [j'|] eqn:Ej; [|done].
  injection Hj as <-. destruct k as [|k]; simpl in Hy.
  - by injection Hy as <-.
  - eapply (IH j' eq_refl k); [lia|done].
Qed.

Lemma filter_indexed_elem {A} (p : A -> nat -> bool) (l : list A) : forall i y,
  y ∈ filter_indexed p i l ->
  exists k, l !! k = Some y /\ p y (i + k)%nat = true.
Proof.
  induction l as [|x l IH]; intros i y Hy; simpl in Hy.
  - by apply elem_of_nil in Hy.
  - destruct (p x i) eqn:Hx.
    + apply elem_of_cons in Hy. destruct Hy as [->|Hy].
      * exists O. by rewrite Nat.add_0_r.
      * destruct (IH _ _ Hy) as (k & E & Hp). exists (S k).
        by rewrite Nat.add_succ_r.
    + destruct (IH _ _ Hy) as (k & E & Hp). exists (S k).
      by rewrite Nat.add_succ_r.
Qed.

Lemma filter_indexed_sublist {A} (p : A -> nat -> bool) (l : list A) i :
  filter_indexed p i l `sublist_of` l.
Proof.
  revert i. induction l as [|x l IH]; intros i; simpl; [done|].
  destruct (p x i); by constructor.
Qed.

Lemma List_filter_sublist {A} (f : A -> bool) (l : list A) :
  List.filter f l `sublist_of` l.
Proof.
  induction l as [|x l IH]; simpl; [done|]. destruct (f x); by constructor.
Qed.

Lemma uniqueByCode_NoDup (self : list Airport) :
  NoDup (code <$> FlightAPI.uniqueByCode self).
Proof.
  unfold FlightAPI.uniqueByCode.
  set (p := fun (suggestion : Airport) (index : nat) => bool_decide _).
  assert (G : forall l before,
             self = before ++ l ->
             NoDup (code <$> filter_indexed p (length before) l)).
  { induction l as [|x l IH]; intros before Hself; simpl; [constructor|].
    assert (Hrest : NoDup (code <$> filter_indexed p (S (length before)) l)).
    { specialize (IH (before ++ [x])). rewrite length_app, Nat.add_1_r in IH.
      apply IH. by rewrite <- app_assoc. }
    destruct (p x (length before)) eqn:Hx; [|done].
    rewrite fmap_cons. constructor; [|done].
    intros Hin. apply list_elem_of_fmap in Hin.
    destruct Hin as (y & Hcode & Hy).
    apply filter_indexed_elem in Hy. destruct Hy as (k & _ & Hp).
    unfold p in Hp. apply bool_decide_eq_true in Hp.
    assert (Hfalse : String.eqb (code x) (code y) = false).
    { eapply (findIndex_first _ self _ Hp (length before)); [lia|].
      rewrite Hself. by rewrite list_lookup_middle. }
    rewrite Hcode, String.eqb_refl in Hfalse. done. }
  apply (G self []). done.
Qed.

Lemma suggestionsMade_shape entries :
  (length (suggestionsMade entries) <= 8)%nat /\
  NoDup (code <$> suggestionsMade entries).
Proof.
  unfold suggestionsMade. split.
  - rewrite length_take. lia.
  - eapply sublist_NoDup;
      first [apply uniqueByCode_NoDup | apply fmap_sublist, sublist_take].
Qed.

Lemma roster_codes_distinct : NoDup (code <$> MOCK_AIRPORTS).
Proof. apply (bool_decide_unpack _). vm_compute. reflexivity. Qed.

Lemma mock_suggestions_shape env query :
  (length (getMockAirportSuggestions env query) <= 8)%nat /\
  NoDup (code <$> getMockAirportSuggestions env query).
Proof.
  unfold getMockAirportSuggestions.
  destruct (decide (query = "")); [split; [simpl; lia | constructor]|].
  split.
  - rewrite length_take. lia.
  - eapply sublist_NoDup; [apply roster_codes_distinct|].
    apply fmap_sublist. etransitivity; [apply sublist_take|].
    apply List_filter_sublist.
Qed.

Lemma mock_suggestions_roster env query :
  query <> "" -> roster_matches env query (getMockAirportSuggestions env query).
Proof.
  intros Hq. unfold getMockAirportSuggestions.
  destruct (decide (query = "")); [done|].
  eexists. split; [reflexivity|]. split; [apply List_filter_sublist|].
  intros a. rewrite list_elem_of_In, filter_In, <- list_elem_of_In.
  unfold matches. rewrite !contains_ci_includes, !orb_true_iff. tauto.
Qed.

Section Suggestions.
Context (cfg : Config) (env : Env).

(** What a look into the cache of airport suggestions comes to: nothing
    usable under the key, a hit, or an entry that has expired and is
    removed. *)
Lemma cacheGet_airports key w :
  cacheGet env airportsRegion key w = (Return None, w) \/
  (exists c,
     airportsCache w !! (APICacheManager.CACHE_PREFIX +:+ key) = Some (Parsed c) /\
     cacheGet env airportsRegion key w
     = (Return (Some (APICacheManager.data c)), with_tick (S (tick w)) w)) \/
  cacheGet env airportsRegion key w
  = (Return None,
     with_airportsCache
       (delete (APICacheManager.CACHE_PREFIX +:+ key) (airportsCache w))
       (with_tick (S (tick w)) w)).
Proof.
  unfold cacheGet. cbn [entries airportsRegion].
  destruct (airportsCache w !! _) as [[c|]|] eqn:E; [|by left..].
  right. unfold bind. cbn [Date_now]. unfold APICacheManager.get.
  cbn [entries airportsRegion with_entries].
  replace (airportsCache (with_tick (S (tick w)) w)) with (airportsCache w)
    by (by destruct w).
  rewrite E. destruct (_ <? _).
  - right. reflexivity.
  - left. exists c. split; [done|]. by destruct w.
Qed.

Lemma airports_wf_steady w w' :
  airportsCache w' = airportsCache w -> airports_wf w -> airports_wf w'.
Proof. unfold airports_wf. by intros ->. Qed.

Lemma liveCall_keeps_airports request w :
  airportsCache (snd (FlightAPI.liveCall cfg env request w)) = airportsCache w.
Proof.
  symmetry.
  apply (kept_liveCall cfg env airportsCache eq); side.
Qed.

Lemma cacheSet_airports key d hours w :
  cacheSet env airportsRegion key d hours w =
  (Return tt,
   with_airportsCache
     (APICacheManager.set key d hours (timeAt env (tick w))
        (writableAt env (S (tick w))) (airportsCache w))
     (with_tick (S (S (tick w))) w)).
Proof. unfold cacheSet, bind, modify. simpl. by destruct w. Qed.

(** The run after a miss in the cache. *)
Lemma suggestions_after_miss (query : string) (w0 : World)
    (l : list Airport) (w' : World) :
  airports_wf w0 ->
  query <> "" ->
  (if MOCK_MODE cfg then ret (getMockAirportSuggestions env query)
   else
     let* rateLimitCheck := canMakeCall env in
     if negb (APIRateLimiter.allowed rateLimitCheck)
     then ret (getMockAirportSuggestions env query)
     else
       try_catch
         (let* body :=
            FlightAPI.liveCall cfg env (fun token => GetLocations token query) in
          match body_data body with
          | Some items =>
              let* suggestions := FlightAPI.toSuggestions items in
              do* cacheSet env airportsRegion (FlightAPI.airportsKey env query)
                    suggestions 168 in
              ret suggestions
          | None => ret []
          end)
         (fun error =>
            if isAxiosError error then ret (getMockAirportSuggestions env query)
            else throw error)) w0 = (Return l, w') ->
  (length l <= 8)%nat /\
  NoDup (code <$> l) /\
  airports_wf w' /\
  (MOCK_MODE cfg = true \/
   ~ admits env w0 \/
   (exists status w2,
      FlightAPI.liveCall cfg env (fun token => GetLocations token query)
        (snd (canMakeCall env w0)) = (Throw (AxiosError status), w2)) ->
   roster_matches env query l).
Proof.
  intros Hwf Hq Hrun.
  pose proof (mock_suggestions_shape env query) as [Hm8 Hmnd].
  pose proof (mock_suggestions_roster env query Hq) as Hroster.
  destruct (MOCK_MODE cfg) eqn:Hmock.
  { injection Hrun as <- <-. by repeat split. }
  unfold bind at 1 in Hrun. rewrite canMakeCall_run in Hrun.
  unfold admits. rewrite canMakeCall_run. cbn [snd].
  set (w1 := with_limiter _ (with_tick (S (tick w0)) w0)) in *.
  assert (Hwf1 : airports_wf w1) by (by destruct w0).
  destruct (APIRateLimiter.allowed _) eqn:Hallowed; cbn [negb] in Hrun.
  2:{ injection Hrun as <- <-. by repeat split. }
  unfold try_catch in Hrun. unfold bind at 1 in Hrun.
  pose proof (liveCall_keeps_airports (fun token => GetLocations token query) w1)
    as Hkeep.
  destruct (FlightAPI.liveCall cfg env _ w1) as [[body|e] w2] eqn:Elive;
    cbn [snd] in Hkeep.
  - assert (Hvoid : ~ (false = true \/ true <> true \/
               exists status w3,
                 (Return body, w2) = (Throw (AxiosError status), w3))).
    { intros [?|[?|(? & ? & ?)]]; done. }
    assert (Hwf2 : airports_wf w2) by (by apply (airports_wf_steady w1)).
    destruct (body_data body) as [items|].
    + destruct (items_cases items) as [[entries ->]|Hnull].
      2:{ unfold bind in Hrun. rewrite (toSuggestions_null _ _ Hnull) in Hrun.
          discriminate. }
      unfold bind in Hrun.
      rewrite toSuggestions_objects, cacheSet_airports in Hrun.
      injection Hrun as <- <-.
      destruct (suggestionsMade_shape entries) as [H8 Hnd].
      repeat split; try done.
      unfold airports_wf, APICacheManager.set. simpl.
      destruct (writableAt env _).
      * replace (airportsCache (with_tick (S (S (tick w2))) w2))
          with (airportsCache w2) by (by destruct w2).
        apply map_Forall_insert_2; [done|].
        replace (airportsCache (with_tick (S (S (tick w2))) w2))
          with (airportsCache w2) by (by destruct w2). done.
      * by destruct w2.
    + injection Hrun as <- <-. repeat split; try done; simpl; try lia.
      constructor.
  - destruct e as [status|msg| |]; simpl in Hrun; [|done..].
    injection Hrun as <- <-.
    assert (airports_wf w2) by (by apply (airports_wf_steady w1)).
    by repeat split.
Qed.

(** A query of two code units is not the empty text. *)
Lemma length16_nonempty query : (2 <= length16 query)%nat -> query <> "".
Proof. intros Hlen ->. simpl in Hlen. lia. Qed.

(** Every run of [getAirportSuggestions] that returns, from a cache that is
    well formed. *)
Lemma suggestions_run (query : string) (w : World)
    (l : list Airport) (w' : World) :
  airports_wf w ->
  FlightAPI.getAirportSuggestions cfg env query w = (Return l, w') ->
  (length l <= 8)%nat /\
  NoDup (code <$> l) /\
  ((length16 query < 2)%nat -> l = []) /\
  airports_wf w' /\
  (forall w0,
     (2 <= length16 query)%nat ->
     cacheGet env airportsRegion (FlightAPI.airportsKey env query) w
       = (Return None, w0) ->
     MOCK_MODE cfg = true \/
     ~ admits env w0 \/
     (exists status w2,
        FlightAPI.liveCall cfg env (fun token => GetLocations token query)
          (snd (canMakeCall env w0)) = (Throw (AxiosError status), w2)) ->
     roster_matches env query l).
Proof.
  intros Hwf Hrun. unfold FlightAPI.getAirportSuggestions in Hrun.
  destruct (Nat.ltb_spec (length16 query) 2) as [Hshort|Hlong].
  { injection Hrun as <- <-.
    split; [simpl; lia|]. split; [constructor|]. split; [done|].
    split; [done|]. intros w0 ?. lia. }
  assert (Hq : query <> "") by (by apply length16_nonempty).
  cbv zeta in Hrun. unfold bind at 1 in Hrun.
  destruct (cacheGet_airports (FlightAPI.airportsKey env query) w)
    as [E | [(c & Hc & E) | E]]; rewrite E in Hrun.
  - destruct (suggestions_after_miss query w l w' Hwf Hq Hrun)
      as (H8 & Hnd & Hwf' & Hfallback).
    split; [done|]. split; [done|]. split; [intros; lia|]. split; [done|].
    intros w0 _ Hmiss. rewrite E in Hmiss. by injection Hmiss as <-.
  - injection Hrun as <- <-.
    pose proof (Hwf _ _ Hc) as [H8 Hnd]. simpl in H8, Hnd.
    split; [done|]. split; [done|]. split; [intros; lia|].
    split; [by destruct w|].
    intros w0 _ Hmiss. rewrite E in Hmiss. discriminate.
  - set (w0 := with_airportsCache _ _) in *.
    assert (Hwf0 : airports_wf w0).
    { unfold airports_wf, w0. destruct w; simpl. by apply map_Forall_delete. }
    destruct (suggestions_after_miss query w0 l w' Hwf0 Hq Hrun)
      as (H8 & Hnd & Hwf' & Hfallback).
    split; [done|]. split; [done|]. split; [intros; lia|]. split; [done|].
    intros w0' _ Hmiss. rewrite E in Hmiss. by injection Hmiss as <-.
Qed.

(** C9, amended.  Whatever the query, with a cache whose airport entries
    were written by this operation, [getAirportSuggestions] returns at most
    8 entries, no two with the same code, and the empty list for a query
    shorter than 2 characters (UTF-16 code units, which is what
    [query.length] counts), and it leaves such a cache behind.  When the
    cache holds no entry for the query that is still valid, then in
    offline mode, on a denial by the rate limiter and after a request that
    failed with an axios error the result is the fixed-roster airports
    whose code, city or name, put in lower case, contains the query put in
    lower case, in roster order and cut after the eighth.  (The cache is
    consulted before the offline mode is.)  For a query and a text of ASCII
    characters that is to say: the text contains the query, a letter of A
    to Z in upper case taken as the same as in lower case. *)
Theorem airport_suggestions_shape (query : string) (w : World)
    (l : list Airport) (w' : World) :
  airports_wf w ->
  FlightAPI.getAirportSuggestions cfg env query w = (Return l, w') ->
  (length l <= 8)%nat /\
  NoDup (code <$> l) /\
  ((length16 query < 2)%nat -> l = []) /\
  airports_wf w' /\
  (forall w0,
     (2 <= length16 query)%nat ->
     cacheGet env airportsRegion (FlightAPI.airportsKey env query) w
       = (Return None, w0) ->
     MOCK_MODE cfg = true \/
     ~ admits env w0 \/
     (exists status w2,
        FlightAPI.liveCall cfg env (fun token => GetLocations token query)
          (snd (canMakeCall env w0)) = (Throw (AxiosError status), w2)) ->
     roster_matches env query l) /\
  (forall text,
     isASCII text = true -> isASCII query = true ->
     contains_ci env text query <-> contains_ignoring_case text query).
Proof.
  intros Hwf Hrun.
  destruct (suggestions_run query w l w' Hwf Hrun) as (? & ? & ? & ? & ?).
  repeat (split; [done|]). intros text. apply contains_ci_ascii.
Qed.

End Suggestions.

Lemma newWorld_wf now : airports_wf (newWorld now).
Proof. unfold airports_wf. simpl. apply map_Forall_empty. Qed.

(** The scenario of the specification: offline, nothing cached, "JF". *)
Example suggestions_for_JF_offline :
  fst (FlightAPI.getAirportSuggestions mockConfig (sampleEnv 0 0 (Failure None))
         "JF" (newWorld 0))
  = Return [mkAirport "JFK" "John F. Kennedy International" "New York"].
Proof. vm_compute. reflexivity. Qed.

Lemma airport_suggestions_shape_witness :
  airports_wf (newWorld 0) /\
  (length [mkAirport "JFK" "John F. Kennedy International" "New York"] <= 8)%nat /\
  roster_matches (sampleEnv 0 0 (Failure None)) "JF"
    [mkAirport "JFK" "John F. Kennedy International" "New York"].
Proof.
  split; [apply newWorld_wf|].
  assert (E : exists w',
             FlightAPI.getAirportSuggestions mockConfig
               (sampleEnv 0 0 (Failure None)) "JF" (newWorld 0)
             = (Return [mkAirport "JFK" "John F. Kennedy International"
                          "New York"], w'))
    by (eexists; vm_compute; reflexivity).
  destruct E as [w' E].
  destruct (airport_suggestions_shape mockConfig (sampleEnv 0 0 (Failure None))
              "JF" (newWorld 0) _ w' (newWorld_wf 0) E)
    as (H8 & _ & _ & _ & Hroster & _).
  split; [exact H8|].
  apply (Hroster (newWorld 0)); [simpl; lia | reflexivity | by left].
Defined.

(** C9, as stated, fails for the offline mode: the cache is consulted
    first.  A search for "jf" in live mode is answered with the airport as
    the service names it and the answer is cached; the same search in
    offline mode then returns the cached entry, which is not an entry of
    the roster. *)
Lemma offline_suggestions_counterexample :
  ~ (forall cfg env query w l w',
       airports_wf w ->
       MOCK_MODE cfg = true ->
       (2 <= length16 query)%nat ->
       FlightAPI.getAirportSuggestions cfg env query w = (Return l, w') ->
       roster_matches env query l).
Proof.
  intros H.
  set (env := sampleEnv 0 0
                (Response (locationsBody "JFK" "JOHN F KENNEDY INTL" "NEW YORK"))).
  destruct (FlightAPI.getAirportSuggestions liveConfig env "jf" (newWorld 0))
    as [r1 w1] eqn:E1.
  assert (Hr1 : r1 = Return [mkAirport "JFK" "JOHN F KENNEDY INTL" "NEW YORK"])
    by (apply (f_equal fst) in E1; vm_compute in E1; congruence).
  subst r1.
  assert (Hwf : airports_wf w1).
  { eapply (suggestions_run liveConfig env "jf" (newWorld 0));
      [apply newWorld_wf | exact E1]. }
  assert (E2 : fst (FlightAPI.getAirportSuggestions mockConfig env "jf" w1)
               = Return [mkAirport "JFK" "JOHN F KENNEDY INTL" "NEW YORK"]).
  { apply (f_equal snd) in E1. simpl in E1. subst w1. vm_compute. reflexivity. }
  destruct (FlightAPI.getAirportSuggestions mockConfig env "jf" w1)
    as [r2 w2] eqn:E3. simpl in E2. subst r2.
  specialize (H mockConfig env "jf" w1 _ w2 Hwf eq_refl ltac:(simpl; lia) E3).
  destruct H as (candidates & Htake & _ & Hin).
  assert (Hx : mkAirport "JFK" "JOHN F KENNEDY INTL" "NEW YORK" ∈ candidates).
  { eapply elem_of_sublist; [|apply (sublist_take _ 8)].
    rewrite <- Htake. apply list_elem_of_here. }
  apply Hin in Hx. destruct Hx as [Hx _].
  apply (list_elem_of_fmap_2 name) in Hx.
  assert (Hn : "JOHN F KENNEDY INTL" ∉ name <$> MOCK_AIRPORTS)
    by (apply (bool_decide_unpack _); vm_compute; exact I).
  by apply Hn.
Qed.

End AirportFacts.

(* ===================================================================== *)
(** * Properties of the rest of the layer and of its callers *)
(* ===================================================================== *)

Module CacheLaws.
Import APICacheManager.

Section Laws.
Context {T : Type}.
Implicit Types (ls : gmap string (Stored (APICache T))) (v : T).

Lemma prefixed_inj key key' :
  CACHE_PREFIX +:+ key = CACHE_PREFIX +:+ key' -> key = key'.
Proof. apply (inj (String.app _)). Qed.

Lemma get_other key key' t0 ls :
  key <> key' ->
  snd (get key t0 ls) !! (CACHE_PREFIX +:+ key') = ls !! (CACHE_PREFIX +:+ key').
Proof.
  intros Hne. unfold get.
  destruct (ls !! (CACHE_PREFIX +:+ key)) as [[c|]|]; [|done..].
  destruct (_ <? _); [|done]. cbn [snd].
  apply lookup_delete_ne. intros E. by apply prefixed_inj in E.
Qed.

Lemma get_depends_on_entry key now ls ls' :
  ls !! (CACHE_PREFIX +:+ key) = ls' !! (CACHE_PREFIX +:+ key) ->
  fst (get key now ls) = fst (get key now ls').
Proof.
  intros E. unfold get. rewrite E.
  destruct (ls' !! _) as [[c|]|]; [|done..]. by destruct (_ <? _).
Qed.

(** X1.  Entries under different keys do not touch each other: what [get]
    answers for [key'] is the same after a [set], a [clear] or a [get] of
    another key. *)
Theorem cache_keys_are_independent key key' v ttlHours t0 writable now ls :
  key <> key' ->
  fst (get key' now (set key v ttlHours t0 writable ls)) = fst (get key' now ls) /\
  fst (get key' now (clear key ls)) = fst (get key' now ls) /\
  fst (get key' now (snd (get key t0 ls))) = fst (get key' now ls).
Proof.
  intros Hne.
  assert (Hk : CACHE_PREFIX +:+ key <> CACHE_PREFIX +:+ key')
    by (intros E; by apply prefixed_inj in E).
  split; [|split]; apply get_depends_on_entry.
  - unfold set. destruct writable; [|done]. by apply lookup_insert_ne.
  - unfold clear. by apply lookup_delete_ne.
  - by apply get_other.
Qed.

(** X2.  The last write wins, and a write that [localStorage] refuses leaves
    the older entry to be served for the rest of its own life. *)
Theorem cache_overwrite key v1 v2 ttl1 ttl2 t0 t1 t2 writable ls :
  fst (get key t2 (set key v2 ttl2 t1 true (set key v1 ttl1 t0 writable ls)))
    = (if ttl2 * 3600000 <? t2 - t1 then None else Some v2) /\
  fst (get key t2 (set key v2 ttl2 t1 false (set key v1 ttl1 t0 true ls)))
    = (if ttl1 * 3600000 <? t2 - t0 then None else Some v1).
Proof.
  split.
  - rewrite CacheFacts.get_after_set.
    replace (ttl2 * 60 * 60 * 1000) with (ttl2 * 3600000) by lia.
    by destruct (_ <? _).
  - rewrite CacheFacts.set_refused, CacheFacts.get_after_set.
    replace (ttl1 * 60 * 60 * 1000) with (ttl1 * 3600000) by lia.
    by destruct (_ <? _).
Qed.

Lemma clearAll_lookup_prefixed k ls :
  String.prefix CACHE_PREFIX k = true -> clearAll ls !! k = None.
Proof.
  intros Hp. unfold clearAll. apply map_lookup_filter_None. right.
  intros x _. simpl. by rewrite Hp.
Qed.

Lemma prefix_app (p s : string) : String.prefix p (p +:+ s) = true.
Proof.
  induction p as [|c p IH]; simpl; [by destruct s|].
  destruct (Ascii.ascii_dec c c); [done|congruence].
Qed.

(** X3.  After [clear(key)] a [get(key)] finds nothing; after [clearAll()] no
    [get] finds anything, whatever the clock says, and what is stored under
    keys without the prefix of the cache is still there. *)
Theorem cache_clear key now ls :
  get key now (clear key ls) = (None, clear key ls) /\
  (forall key', get key' now (clearAll ls) = (None, clearAll ls)) /\
  (forall k, String.prefix CACHE_PREFIX k = false -> clearAll ls !! k = ls !! k).
Proof.
  split; [|split].
  - unfold get, clear. by rewrite lookup_delete_eq.
  - intros key'. unfold get.
    by rewrite clearAll_lookup_prefixed by apply prefix_app.
  - intros k Hk. unfold clearAll.
    destruct (ls !! k) as [x|] eqn:E.
    + apply map_lookup_filter_Some. split; [done|]. done.
    + apply map_lookup_filter_None. by left.
Qed.

End Laws.

Lemma cache_keys_are_independent_witness :
  "a" <> "b" /\
  fst (get "b" 5 (set "a" 1 24 0 true (set "b" 2 24 0 true ∅))) = Some 2.
Proof.
  split; [discriminate|].
  destruct (cache_keys_are_independent (T := Z) "a" "b" 1 24 0 true 5
              (set "b" 2 24 0 true ∅) ltac:(discriminate)) as [E _].
  rewrite E. reflexivity.
Defined.

End CacheLaws.

Module LimiterLaws.
Import APIRateLimiter RateLimiterFacts.

(** X4.  What [recordCall] saves is what [initialize] loads: after a reload of
    the page on the same day the counters are those the last recorded call
    left; on another day the day counter starts at 0 and the minute window
    is taken over.  A window start of 0 is read as missing and replaced by
    the time of the reload. *)
Theorem limiter_survives_reload today today' now s s0 :
  0 <= callsToday s ->
  0 <= callsThisMinute s ->
  initialize (Some (Parsed (snd (recordCall today s)))) now today' s0 =
  {| callsToday := if decide (today = today') then callsToday s + 1 else 0;
     callsThisMinute := callsThisMinute s + 1;
     minuteStart := if decide (minuteStart s = 0) then now else minuteStart s |}.
Proof.
  intros Hd Hm. unfold initialize, recordCall, or_default.
  cbn [snd sv_callsToday sv_callsThisMinute sv_minuteStart sv_date
       callsToday callsThisMinute minuteStart].
  destruct (Z.eqb_spec (callsToday s + 1) 0); [lia|].
  destruct (Z.eqb_spec (callsThisMinute s + 1) 0); [lia|].
  destruct (Z.eqb_spec (minuteStart s) 0);
    destruct (decide (minuteStart s = 0)); try done;
    by destruct (decide (today = today')).
Qed.

Lemma limiter_survives_reload_witness :
  (0 <= callsToday (fresh 5) /\ 0 <= callsThisMinute (fresh 5)) /\
  initialize (Some (Parsed (snd (recordCall "Mon Nov 02 2026" (fresh 5)))))
    9 "Mon Nov 02 2026" (fresh 9)
  = fst (recordCall "Mon Nov 02 2026" (fresh 5)).
Proof.
  split; [simpl; lia|].
  rewrite (limiter_survives_reload "Mon Nov 02 2026" "Mon Nov 02 2026" 9
             (fresh 5) (fresh 9)); [reflexivity | simpl; lia | simpl; lia].
Defined.

(** X5.  A denial for the minute limit changes nothing, tells a wait between 0
    and 60 seconds when the clock has not gone back behind the start of the
    window, and the wait is enough: a check later than the wait told finds
    the window over, and is decided by the day counter alone. *)
Theorem rate_limit_wait_is_enough now s wait now' :
  reason (fst (canMakeCall now s)) = Some (RateLimit wait) ->
  now + 1000 * wait < now' ->
  snd (canMakeCall now s) = s /\
  allowed (fst (canMakeCall now s)) = false /\
  (minuteStart s <= now -> 0 <= wait <= 60) /\
  allowed (fst (canMakeCall now' (snd (canMakeCall now s))))
    = bool_decide (callsToday s < 39).
Proof.
  intros Hreason Hlater.
  rewrite canMakeCall_refines in *. unfold canMakeCall_described in Hreason |- *.
  destruct (decide (now - minuteStart s > 60000)) as [Hroll|Hroll];
    cbn [callsThisMinute callsToday minuteStart] in *.
  { destruct (decide (0 >= 10)); [lia|].
    by destruct (decide (callsToday s >= 39)). }
  destruct (decide (callsThisMinute s >= 10)) as [Hfull|Hfull].
  2:{ by destruct (decide (callsToday s >= 39)). }
  cbn [fst snd reason] in *. injection Hreason as <-.
  unfold seconds_until_reset in *.
  split; [done|]. split; [done|]. split.
  { intros Hclock. Z.div_mod_to_equations. lia. }
  rewrite canMakeCall_refines. unfold canMakeCall_described.
  destruct (decide (now' - minuteStart s > 60000)) as [Hroll'|Hroll'].
  2:{ exfalso. revert Hlater Hroll'. Z.div_mod_to_equations. lia. }
  cbn [callsThisMinute callsToday].
  destruct (decide (0 >= 10)); [lia|].
  destruct (decide (callsToday s >= 39)); cbn [fst allowed];
    symmetry; [apply bool_decide_eq_false | apply bool_decide_eq_true]; lia.
Qed.

Lemma rate_limit_wait_is_enough_witness :
  (reason (fst (canMakeCall 60000 (mk 10 10 0))) = Some (RateLimit 0) /\
   60000 + 1000 * 0 < 60001) /\
  allowed (fst (canMakeCall 60000 (mk 10 10 0))) = false /\
  allowed (fst (canMakeCall 60001 (snd (canMakeCall 60000 (mk 10 10 0))))) = true.
Proof.
  split; [split; [reflexivity | lia]|].
  destruct (rate_limit_wait_is_enough 60000 (mk 10 10 0) 0 60001
              eq_refl ltac:(lia)) as (_ & H1 & _ & H2).
  split; [exact H1|]. rewrite H2. reflexivity.
Defined.

Lemma run_counts today times : forall s,
  callsToday (snd (run today times s))
  = callsToday s + admitted (fst (run today times s)).
Proof.
  induction times as [|now rest IH]; intros s.
  - simpl. unfold admitted. simpl. lia.
  - rewrite run_cons. cbn [fst snd]. rewrite admitted_cons, IH.
    rewrite attempt_state. cbv zeta.
    destruct (_ && _); cbn [fst snd at_admitted callsToday];
      rewrite rollover_callsToday; lia.
Qed.

Lemma run_minute_bound today times : forall s,
  0 <= callsThisMinute s <= 10 ->
  0 <= callsThisMinute (snd (run today times s)) <= 10.
Proof.
  induction times as [|now rest IH]; intros s Hs; [done|].
  rewrite run_cons. cbn [snd]. apply IH.
  rewrite attempt_state. cbv zeta.
  assert (0 <= callsThisMinute (rollover now s) <= 10).
  { unfold rollover. destruct (_ <? _); simpl; lia. }
  destruct (Z.ltb_spec (callsThisMinute (rollover now s)) 10);
    destruct (callsToday (rollover now s) <? 39); simpl; lia.
Qed.

(** X6.  The day counter counts the admitted calls and nothing else, and the
    counters stay within their ceilings: whatever the attempts made since
    the counters were within them, [getStats] shows at most 39 calls for
    the day, at most 10 for the minute, and a number of calls left for the
    day that is not negative. *)
Theorem stats_stay_within_limits today times s :
  0 <= callsToday s <= 39 ->
  0 <= callsThisMinute s <= 10 ->
  let stats := getStats (snd (run today times s)) in
  st_callsToday stats = callsToday s + admitted (fst (run today times s)) /\
  0 <= st_callsToday stats <= maxPerDay stats /\
  0 <= st_callsThisMinute stats <= maxPerMinute stats /\
  callsLeftToday stats = 39 - st_callsToday stats /\
  0 <= callsLeftToday stats <= 39.
Proof.
  intros Hd Hm. cbv zeta. unfold getStats, MAX_CALLS_PER_DAY, MAX_CALLS_PER_MINUTE.
  cbn [st_callsToday st_callsThisMinute maxPerDay maxPerMinute callsLeftToday].
  pose proof (run_counts today times s) as Hc.
  pose proof (run_day_bound today times s) as Hb. cbv zeta in Hb.
  pose proof (run_minute_bound today times s Hm) as Hmin.
  assert (0 <= admitted (fst (run today times s))) by (unfold admitted; lia).
  lia.
Qed.

Lemma stats_stay_within_limits_witness :
  (0 <= callsToday (fresh 0) <= 39 /\ 0 <= callsThisMinute (fresh 0) <= 10) /\
  callsLeftToday
    (getStats (snd (run "Mon Nov 02 2026" (burst 59000 61000) (fresh 0)))) = 19.
Proof.
  split; [simpl; lia|].
  destruct (stats_stay_within_limits "Mon Nov 02 2026" (burst 59000 61000)
              (fresh 0) ltac:(simpl; lia) ltac:(simpl; lia))
    as (H1 & _ & _ & H2 & _).
  rewrite H2, H1. reflexivity.
Defined.

End LimiterLaws.

Module GeneratorLaws.
Import MonadFacts SynthesisFacts.

(** Two facts about the one run of a computation hold together. *)
Lemma quiet_and {A} (m : M A) (P Q : A -> Prop) :
  quiet m P -> quiet m Q -> quiet m (fun a => P a /\ Q a).
Proof.
  intros HP HQ w. destruct (HP w) as (a & w1 & E1 & S1 & Pa).
  destruct (HQ w) as (b & w2 & E2 & S2 & Qb).
  rewrite E1 in E2. injection E2 as <- <-. by exists a, w1.
Qed.

Section Generators.
Context (env : Env) (Hfair : fair env).

Lemma quiet_pick {A} (arr : list A) :
  (0 < length arr)%nat ->
  quiet (randomElement env arr) (fun o => exists a, o = Some a /\ a ∈ arr).
Proof.
  intros Hlen. unfold randomElement.
  eapply quiet_bind; [by apply quiet_Math_random|]. intros r Hr.
  apply quiet_ret.
  pose proof (Math_floor_scaled r (Z.of_nat (length arr)) Hr ltac:(lia)) as Hi.
  unfold at_index. destruct (Z.ltb_spec (Math_floor (r * inject_Z (Z.of_nat (length arr)))) 0); [lia|].
  destruct (lookup_lt_is_Some_2 arr (Z.to_nat (Math_floor (r * inject_Z (Z.of_nat (length arr))))))
    as [a Ha]; [lia|].
  exists a. split; [done|]. by eapply list_elem_of_lookup_2.
Qed.

Lemma quiet_stops_made n : forall acc,
  quiet (stopDetails_loop env n acc)
    (fun l => exists d, l = acc ++ d /\ length d = n /\ Forall stop_shape d).
Proof.
  induction n as [|n IH]; intros acc; cbn [stopDetails_loop].
  - apply quiet_ret. exists []. by rewrite app_nil_r.
  - eapply quiet_bind; [apply quiet_pick; simpl; lia|]. intros hub (h & -> & Hh).
    eapply quiet_bind; [by apply quiet_Math_random|]. intros r Hr.
    eapply quiet_weaken; [apply IH|]. cbv beta.
    intros l (d & -> & Hlen & Hall).
    eexists (_ :: d). rewrite <- app_assoc. split; [reflexivity|].
    split; [simpl; lia|]. constructor; [|done].
    split; [by exists h|]. cbn [stop_duration].
    pose proof (Math_floor_scaled r 120 Hr ltac:(lia)) as H120.
    change (inject_Z 120) with 120%Q in H120. lia.
Qed.

Lemma flight_number_range (r : Q) :
  (0 <= r /\ r < 1)%Q -> 100 <= Math_floor (100 + r * 900) <= 999.
Proof.
  intros [H0 H1]. unfold Math_floor. split.
  - apply Qfloor_lower. change (inject_Z 100) with 100%Q. lra.
  - assert (Qfloor (100 + r * 900) < 1000); [|lia].
    apply Qfloor_upper. change (inject_Z 1000) with 1000%Q. lra.
Qed.

Lemma quiet_mockFlight_details params base i :
  quiet (mockFlight env params base i) (flight_details params i).
Proof.
  unfold mockFlight.
  eapply quiet_bind; [apply quiet_pick; simpl; lia|].
  intros picked (a & -> & Ha).
  eapply quiet_bind; [by apply quiet_Math_random|]. intros r1 _.
  eapply quiet_bind with (P := fun s => s = 0 \/ s = 1 \/ s = 2).
  { destruct (Qle_bool r1 (6 # 10)); [|apply quiet_ret; auto].
    eapply quiet_bind; [by apply quiet_Math_random|]. intros r2 _.
    apply quiet_ret. destruct (Qle_bool r2 (85 # 100)); auto. }
  intros st Hst.
  eapply quiet_bind; [by apply quiet_Math_random|]. intros r3 _.
  eapply quiet_bind; [apply quiet_calculateRealisticDuration; [done|lia]|].
  intros dur _.
  eapply quiet_bind; [by apply quiet_Math_random|]. intros r4 _.
  eapply quiet_bind; [apply quiet_Date_now|]. intros now _.
  eapply quiet_bind with (P := fun a' => a' = a); [by apply quiet_ret|].
  intros ? ->.
  eapply quiet_bind; [by apply quiet_Math_random|]. intros r5 Hr5.
  eapply quiet_bind; [by apply quiet_Math_random|]. intros r6 _.
  eapply quiet_bind with
    (P := fun details =>
            match details with
            | None => st = 0
            | Some d => 0 < st /\ Z.of_nat (length d) = st /\ Forall stop_shape d
            end).
  { destruct (Z.ltb_spec 0 st); [|apply quiet_ret; lia].
    eapply quiet_bind; [apply quiet_stops_made|]. cbv beta.
    intros d (d' & -> & Hlen & Hall). apply quiet_ret.
    split; [done|]. split; [|done]. simpl. lia. }
  intros details Hdetails.
  eapply quiet_bind; [apply quiet_pick; simpl; lia|].
  intros craft (c & -> & Hc).
  apply quiet_ret. unfold flight_details.
  cbn [origin destination airline airlineLogo flightNumber id stopDetails
       stops aircraft].
  split; [done|]. split; [done|]. split.
  { exists a, (Math_floor (100 + r5 * 900)).
    split; [done|]. split; [done|]. split; [done|].
    split; [by apply flight_number_range|done]. }
  split; [by exists now|]. split; [done|]. by exists c.
Qed.

Lemma quiet_flights_made params base n : forall i acc,
  quiet (mockFlights_loop env params base n i acc)
    (fun l => exists made,
       l = acc ++ made /\ length made = n /\
       forall k f, made !! k = Some f ->
                   flight_details params (i + Z.of_nat k) f).
Proof.
  induction n as [|n IH]; intros i acc; cbn [mockFlights_loop].
  - apply quiet_ret. exists []. rewrite app_nil_r.
    split; [done|]. split; [done|]. intros k f. by rewrite lookup_nil.
  - eapply quiet_bind; [apply quiet_mockFlight_details|]. intros f Hf.
    eapply quiet_weaken; [apply IH|]. cbv beta.
    intros l (made & -> & Hlen & Hall).
    exists (f :: made). rewrite <- app_assoc. split; [done|].
    split; [simpl; lia|].
    intros [|k] g Hg; simpl in Hg.
    + injection Hg as <-. by rewrite Z.add_0_r.
    + replace (i + Z.of_nat (S k)) with (i + 1 + Z.of_nat k) by lia.
      by apply Hall.
Qed.

Lemma quiet_generated_details params basePrice :
  quiet (generateEnhancedMockFlights env params basePrice)
    (fun l => exists made,
       l ≡ₚ made /\
       forall k f, made !! k = Some f -> flight_details params (Z.of_nat k) f).
Proof.
  unfold generateEnhancedMockFlights.
  eapply quiet_bind with (P := fun _ => True).
  { destruct basePrice as [b|]; [destruct (Qeq_bool b 0)|];
      try by apply quiet_ret.
    all: eapply quiet_weaken; [by apply quiet_default_base | done]. }
  intros base _.
  eapply quiet_bind; [by apply quiet_Math_random|]. intros r Hr.
  eapply quiet_bind; [apply quiet_flights_made|]. cbv beta.
  intros flights (made & -> & _ & Hall). apply quiet_ret.
  exists made. split; [apply sort_by_Permutation|]. done.
Qed.

End Generators.

(** *** The identifiers of the flights *)

Lemma digit_of_pretty_N_char (x : N) : is_Some (digit_of (pretty_N_char x)).
Proof.
  unfold pretty_N_char. destruct x as [|p]; [by eexists|].
  do 4 (try destruct p as [p|p|]); by eexists.
Qed.

Lemma all_digits_pretty_N_go (x : N) : forall s,
  all_digits s = true -> all_digits (pretty_N_go x s) = true.
Proof.
  induction (N.lt_wf_0 x) as [x _ IH]. intros s Hs.
  destruct (decide (x = 0)%N) as [->|Hx]; [by rewrite pretty_N_go_0|].
  rewrite pretty_N_go_step by lia. apply IH.
  - apply N.div_lt; lia.
  - cbn [all_digits]. rewrite Hs, andb_true_r.
    apply bool_decide_eq_true, digit_of_pretty_N_char.
Qed.

Lemma all_digits_pretty (i : Z) : 0 <= i -> all_digits (pretty i) = true.
Proof.
  intros Hi. destruct i as [|p|p]; [done| |lia].
  unfold pretty, pretty_Z, pretty, pretty_positive, pretty, pretty_N.
  destruct (decide _); [done|]. by apply all_digits_pretty_N_go.
Qed.

Lemma all_digits_dash (a d : string) : all_digits (a +:+ String "-" d) = false.
Proof.
  induction a as [|c a IH]; simpl; [done|]. rewrite IH. apply andb_false_r.
Qed.

(** A string is cut in one way only at its last dash. *)
Lemma last_dash_inj (d1 d2 : string) : forall a b,
  a +:+ String "-" d1 = b +:+ String "-" d2 ->
  all_digits d1 = true -> all_digits d2 = true -> d1 = d2.
Proof.
  induction a as [|c a IH]; intros [|c' b] E H1 H2; simpl in E.
  - by injection E.
  - injection E as _ E. rewrite E, all_digits_dash in H1. done.
  - injection E as _ E. rewrite <- E, all_digits_dash in H2. done.
  - injection E as _ E. by eapply IH.
Qed.

Lemma flight_ids_differ params i j f g :
  0 <= i -> 0 <= j ->
  flight_details params i f -> flight_details params j g ->
  id f = id g -> i = j.
Proof.
  intros Hi Hj (_ & _ & _ & [n1 E1] & _) (_ & _ & _ & [n2 E2] & _) E.
  rewrite E1, E2 in E. apply (inj (String.app _)) in E.
  apply last_dash_inj in E; try by apply all_digits_pretty.
  by apply (inj pretty) in E.
Qed.

Lemma made_ids_distinct params (made : list Flight) :
  (forall k f, made !! k = Some f -> flight_details params (Z.of_nat k) f) ->
  NoDup (id <$> made).
Proof.
  intros Hall. apply NoDup_fmap_2_strong; [|].
  - intros f g Hf Hg E.
    apply list_elem_of_lookup in Hf. destruct Hf as [k Hk].
    apply list_elem_of_lookup in Hg. destruct Hg as [l Hl].
    assert (Z.of_nat k = Z.of_nat l).
    { eapply (flight_ids_differ params _ _ f g); eauto; lia. }
    assert (k = l) by lia. subst l. congruence.
  - apply NoDup_alt. intros k l f Hk Hl.
    assert (Z.of_nat k = Z.of_nat l); [|lia].
    eapply (flight_ids_differ params _ _ f f); eauto; lia.
Qed.

Section Flights.
Context (env : Env) (Hfair : fair env).

(** X7.  Every flight [generateEnhancedMockFlights] returns is on the route
    asked for, carries the name and the code of one airline of the list and
    a flight number made of that code and a number from 100 to 999, an
    identifier made of the time and of the round of the loop it was made
    in, one hub and a layover of 60 to 179 minutes for each of its stops
    (and no stop details when it has no stop), and an aircraft of the
    list. *)
Theorem synthesized_flights_details params (basePrice : option Q) w :
  exists flights w',
    generateEnhancedMockFlights env params basePrice w = (Return flights, w') /\
    Forall (fun f => exists i,
              0 <= i < Z.of_nat (length flights) /\ flight_details params i f)
      flights.
Proof.
  destruct (quiet_generated_details env Hfair params basePrice w)
    as (flights & w' & E & _ & made & Hperm & Hall).
  exists flights, w'. split; [done|].
  assert (Hlen : length flights = length made) by (by rewrite Hperm).
  rewrite Hlen, Hperm. apply Forall_lookup. intros k f Hk.
  exists (Z.of_nat k). split; [|by apply Hall].
  apply lookup_lt_Some in Hk. lia.
Qed.

(** X8.  No two flights of one synthesized list have the same identifier. *)
Theorem synthesized_flight_ids_distinct params (basePrice : option Q) w :
  exists flights w',
    generateEnhancedMockFlights env params basePrice w = (Return flights, w') /\
    NoDup (id <$> flights).
Proof.
  destruct (quiet_generated_details env Hfair params basePrice w)
    as (flights & w' & E & _ & made & Hperm & Hall).
  exists flights, w'. split; [done|].
  rewrite Hperm. by eapply made_ids_distinct.
Qed.

End Flights.

Lemma synthesized_flights_details_witness :
  fair (sampleEnv 0 0 (Failure None)) /\
  exists flights w',
    generateEnhancedMockFlights (sampleEnv 0 0 (Failure None))
      (route "JFK" "LAX") None (newWorld 0) = (Return flights, w') /\
    Forall (fun f => exists i,
              0 <= i < Z.of_nat (length flights) /\
              flight_details (route "JFK" "LAX") i f) flights.
Proof.
  split; [apply sampleEnv_fair|].
  apply (synthesized_flights_details (sampleEnv 0 0 (Failure None))
           (sampleEnv_fair 0 (Failure None))).
Defined.

Lemma synthesized_flight_ids_distinct_witness :
  fair (sampleEnv 0 0 (Failure None)) /\
  exists flights w',
    generateEnhancedMockFlights (sampleEnv 0 0 (Failure None))
      (route "JFK" "LAX") None (newWorld 0) = (Return flights, w') /\
    NoDup (id <$> flights).
Proof.
  split; [apply sampleEnv_fair|].
  apply (synthesized_flight_ids_distinct (sampleEnv 0 0 (Failure None))
           (sampleEnv_fair 0 (Failure None))).
Defined.

(** *** The mock destinations and the mock price trends *)

Lemma quiet_mapM_related {A B} (f : A -> M B) (R : A -> B -> Prop) (l : list A) :
  (forall a, quiet (f a) (R a)) -> quiet (mapM f l) (Forall2 R l).
Proof.
  intros Hf. induction l as [|a l IH]; simpl.
  - apply quiet_ret. constructor.
  - eapply quiet_bind; [apply Hf|]. intros b Hb.
    eapply quiet_bind; [apply IH|]. intros bs Hbs.
    apply quiet_ret. by constructor.
Qed.

Lemma toFixed2_bounds (b : Z) (r : Q) :
  (0 <= r /\ r < 1)%Q ->
  (inject_Z b <= toFixed2 (inject_Z b + r * 50) /\
   toFixed2 (inject_Z b + r * 50) <= inject_Z b + 50)%Q.
Proof.
  intros [H0 H1]. unfold toFixed2, Math_round.
  set (y := ((inject_Z b + r * 50) * 100 + (1 # 2))%Q).
  assert (Hlo : 100 * b <= Qfloor y).
  { apply Qfloor_lower. rewrite inject_Z_mult. unfold y.
    change (inject_Z 100) with 100%Q. lra. }
  assert (Hhi : Qfloor y < 100 * b + 5001).
  { apply Qfloor_upper. rewrite inject_Z_plus, inject_Z_mult. unfold y.
    change (inject_Z 100) with 100%Q. change (inject_Z 5001) with 5001%Q. lra. }
  assert (Hlo' : (100 * inject_Z b <= inject_Z (Qfloor y))%Q).
  { change 100%Q with (inject_Z 100). rewrite <- inject_Z_mult.
    by apply Q_of_Z_le. }
  assert (Hhi' : (inject_Z (Qfloor y) <= 100 * inject_Z b + 5000)%Q).
  { change 100%Q with (inject_Z 100). change 5000%Q with (inject_Z 5000).
    rewrite <- inject_Z_mult, <- inject_Z_plus. apply Q_of_Z_le. lia. }
  clear Hlo Hhi. generalize dependent (inject_Z (Qfloor y)). intros z Hlo' Hhi'.
  clear y. generalize dependent (inject_Z b). intros q Hlo' Hhi'.
  split.
  - apply Qle_shift_div_l; lra.
  - apply Qle_shift_div_r; lra.
Qed.

Lemma trend_price_range (r : Q) :
  (0 <= r /\ r < 1)%Q ->
  240 <= Math_round (300 * ((8 # 10) + r * (4 # 10))) <= 360.
Proof.
  intros [H0 H1]. unfold Math_round. split.
  - apply Qfloor_lower. change (inject_Z 240) with 240%Q. lra.
  - assert (Qfloor (300 * ((8 # 10) + r * (4 # 10)) + (1 # 2)) < 361); [|lia].
    apply Qfloor_upper. change (inject_Z 361) with 361%Q. lra.
Qed.

Lemma filter_none {A} (f : A -> bool) (l : list A) :
  Forall (fun a => f a = false) l -> List.filter f l = [].
Proof. induction 1 as [|a l Ha _ IH]; simpl; [done|]. by rewrite Ha. Qed.

Section Mocks.
Context (env : Env) (Hfair : fair env).

Lemma quiet_trends_made n : forall i acc,
  quiet (mockTrends_loop env n i acc)
    (fun l => exists made,
       l = acc ++ made /\ length made = n /\
       forall k p, made !! k = Some p -> trend_point env (i + Z.of_nat k) p).
Proof.
  induction n as [|n IH]; intros i acc; cbn [mockTrends_loop].
  - apply quiet_ret. exists []. rewrite app_nil_r.
    split; [done|]. split; [done|]. intros k p. by rewrite lookup_nil.
  - eapply quiet_bind; [apply quiet_Date_now|]. intros now _.
    eapply quiet_bind; [by apply quiet_Math_random|]. intros r Hr.
    eapply quiet_bind; [apply quiet_pick; [done|simpl; lia]|].
    intros picked (a & -> & Ha).
    eapply quiet_bind with (P := fun a' => a' = a); [by apply quiet_ret|].
    intros ? ->.
    eapply quiet_weaken; [apply IH|]. cbv beta.
    intros l (made & -> & Hlen & Hall).
    eexists (_ :: made). rewrite <- app_assoc. split; [reflexivity|].
    split; [simpl; lia|].
    intros [|k] p Hp; simpl in Hp.
    + injection Hp as <-. rewrite Z.add_0_r. unfold trend_point.
      cbn [pd_price pd_airline pd_date].
      split.
      { exists (Math_round (300 * ((8 # 10) + r * (4 # 10)))).
        split; [apply trend_price_range; exact Hr | reflexivity]. }
      split; [exists a; split; [exact Ha | reflexivity]|].
      exists now. reflexivity.
    + replace (i + Z.of_nat (S k)) with (i + 1 + Z.of_nat k) by lia.
      by apply Hall.
Qed.

(** X9.  The mock price trends are seven points, the one at index [k] for the
    day [k] days from now: a whole price from 240 to 360 and the name of an
    airline of the list. *)
Theorem mock_trends_shape origin destination w :
  exists trends w',
    getMockPriceTrendsForRoute env origin destination w = (Return trends, w') /\
    steady w w' /\
    length trends = 7%nat /\
    forall k p, trends !! k = Some p -> trend_point env (Z.of_nat k) p.
Proof.
  destruct (quiet_trends_made 7 0 [] w)
    as (trends & w' & E & S & made & -> & Hlen & Hall).
  exists made, w'. split; [exact E|]. split; [exact S|]. split; [exact Hlen|].
  intros k p Hp. apply (Hall k p Hp).
Qed.

(** X10.  The mock inspiration data hold one offer for each destination of the
    list whose base price is at most [maxPrice], in the order of the list:
    a departure in 7 days, a return in 14 days unless the trip is one way,
    and a price from the base price to the base price plus 50 (so up to 50
    above [maxPrice]); [meta.count] is their number, and there is none
    when [maxPrice] is below 190. *)
Theorem mock_inspiration_shape origin maxPrice oneWay w :
  exists body data w',
    getMockInspirationData env origin maxPrice oneWay w = (Return body, w') /\
    steady w w' /\
    body_data body = Some (Some <$> data) /\
    meta_count body = Z.of_nat (length data) /\
    Forall2 (destination_offer env origin oneWay)
      (List.filter (fun dest : string * string * Z => snd dest <=? maxPrice)
         mockDestinations)
      data /\
    Forall (fun e => exists p, en_priceTotal e = Some p /\
                               (p <= inject_Z maxPrice + 50)%Q) data /\
    (maxPrice < 190 -> data = []).
Proof.
  unfold getMockInspirationData.
  set (chosen := List.filter _ mockDestinations).
  set (make := fun dest : string * string * Z => bind _ _).
  assert (Hmake : quiet (mapM make chosen)
                    (Forall2 (destination_offer env origin oneWay) chosen)).
  { apply quiet_mapM_related. intros dest. unfold make.
    eapply quiet_bind; [apply quiet_Date_now|]. intros now _.
    eapply quiet_bind; [by apply quiet_Math_random|]. intros r Hr.
    apply quiet_ret. unfold destination_offer.
    cbn [en_type en_origin en_destination en_priceTotal en_departureDate
         en_returnDate].
    split; [done|]. split; [done|]. split; [done|]. split.
    - eexists. split; [done|]. by apply toFixed2_bounds.
    - exists now. split; [f_equal; lia|].
      destruct oneWay; [done|]. simpl. do 2 f_equal. lia. }
  destruct (Hmake w) as (data & w' & E & S & Hall).
  eexists _, data, w'. unfold bind at 1. rewrite E.
  split; [reflexivity|]. split; [done|]. split; [done|]. split; [done|].
  split; [done|]. split.
  - assert (Hchosen : Forall (fun dest => snd dest <= maxPrice) chosen).
    { apply Forall_forall. intros dest Hin.
      apply list_elem_of_In, filter_In in Hin. lia. }
    clear E Hmake. induction Hall as [|dest e ds es He _ IH]; [constructor|].
    apply Forall_cons_1 in Hchosen. destruct Hchosen as [Hd Hds].
    constructor; [|by apply IH].
    destruct He as (_ & _ & _ & (p & Hp & _ & Hle) & _).
    exists p. split; [done|].
    apply (Q_of_Z_le _ _) in Hd. lra.
  - intros Hlow.
    assert (chosen = []) as Hnil.
    { apply filter_none. unfold mockDestinations.
      repeat constructor; simpl; apply Z.leb_gt; lia. }
    rewrite Hnil in Hall. by inversion Hall.
Qed.

End Mocks.

Lemma mock_trends_shape_witness :
  fair (sampleEnv 0 0 (Failure None)) /\
  exists trends w',
    getMockPriceTrendsForRoute (sampleEnv 0 0 (Failure None)) "JFK" "LAX"
      (newWorld 0) = (Return trends, w') /\
    length trends = 7%nat.
Proof.
  split; [apply sampleEnv_fair|].
  destruct (mock_trends_shape (sampleEnv 0 0 (Failure None))
              (sampleEnv_fair 0 (Failure None)) "JFK" "LAX" (newWorld 0))
    as (trends & w' & E & _ & Hlen & _).
  exists trends, w'. split; [exact E | exact Hlen].
Defined.

Lemma mock_inspiration_shape_witness :
  fair (sampleEnv 0 0 (Failure None)) /\
  exists body data w',
    getMockInspirationData (sampleEnv 0 0 (Failure None)) "JFK" 200 false
      (newWorld 0) = (Return body, w') /\
    body_data body = Some (Some <$> data) /\
    meta_count body = Z.of_nat (length data).
Proof.
  split; [apply sampleEnv_fair|].
  destruct (mock_inspiration_shape (sampleEnv 0 0 (Failure None))
              (sampleEnv_fair 0 (Failure None)) "JFK" 200 false (newWorld 0))
    as (body & data & w' & E & _ & Hd & Hc & _).
  exists body, data, w'. split; [exact E|]. split; [exact Hd | exact Hc].
Defined.

End GeneratorLaws.

Module OperationLaws.
Import MonadFacts SynthesisFacts FootprintFacts OperationFacts GeneratorLaws.

Lemma tick_with_tick n w : tick (with_tick n w) = n.
Proof. by destruct w. Qed.

Lemma with_tick_twice n m w : with_tick n (with_tick m w) = with_tick n w.
Proof. by destruct w. Qed.

Lemma live_state_tick n w : live_state (with_tick n w) = live_state w.
Proof. by destruct w. Qed.

(** *** The three operations are instances of the pattern *)

Section Instances.
Context (cfg : Config) (env : Env).

Lemma getFlightInspiration_pattern o maxPrice oneWay :
  FlightAPI.getFlightInspiration cfg env o maxPrice oneWay =
  cached_operation cfg env inspirationRegion
    (FlightAPI.inspirationKey o maxPrice oneWay)
    (getMockInspirationData env o maxPrice oneWay)
    (fun token => GetFlightDestinations token o maxPrice oneWay)
    (fun body =>
       do* cacheSet env inspirationRegion
             (FlightAPI.inspirationKey o maxPrice oneWay) body 24 in
       ret body).
Proof. reflexivity. Qed.

Lemma getFlightCheapestDates_pattern o d oneWay :
  o <> d ->
  FlightAPI.getFlightCheapestDates cfg env o d oneWay =
  cached_operation cfg env trendsRegion (FlightAPI.cheapestDatesKey o d oneWay)
    (getMockPriceTrendsForRoute env o d)
    (fun token => GetFlightDates token o d oneWay)
    (fun body =>
       match body_data body with
       | Some items =>
           let* extracted := FlightAPI.extractPriceTrends items [] in
           let priceTrends :=
             sort_by (fun p => dateValue env (pd_date p)) extracted in
           do* cacheSet env trendsRegion (FlightAPI.cheapestDatesKey o d oneWay)
                 priceTrends 168 in
           ret priceTrends
       | None => getMockPriceTrendsForRoute env o d
       end).
Proof.
  intros Hne. unfold FlightAPI.getFlightCheapestDates.
  by destruct (decide (o = d)).
Qed.

Lemma getAirportSuggestions_pattern query :
  (2 <= length16 query)%nat ->
  FlightAPI.getAirportSuggestions cfg env query =
  cached_operation cfg env airportsRegion (FlightAPI.airportsKey env query)
    (ret (getMockAirportSuggestions env query))
    (fun token => GetLocations token query)
    (fun body =>
       match body_data body with
       | Some items =>
           let* suggestions := FlightAPI.toSuggestions items in
           do* cacheSet env airportsRegion (FlightAPI.airportsKey env query)
                 suggestions 168 in
           ret suggestions
       | None => ret []
       end).
Proof.
  intros Hlen. unfold FlightAPI.getAirportSuggestions.
  by destruct (Nat.ltb_spec (length16 query) 2); [lia|].
Qed.

Lemma getAirportSuggestions_short query w :
  (length16 query < 2)%nat ->
  FlightAPI.getAirportSuggestions cfg env query w = (Return [], w).
Proof.
  intros Hlen. unfold FlightAPI.getAirportSuggestions.
  by destruct (Nat.ltb_spec (length16 query) 2); [|lia].
Qed.

End Instances.

(** *** The runs of the pattern *)

Section Pattern.
Context (cfg : Config) (env : Env) {T : Type} (rg : Region T).
Hypothesis entries_tick : forall w n, entries rg (with_tick n w) = entries rg w.
Hypothesis entries_put : forall w ls, entries rg (with_entries rg ls w) = ls.
Hypothesis put_same : forall w, with_entries rg (entries rg w) w = w.
Hypothesis live_put : forall w ls, live_state (with_entries rg ls w) = live_state w.
Context (cacheKey : string) (mock : M T) (request : string -> Request)
  (post : Body -> M T).

Lemma cacheGet_hit w d :
  fresh_entry (entries rg w) cacheKey (timeAt env (tick w)) d ->
  cacheGet env rg cacheKey w = (Return (Some d), with_tick (S (tick w)) w).
Proof.
  intros (c & Hc & <- & Hfresh). unfold cacheGet. rewrite Hc.
  unfold bind. cbn [Date_now]. unfold APICacheManager.get.
  set (w1 := with_tick (S (tick w)) w).
  assert (E : entries rg w1 !! (APICacheManager.CACHE_PREFIX +:+ cacheKey)
              = Some (Parsed c)) by (unfold w1; by rewrite entries_tick).
  rewrite E.
  destruct (Z.ltb_spec (APICacheManager.expiry c)
              (timeAt env (tick w) - APICacheManager.timestamp c)); [lia|].
  by rewrite put_same.
Qed.

(** A look into the cache always returns, and changes nothing of the
    requests, the rate limiter and the token. *)
Lemma cacheGet_returns w :
  exists v w0,
    cacheGet env rg cacheKey w = (Return v, w0) /\ live_state w0 = live_state w.
Proof.
  unfold cacheGet.
  destruct (entries rg w !! _) as [[c|]|]; [|by eexists _, _..].
  unfold bind. cbn [Date_now].
  destruct (APICacheManager.get _ _ _) as [v ls].
  eexists _, _. split; [reflexivity|]. by rewrite live_put, live_state_tick.
Qed.

Lemma cacheSet_run key d hours w :
  cacheSet env rg key d hours w =
  (Return tt,
   with_entries rg
     (APICacheManager.set key d hours (timeAt env (tick w))
        (writableAt env (S (tick w))) (entries rg w))
     (with_tick (S (S (tick w))) w)).
Proof.
  unfold cacheSet, bind, modify. cbn [Date_now setItem_succeeds].
  by rewrite !tick_with_tick, with_tick_twice, !entries_tick.
Qed.

Lemma pattern_hit w d :
  fresh_entry (entries rg w) cacheKey (timeAt env (tick w)) d ->
  cached_operation cfg env rg cacheKey mock request post w
  = (Return d, with_tick (S (tick w)) w).
Proof.
  intros Hd. unfold cached_operation, bind. by rewrite (cacheGet_hit w d).
Qed.

Lemma pattern_mock w w0 :
  cacheGet env rg cacheKey w = (Return None, w0) ->
  MOCK_MODE cfg = true ->
  cached_operation cfg env rg cacheKey mock request post w = mock w0.
Proof.
  intros Hmiss Hmock. unfold cached_operation. unfold bind at 1.
  by rewrite Hmiss, Hmock.
Qed.

Lemma pattern_denied w w0 :
  cacheGet env rg cacheKey w = (Return None, w0) ->
  MOCK_MODE cfg = false ->
  ~ admits env w0 ->
  cached_operation cfg env rg cacheKey mock request post w
  = mock (snd (canMakeCall env w0)).
Proof.
  intros Hmiss Hlive Hden. unfold cached_operation. unfold bind at 1.
  rewrite Hmiss, Hlive. unfold bind at 1. rewrite canMakeCall_run.
  unfold admits in Hden. apply not_true_is_false in Hden. by rewrite Hden.
Qed.

Lemma pattern_live w w0 :
  cacheGet env rg cacheKey w = (Return None, w0) ->
  MOCK_MODE cfg = false ->
  admits env w0 ->
  cached_operation cfg env rg cacheKey mock request post w
  = try_catch
      (let* body := FlightAPI.liveCall cfg env request in post body)
      (fun error => if isAxiosError error then mock else throw error)
      (snd (canMakeCall env w0)).
Proof.
  intros Hmiss Hlive Hadm. unfold cached_operation. unfold bind at 1.
  rewrite Hmiss, Hlive. unfold bind at 1. rewrite canMakeCall_run.
  unfold admits in Hadm. by rewrite Hadm.
Qed.

Lemma pattern_replied w w0 body w2 :
  cacheGet env rg cacheKey w = (Return None, w0) ->
  MOCK_MODE cfg = false ->
  admits env w0 ->
  FlightAPI.liveCall cfg env request (snd (canMakeCall env w0))
    = (Return body, w2) ->
  (forall e w3, post body w2 <> (Throw e, w3)) ->
  cached_operation cfg env rg cacheKey mock request post w = post body w2.
Proof.
  intros Hmiss Hlive Hadm Hcall Hpost.
  rewrite (pattern_live w w0) by done.
  unfold try_catch, bind. rewrite Hcall.
  destruct (post body w2) as [[a|e] w3] eqn:E; [done|]. by destruct (Hpost e w3).
Qed.

Lemma pattern_failed w w0 e w2 :
  cacheGet env rg cacheKey w = (Return None, w0) ->
  MOCK_MODE cfg = false ->
  admits env w0 ->
  FlightAPI.liveCall cfg env request (snd (canMakeCall env w0))
    = (Throw e, w2) ->
  cached_operation cfg env rg cacheKey mock request post w
  = (if isAxiosError e then mock else throw e) w2.
Proof.
  intros Hmiss Hlive Hadm Hcall.
  rewrite (pattern_live w w0) by done.
  unfold try_catch, bind. by rewrite Hcall.
Qed.

(** What a write that went through leaves under the key: an entry that is
    fresh for [hours] hours. *)
Lemma stored_entry_is_fresh key (d : T) hours w w'' now' :
  writableAt env (S (tick w)) = true ->
  entries rg w'' !! (APICacheManager.CACHE_PREFIX +:+ key)
    = entries rg (snd (cacheSet env rg key d hours w))
        !! (APICacheManager.CACHE_PREFIX +:+ key) ->
  now' - timeAt env (tick w) <= hours * 3600000 ->
  fresh_entry (entries rg w'') key now' d.
Proof.
  intros Hok Hsame Hnow. rewrite cacheSet_run in Hsame. cbn [snd] in Hsame.
  rewrite entries_put, Hok in Hsame. unfold APICacheManager.set in Hsame.
  rewrite lookup_insert_eq in Hsame.
  eexists. split; [exact Hsame|]. split; [done|].
  cbn [APICacheManager.timestamp APICacheManager.expiry]. lia.
Qed.

Lemma refused_write_keeps_entries key (d : T) hours w :
  writableAt env (S (tick w)) = false ->
  entries rg (snd (cacheSet env rg key d hours w)) = entries rg w.
Proof.
  intros Hno. rewrite cacheSet_run. cbn [snd].
  by rewrite entries_put, Hno.
Qed.

Lemma cacheSet_live_state key (d : T) hours w :
  live_state (snd (cacheSet env rg key d hours w)) = live_state w.
Proof. rewrite cacheSet_run. cbn [snd]. by rewrite live_put, live_state_tick. Qed.

(** An error of what is done with the reply, when it is no axios error, is
    thrown on. *)
Lemma pattern_post_throws w w0 body w2 e w3 :
  cacheGet env rg cacheKey w = (Return None, w0) ->
  MOCK_MODE cfg = false ->
  admits env w0 ->
  FlightAPI.liveCall cfg env request (snd (canMakeCall env w0))
    = (Return body, w2) ->
  post body w2 = (Throw e, w3) ->
  isAxiosError e = false ->
  cached_operation cfg env rg cacheKey mock request post w = (Throw e, w3).
Proof.
  intros Hmiss Hlive Hadm Hcall Hpost Hax.
  rewrite (pattern_live w w0) by done.
  unfold try_catch, bind. rewrite Hcall, Hpost. by rewrite Hax.
Qed.

(** The pattern throws in two ways only, both in live mode, after a miss
    and a check that admits the call: when the live call ends in an error
    that is not an axios error, and when what is done with the reply
    does. *)
Lemma pattern_throws w e w' :
  (forall w1, exists a w2, mock w1 = (Return a, w2)) ->
  cached_operation cfg env rg cacheKey mock request post w = (Throw e, w') ->
  MOCK_MODE cfg = false /\
  exists w0,
    cacheGet env rg cacheKey w = (Return None, w0) /\
    admits env w0 /\
    isAxiosError e = false /\
    (FlightAPI.liveCall cfg env request (snd (canMakeCall env w0)) = (Throw e, w') \/
     exists body w2,
       FlightAPI.liveCall cfg env request (snd (canMakeCall env w0))
         = (Return body, w2) /\
       post body w2 = (Throw e, w')).
Proof.
  intros Hmock Hrun. unfold cached_operation in Hrun.
  unfold bind at 1 in Hrun.
  destruct (cacheGet_returns w) as (v & w0 & Hget & _). rewrite Hget in Hrun.
  destruct v as [d|]; [done|].
  destruct (MOCK_MODE cfg).
  { destruct (Hmock w0) as (a & w2 & E). by rewrite E in Hrun. }
  split; [done|]. exists w0. split; [done|].
  unfold bind at 1 in Hrun. rewrite canMakeCall_run in Hrun.
  unfold admits. rewrite canMakeCall_run. cbn [snd].
  destruct (APIRateLimiter.allowed _); cbn [negb] in Hrun.
  2:{ destruct (Hmock (with_limiter
                         (APIRateLimiter.rollover (timeAt env (tick w0)) (limiter w0))
                         (with_tick (S (tick w0)) w0))) as (a & w2 & E).
      by rewrite E in Hrun. }
  split; [done|]. unfold try_catch, bind in Hrun.
  destruct (FlightAPI.liveCall cfg env request _) as [[body|e0] w1].
  { destruct (post body w1) as [[a|e0] w2] eqn:Epost; [done|].
    destruct (isAxiosError e0) eqn:Hax.
    { destruct (Hmock w2) as (a & w3 & E). by rewrite E in Hrun. }
    injection Hrun as -> ->. split; [done|]. right. by exists body, w1. }
  destruct (isAxiosError e0) eqn:Hax.
  { destruct (Hmock w1) as (a & w2 & E). by rewrite E in Hrun. }
  injection Hrun as -> ->. split; [done|]. by left.
Qed.

End Pattern.

(** The laws of the three regions. *)
Ltac region := first [by intros [] | by intros [] ? | by intros [] ? ? ].

(** *** A fresh entry of the cache is the answer *)

(** X11.  An entry of the cache that has not expired is what the operation
    returns, in mock mode as in live mode; nothing is sent, nothing is
    counted, and nothing but the tick of the clock read has changed.  For
    the airports the query has two UTF-16 code units or more, which is
    what [query.length] counts, and the entry is the one under the query
    in lower case. *)
Theorem cached_answers_come_first cfg env w :
  (forall o maxPrice oneWay body,
     fresh_entry (inspirationCache w) (FlightAPI.inspirationKey o maxPrice oneWay)
       (timeAt env (tick w)) body ->
     FlightAPI.getFlightInspiration cfg env o maxPrice oneWay w
     = (Return body, with_tick (S (tick w)) w)) /\
  (forall o d oneWay trends,
     o <> d ->
     fresh_entry (trendsCache w) (FlightAPI.cheapestDatesKey o d oneWay)
       (timeAt env (tick w)) trends ->
     FlightAPI.getFlightCheapestDates cfg env o d oneWay w
     = (Return trends, with_tick (S (tick w)) w)) /\
  (forall query l,
     (2 <= length16 query)%nat ->
     fresh_entry (airportsCache w) ("airports_" +:+ toLowerCase env query)
       (timeAt env (tick w)) l ->
     FlightAPI.getAirportSuggestions cfg env query w
     = (Return l, with_tick (S (tick w)) w)).
Proof.
  split; [|split].
  - intros o maxPrice oneWay body Hfresh.
    rewrite getFlightInspiration_pattern.
    apply (pattern_hit cfg env inspirationRegion); solve [region | done].
  - intros o d oneWay trends Hne Hfresh.
    rewrite getFlightCheapestDates_pattern by done.
    apply (pattern_hit cfg env trendsRegion); solve [region | done].
  - intros query l Hlen Hfresh.
    rewrite getAirportSuggestions_pattern by done.
    apply (pattern_hit cfg env airportsRegion); solve [region | done].
Qed.

(** An entry for the query "jfk", a week old less a second, answers the
    query "JFK" in live mode. *)
Lemma cached_answers_come_first_witness :
  FlightAPI.getAirportSuggestions liveConfig
    (sampleEnv 604799000 0 (Failure None)) "JFK"
    (with_airportsCache
       {[ "flight_cache_airports_jfk" :=
            Parsed (APICacheManager.mkCache
                      [mkAirport "JFK" "John F Kennedy Intl" "New York"]
                      0 604800000) ]}
       (newWorld 0))
  = (Return [mkAirport "JFK" "John F Kennedy Intl" "New York"],
     with_tick 1
       (with_airportsCache
          {[ "flight_cache_airports_jfk" :=
               Parsed (APICacheManager.mkCache
                         [mkAirport "JFK" "John F Kennedy Intl" "New York"]
                         0 604800000) ]}
          (newWorld 0))).
Proof.
  apply (cached_answers_come_first liveConfig
           (sampleEnv 604799000 0 (Failure None))); [simpl; lia|].
  exists (APICacheManager.mkCache
            [mkAirport "JFK" "John F Kennedy Intl" "New York"] 0 604800000).
  split; [|split; [reflexivity|]].
  - apply lookup_singleton_Some. split; reflexivity.
  - simpl. lia.
Defined.

Lemma omap_shorter {A B} (f : A -> option B) (l : list A) :
  (length (omap f l) <= length l)%nat.
Proof.
  induction l as [|a l IH]; [done|]. cbn [omap list_omap length].
  change (list_omap A B f l) with (omap f l).
  destruct (f a); cbn [length]; lia.
Qed.

(** *** A reply is stored and served again *)

Section Replies.
Context (cfg : Config) (env : Env).

(** X12.  In live mode, after a miss in the cache and a check that admits the
    call, the body of the reply to [getFlightInspiration] is returned as it
    is and written to the cache.  When the write goes through, the same
    call made within the next 24 hours, in whatever mode, returns that body
    from the cache and changes nothing but the tick; when the write is
    refused, the cache stays as it was. *)
Theorem inspiration_reply_is_cached o maxPrice oneWay w w0 body w2 :
  MOCK_MODE cfg = false ->
  cacheGet env inspirationRegion (FlightAPI.inspirationKey o maxPrice oneWay) w
    = (Return None, w0) ->
  admits env w0 ->
  FlightAPI.liveCall cfg env
    (fun token => GetFlightDestinations token o maxPrice oneWay)
    (snd (canMakeCall env w0)) = (Return body, w2) ->
  exists w',
    FlightAPI.getFlightInspiration cfg env o maxPrice oneWay w = (Return body, w') /\
    live_state w' = live_state w2 /\
    (writableAt env (S (tick w2)) = true ->
     forall cfg' env' w'',
       inspirationCache w''
         !! (APICacheManager.CACHE_PREFIX +:+ FlightAPI.inspirationKey o maxPrice oneWay)
       = inspirationCache w'
         !! (APICacheManager.CACHE_PREFIX +:+ FlightAPI.inspirationKey o maxPrice oneWay) ->
       timeAt env' (tick w'') - timeAt env (tick w2) <= 24 * 3600000 ->
       FlightAPI.getFlightInspiration cfg' env' o maxPrice oneWay w''
       = (Return body, with_tick (S (tick w'')) w'')) /\
    (writableAt env (S (tick w2)) = false ->
     inspirationCache w' = inspirationCache w2).
Proof.
  intros Hlive Hmiss Hadm Hcall.
  set (key := FlightAPI.inspirationKey o maxPrice oneWay) in *.
  exists (snd (cacheSet env inspirationRegion key body 24 w2)).
  split; [|split; [|split]].
  - rewrite getFlightInspiration_pattern. fold key.
    rewrite (pattern_replied cfg env inspirationRegion _ _ _ _ w w0 body w2
               Hmiss Hlive Hadm Hcall).
    + unfold bind. by rewrite (cacheSet_run env inspirationRegion) by region.
    + intros e w3. unfold bind.
      by rewrite (cacheSet_run env inspirationRegion) by region.
  - apply (cacheSet_live_state env inspirationRegion); region.
  - intros Hok cfg' env' w'' Hsame Hnow.
    rewrite getFlightInspiration_pattern. fold key.
    apply (pattern_hit cfg' env' inspirationRegion); try region.
    eapply (stored_entry_is_fresh env inspirationRegion); try region; eassumption.
  - intros Hno.
    apply (refused_write_keeps_entries env inspirationRegion); solve [region|done].
Qed.

(** X13.  In live mode, after a miss in the cache and a check that admits
    the call, [getFlightCheapestDates] between two different airports does
    as follows with the reply.  When it carries an array without [null],
    one price point is made of each element that has a price, with the
    date and the price of the element and "Various" for the airline; the
    points are sorted by date, returned, and cached for 168 hours.  When
    the array holds a [null], the [TypeError] of reading it is thrown to
    the caller.  When the reply carries no array the mock price trends are
    returned and nothing is cached. *)
Theorem price_trends_reply_is_cached o d oneWay w w0 body w2 :
  o <> d ->
  MOCK_MODE cfg = false ->
  cacheGet env trendsRegion (FlightAPI.cheapestDatesKey o d oneWay) w
    = (Return None, w0) ->
  admits env w0 ->
  FlightAPI.liveCall cfg env (fun token => GetFlightDates token o d oneWay)
    (snd (canMakeCall env w0)) = (Return body, w2) ->
  match body_data body with
  | Some items =>
      (None ∈ items ->
       FlightAPI.getFlightCheapestDates cfg env o d oneWay w
       = (Throw TypeError, w2)) /\
      (forall entries,
         items = Some <$> entries ->
         exists priceTrends w',
           FlightAPI.getFlightCheapestDates cfg env o d oneWay w
             = (Return priceTrends, w') /\
           live_state w' = live_state w2 /\
           priceTrends ≡ₚ
             omap (fun item =>
                     match en_priceTotal item with
                     | Some total =>
                         Some {| pd_date := en_departureDate item;
                                 pd_price := total;
                                 pd_airline := "Various" |}
                     | None => None
                     end) entries /\
           ascending_by_date env priceTrends /\
           (writableAt env (S (tick w2)) = true ->
            forall cfg' env' w'',
              trendsCache w''
                !! (APICacheManager.CACHE_PREFIX
                      +:+ FlightAPI.cheapestDatesKey o d oneWay)
              = trendsCache w'
                !! (APICacheManager.CACHE_PREFIX
                      +:+ FlightAPI.cheapestDatesKey o d oneWay) ->
              timeAt env' (tick w'') - timeAt env (tick w2) <= 168 * 3600000 ->
              FlightAPI.getFlightCheapestDates cfg' env' o d oneWay w''
              = (Return priceTrends, with_tick (S (tick w'')) w'')))
  | None =>
      fair env ->
      FlightAPI.getFlightCheapestDates cfg env o d oneWay w
      = getMockPriceTrendsForRoute env o d w2
  end.
Proof.
  intros Hne Hlive Hmiss Hadm Hcall.
  set (key := FlightAPI.cheapestDatesKey o d oneWay) in *.
  destruct (body_data body) as [items|] eqn:Hitems.
  - split.
    { intros Hnull. rewrite getFlightCheapestDates_pattern by done. fold key.
      eapply (pattern_post_throws cfg env trendsRegion); try eassumption; [|done].
      rewrite Hitems. unfold bind.
      by rewrite (extractPriceTrends_null _ _ _ Hnull). }
    intros entries ->.
    set (priceTrends := sort_by (fun p => dateValue env (pd_date p))
                          (omap pricePoint entries)).
    exists priceTrends, (snd (cacheSet env trendsRegion key priceTrends 168 w2)).
    assert (Hpost : (let* extracted :=
                       FlightAPI.extractPriceTrends (Some <$> entries) [] in
                     let sorted :=
                       sort_by (fun p => dateValue env (pd_date p)) extracted in
                     do* cacheSet env trendsRegion key sorted 168 in
                     ret sorted) w2
                    = (Return priceTrends,
                       snd (cacheSet env trendsRegion key priceTrends 168 w2))).
    { unfold bind at 1. rewrite extractPriceTrends_objects. cbn [app].
      fold priceTrends. unfold bind.
      by rewrite (cacheSet_run env trendsRegion) by region. }
    split; [|split; [|split; [|split]]].
    + rewrite getFlightCheapestDates_pattern by done. fold key.
      rewrite (pattern_replied cfg env trendsRegion _ _ _ _ w w0 body w2
                 Hmiss Hlive Hadm Hcall);
        rewrite Hitems; [exact Hpost|].
      intros e w3 Hthrow. cbv zeta in Hpost, Hthrow.
      rewrite Hpost in Hthrow. discriminate.
    + apply (cacheSet_live_state env trendsRegion); region.
    + apply sort_by_Permutation.
    + apply sort_by_sorted.
    + intros Hok cfg' env' w'' Hsame Hnow.
      rewrite getFlightCheapestDates_pattern by done. fold key.
      apply (pattern_hit cfg' env' trendsRegion); try region.
      eapply (stored_entry_is_fresh env trendsRegion); try region; eassumption.
  - rewrite getFlightCheapestDates_pattern by done. fold key.
    rewrite (pattern_live cfg env trendsRegion _ _ _ _ w w0 Hmiss Hlive Hadm).
    unfold try_catch, bind. rewrite Hcall, Hitems.
    intros Hfair.
    destruct (quiet_getMockPriceTrendsForRoute env Hfair o d w2)
      as (trends & w3 & E & _).
    by rewrite E.
Qed.

(** X14.  In live mode, after a miss in the cache and a check that admits
    the call, [getAirportSuggestions] with a query of two UTF-16 code units
    or more does as follows with the reply.  When it carries an array
    without [null], the suggestions made of it (one for each element that
    has a code and a name, with "Unknown" for a city that is missing, the
    first of each code, eight at most) are returned and cached for 168
    hours under the query in lower case, so that a later query with the
    same lower case is answered from the cache.  When the array holds a
    [null], the [TypeError] of reading it is thrown to the caller.  When
    the reply carries no array the answer is the empty list, and nothing is
    cached. *)
Theorem airport_reply_is_cached query w w0 body w2 :
  (2 <= length16 query)%nat ->
  MOCK_MODE cfg = false ->
  cacheGet env airportsRegion ("airports_" +:+ toLowerCase env query) w
    = (Return None, w0) ->
  admits env w0 ->
  FlightAPI.liveCall cfg env (fun token => GetLocations token query)
    (snd (canMakeCall env w0)) = (Return body, w2) ->
  match body_data body with
  | Some items =>
      (None ∈ items ->
       FlightAPI.getAirportSuggestions cfg env query w = (Throw TypeError, w2)) /\
      (forall entries,
         items = Some <$> entries ->
         exists suggestions w',
           suggestions
           = take 8
               (FlightAPI.uniqueByCode
                  (map (fun location =>
                          {| code := en_iataCode location;
                             name := en_name location;
                             city := if decide (en_cityName location = "")
                                     then "Unknown"
                                     else en_cityName location |})
                     (List.filter
                        (fun location =>
                           negb (String.eqb (en_iataCode location) "")
                           && negb (String.eqb (en_name location) ""))
                        entries))) /\
           FlightAPI.getAirportSuggestions cfg env query w
             = (Return suggestions, w') /\
           live_state w' = live_state w2 /\
           (writableAt env (S (tick w2)) = true ->
            forall cfg' env' query' w'',
              (2 <= length16 query')%nat ->
              toLowerCase env' query' = toLowerCase env query ->
              airportsCache w''
                !! (APICacheManager.CACHE_PREFIX
                      +:+ "airports_" +:+ toLowerCase env query)
              = airportsCache w'
                !! (APICacheManager.CACHE_PREFIX
                      +:+ "airports_" +:+ toLowerCase env query) ->
              timeAt env' (tick w'') - timeAt env (tick w2) <= 168 * 3600000 ->
              FlightAPI.getAirportSuggestions cfg' env' query' w''
              = (Return suggestions, with_tick (S (tick w'')) w'')))
  | None =>
      FlightAPI.getAirportSuggestions cfg env query w = (Return [], w2)
  end.
Proof.
  intros Hlen Hlive Hmiss Hadm Hcall.
  change ("airports_" +:+ toLowerCase env query)
    with (FlightAPI.airportsKey env query) in *.
  set (key := FlightAPI.airportsKey env query) in *.
  destruct (body_data body) as [items|] eqn:Hitems.
  - split.
    { intros Hnull. rewrite getAirportSuggestions_pattern by done. fold key.
      eapply (pattern_post_throws cfg env airportsRegion); try eassumption;
        [|done].
      rewrite Hitems. unfold bind. by rewrite (toSuggestions_null _ _ Hnull). }
    intros entries ->.
    exists (suggestionsMade entries),
      (snd (cacheSet env airportsRegion key (suggestionsMade entries) 168 w2)).
    assert (Hpost : (let* suggestions :=
                       FlightAPI.toSuggestions (Some <$> entries) in
                     do* cacheSet env airportsRegion key suggestions 168 in
                     ret suggestions) w2
                    = (Return (suggestionsMade entries),
                       snd (cacheSet env airportsRegion key
                              (suggestionsMade entries) 168 w2))).
    { unfold bind at 1. rewrite toSuggestions_objects. unfold bind.
      by rewrite (cacheSet_run env airportsRegion) by region. }
    split; [reflexivity|]. split; [|split].
    + rewrite getAirportSuggestions_pattern by done. fold key.
      rewrite (pattern_replied cfg env airportsRegion _ _ _ _ w w0 body w2
                 Hmiss Hlive Hadm Hcall);
        rewrite Hitems; [exact Hpost|].
      intros e w3 Hthrow. rewrite Hpost in Hthrow. discriminate.
    + apply (cacheSet_live_state env airportsRegion); region.
    + intros Hok cfg' env' query' w'' Hlen' Hcase Hsame Hnow.
      rewrite getAirportSuggestions_pattern by done.
      assert (Hkey : FlightAPI.airportsKey env' query' = key)
        by (unfold key, FlightAPI.airportsKey; by rewrite Hcase).
      rewrite Hkey.
      apply (pattern_hit cfg' env' airportsRegion); try region.
      eapply (stored_entry_is_fresh env airportsRegion); try region; eassumption.
  - rewrite getAirportSuggestions_pattern by done. fold key.
    rewrite (pattern_replied cfg env airportsRegion _ _ _ _ w w0 body w2
               Hmiss Hlive Hadm Hcall);
      by rewrite Hitems.
Qed.

End Replies.

(** *** The fallbacks and the error that is thrown *)

Lemma getAmadeusToken_throws cfg env w e w' :
  getAmadeusToken cfg env w = (Throw e, w') ->
  e = Error "Failed to authenticate with Amadeus API".
Proof.
  rewrite TokenFacts.getAmadeusToken_described. unfold getToken_described.
  assert (G : forall w1, exchange_described cfg env w1 = (Throw e, w') ->
                         e = Error "Failed to authenticate with Amadeus API").
  { intros w1. unfold exchange_described.
    destruct (replyAt env (tick w1)) as [body|st];
      [destruct (decide (access_token body = ""))|]; by intros [= <- _]. }
  destruct (tokenInfo w) as [ti|]; [|apply G].
  destruct (decide _); [done|apply G].
Qed.

Lemma liveCall_run cfg env request w :
  FlightAPI.liveCall cfg env request w
  = (let* token := getAmadeusToken cfg env in axios env (request token))
      (snd (recordCall env w)).
Proof. unfold FlightAPI.liveCall. unfold bind at 1. by rewrite recordCall_run. Qed.

Lemma liveCall_throws cfg env request w e w' :
  FlightAPI.liveCall cfg env request w = (Throw e, w') ->
  isAxiosError e = false ->
  e = Error "Failed to authenticate with Amadeus API" /\
  getAmadeusToken cfg env (snd (recordCall env w)) = (Throw e, w').
Proof.
  rewrite liveCall_run. unfold bind.
  destruct (getAmadeusToken cfg env _) as [[token|e0] w1] eqn:Etok.
  - unfold axios. destruct (replyAt env (tick w1)); [done|].
    intros [= <- _]. done.
  - intros [= -> ->] _. split; [|done]. by eapply getAmadeusToken_throws.
Qed.

Section Errors.
Context (cfg : Config) (env : Env).

(** X15.  In live mode, after a miss in the cache: on a denial by the rate
    limiter, and when the live call fails with an axios error, the
    operation is a run of its mock generator (for the airports, with a
    query of two UTF-16 code units or more, the mock suggestions), from
    the world the denial or the failure left. *)
Theorem denial_and_failure_fall_back w w0 :
  MOCK_MODE cfg = false ->
  (forall o maxPrice oneWay,
     cacheGet env inspirationRegion (FlightAPI.inspirationKey o maxPrice oneWay) w
       = (Return None, w0) ->
     (~ admits env w0 ->
      FlightAPI.getFlightInspiration cfg env o maxPrice oneWay w
      = getMockInspirationData env o maxPrice oneWay (snd (canMakeCall env w0))) /\
     (admits env w0 ->
      forall status w2,
        FlightAPI.liveCall cfg env
          (fun token => GetFlightDestinations token o maxPrice oneWay)
          (snd (canMakeCall env w0)) = (Throw (AxiosError status), w2) ->
        FlightAPI.getFlightInspiration cfg env o maxPrice oneWay w
        = getMockInspirationData env o maxPrice oneWay w2)) /\
  (forall o d oneWay,
     o <> d ->
     cacheGet env trendsRegion (FlightAPI.cheapestDatesKey o d oneWay) w
       = (Return None, w0) ->
     (~ admits env w0 ->
      FlightAPI.getFlightCheapestDates cfg env o d oneWay w
      = getMockPriceTrendsForRoute env o d (snd (canMakeCall env w0))) /\
     (admits env w0 ->
      forall status w2,
        FlightAPI.liveCall cfg env (fun token => GetFlightDates token o d oneWay)
          (snd (canMakeCall env w0)) = (Throw (AxiosError status), w2) ->
        FlightAPI.getFlightCheapestDates cfg env o d oneWay w
        = getMockPriceTrendsForRoute env o d w2)) /\
  (forall query,
     (2 <= length16 query)%nat ->
     cacheGet env airportsRegion (FlightAPI.airportsKey env query) w
       = (Return None, w0) ->
     (~ admits env w0 ->
      FlightAPI.getAirportSuggestions cfg env query w
      = (Return (getMockAirportSuggestions env query),
         snd (canMakeCall env w0))) /\
     (admits env w0 ->
      forall status w2,
        FlightAPI.liveCall cfg env (fun token => GetLocations token query)
          (snd (canMakeCall env w0)) = (Throw (AxiosError status), w2) ->
        FlightAPI.getAirportSuggestions cfg env query w
        = (Return (getMockAirportSuggestions env query), w2))).
Proof.
  intros Hlive. split; [|split].
  - intros o maxPrice oneWay Hmiss. rewrite getFlightInspiration_pattern. split.
    + intros Hden. by apply pattern_denied.
    + intros Hadm status w2 Hcall.
      by rewrite (pattern_failed cfg env inspirationRegion _ _ _ _ w w0 _ w2
                    Hmiss Hlive Hadm Hcall).
  - intros o d oneWay Hne Hmiss.
    rewrite getFlightCheapestDates_pattern by done. split.
    + intros Hden. by apply pattern_denied.
    + intros Hadm status w2 Hcall.
      by rewrite (pattern_failed cfg env trendsRegion _ _ _ _ w w0 _ w2
                    Hmiss Hlive Hadm Hcall).
  - intros query Hlen Hmiss.
    rewrite getAirportSuggestions_pattern by done. split.
    + intros Hden. by rewrite (pattern_denied cfg env airportsRegion _ _ _ _ w w0).
    + intros Hadm status w2 Hcall.
      by rewrite (pattern_failed cfg env airportsRegion _ _ _ _ w w0 _ w2
                    Hmiss Hlive Hadm Hcall).
Qed.

(** X16.  When the token cannot be had on the live path (in live mode, after a
    miss in the cache and a check that admits the call), the operation
    throws the error of [getAmadeusToken] to its caller: the mock data are
    not used, and the call stays counted.  [getAirportSuggestions] comes
    to that path with a query of two UTF-16 code units or more; with a
    shorter one it returns the empty list and nothing is counted. *)
Theorem failed_token_exchange_is_thrown w w0 e w2 :
  MOCK_MODE cfg = false ->
  admits env w0 ->
  getAmadeusToken cfg env (snd (recordCall env (snd (canMakeCall env w0))))
    = (Throw e, w2) ->
  e = Error "Failed to authenticate with Amadeus API" /\
  (forall o maxPrice oneWay,
     cacheGet env inspirationRegion (FlightAPI.inspirationKey o maxPrice oneWay) w
       = (Return None, w0) ->
     FlightAPI.getFlightInspiration cfg env o maxPrice oneWay w = (Throw e, w2)) /\
  (forall o d oneWay,
     o <> d ->
     cacheGet env trendsRegion (FlightAPI.cheapestDatesKey o d oneWay) w
       = (Return None, w0) ->
     FlightAPI.getFlightCheapestDates cfg env o d oneWay w = (Throw e, w2)) /\
  (forall query,
     (2 <= length16 query)%nat ->
     cacheGet env airportsRegion (FlightAPI.airportsKey env query) w
       = (Return None, w0) ->
     FlightAPI.getAirportSuggestions cfg env query w = (Throw e, w2)) /\
  (forall query,
     (length16 query < 2)%nat ->
     FlightAPI.getAirportSuggestions cfg env query w = (Return [], w)) /\
  one_unit_consumed env w0 w2.
Proof.
  intros Hlive Hadm Htoken.
  pose proof (getAmadeusToken_throws _ _ _ _ _ Htoken) as He.
  assert (Hcall : forall request,
            FlightAPI.liveCall cfg env request (snd (canMakeCall env w0))
            = (Throw e, w2)).
  { intros request. rewrite liveCall_run. unfold bind. by rewrite Htoken. }
  assert (Hax : isAxiosError e = false) by (by rewrite He).
  split; [done|]. split; [|split; [|split; [|split]]].
  - intros o maxPrice oneWay Hmiss. rewrite getFlightInspiration_pattern.
    rewrite (pattern_failed cfg env inspirationRegion _ _ _ _ w w0 _ w2
               Hmiss Hlive Hadm (Hcall _)). by rewrite Hax.
  - intros o d oneWay Hne Hmiss. rewrite getFlightCheapestDates_pattern by done.
    rewrite (pattern_failed cfg env trendsRegion _ _ _ _ w w0 _ w2
               Hmiss Hlive Hadm (Hcall _)). by rewrite Hax.
  - intros query Hlen Hmiss. rewrite getAirportSuggestions_pattern by done.
    rewrite (pattern_failed cfg env airportsRegion _ _ _ _ w w0 _ w2
               Hmiss Hlive Hadm (Hcall _)). by rewrite Hax.
  - intros query Hlen. by apply getAirportSuggestions_short.
  - pose proof (admitted_run cfg env (ret tt)
                  (fun token => GetLocations token "") (fun _ => ret tt)
                  (fun _ => ret tt) w0 Hadm) as Hunit.
    assert (E : snd ((let* check := canMakeCall env in
                      if negb (APIRateLimiter.allowed check) then ret tt
                      else try_catch
                             (let* body := FlightAPI.liveCall cfg env
                                             (fun token => GetLocations token "") in
                              ret tt) (fun _ => ret tt)) w0) = w2).
    { unfold bind at 1. rewrite canMakeCall_run.
      unfold admits in Hadm. rewrite Hadm. cbn [negb].
      unfold try_catch, bind.
      pose proof (Hcall (fun token => GetLocations token "")) as Hc.
      rewrite canMakeCall_run in Hc. cbn [snd] in Hc. by rewrite Hc. }
    rewrite <- E. apply Hunit; intros; apply preserves_ret; apply _.
Qed.

End Errors.

Section OnlyError.
Context (cfg : Config) (env : Env) (Hfair : fair env).

Lemma quiet_returns {A} (m : M A) P :
  quiet m P -> forall w, exists a w', m w = (Return a, w').
Proof. intros Hq w. destruct (Hq w) as (a & w' & E & _). eauto. Qed.

(** With a valid departure date [searchFlights] always returns a list of
    flights. *)
Lemma searchFlights_returns params ms w :
  sp_departureDate params = ValidDate ms ->
  exists flights w',
    FlightAPI.searchFlights cfg env params w = (Return flights, w') /\
    ascending_by_price flights /\ (12 <= length flights <= 17)%nat /\
    exists base, Forall (flight_shape base) flights.
Proof.
  intros Hdate.
  assert (Hgen : forall bp w1, exists flights w',
            generateEnhancedMockFlights env params bp w1 = (Return flights, w') /\
            ascending_by_price flights /\ (12 <= length flights <= 17)%nat /\
            exists base, Forall (flight_shape base) flights).
  { intros bp w1.
    destruct (quiet_generateEnhancedMockFlights env Hfair params bp w1)
      as (flights & w' & E & _ & base & _ & Hall & Hs & Hn).
    exists flights, w'. split; [done|]. split; [done|]. split; [done|].
    by exists base. }
  rewrite (searchFlights_valid_date _ _ _ _ _ Hdate).
  destruct (decide _); [apply Hgen|]. destruct (MOCK_MODE cfg); [apply Hgen|].
  unfold try_catch, bind.
  destruct (FlightAPI.getPriceTrends cfg env params w) as [[trends|e0] w1];
    [|apply Hgen].
  destruct (Hgen (Some (FlightAPI.averagePrice trends)) w1)
    as (flights & w' & E & H).
  exists flights, w'. by rewrite E.
Qed.

(** What is thrown, and when. *)
Lemma thrown_by_the_pattern {T} (rg : Region T) key mock request post w e w' :
  (forall w1 n, entries rg (with_tick n w1) = entries rg w1) ->
  (forall w1 ls, entries rg (with_entries rg ls w1) = ls) ->
  (forall w1, with_entries rg (entries rg w1) w1 = w1) ->
  (forall w1 ls, live_state (with_entries rg ls w1) = live_state w1) ->
  (forall w1, exists a w2, mock w1 = (Return a, w2)) ->
  (forall body w2,
     post body w2 = (Throw e, w') ->
     w2 = w' /\ e = TypeError /\
     exists items, body_data body = Some items /\ None ∈ items) ->
  cached_operation cfg env rg key mock request post w = (Throw e, w') ->
  MOCK_MODE cfg = false /\
  (token_failed cfg env w e w' \/ null_in_reply cfg env w e w').
Proof.
  intros Htick Hput Hsame Hlive Hmock Hpost Hrun.
  apply (pattern_throws cfg env rg) in Hrun; [|done..].
  destruct Hrun as (Hmode & w0 & Hmiss & Hadm & Hax & Hhow). split; [done|].
  assert (Hstate : live_state w0 = live_state w).
  { destruct (cacheGet_returns env rg Hlive key w) as (v & w1 & E & Hstate).
    rewrite Hmiss in E. by injection E as <- <-. }
  destruct Hhow as [Hcall | (body & w2 & Hcall & Hthrow)].
  - left. destruct (liveCall_throws _ _ _ _ _ _ Hcall Hax) as [He Htok].
    split; [done|]. by exists w0.
  - right. destruct (Hpost body w2 Hthrow) as (-> & -> & items & Hitems & Hnull).
    split; [done|]. by exists w0, request, body, items.
Qed.

Lemma thrown_by_getFlightInspiration o maxPrice oneWay w e w' :
  FlightAPI.getFlightInspiration cfg env o maxPrice oneWay w = (Throw e, w') ->
  MOCK_MODE cfg = false /\ token_failed cfg env w e w'.
Proof.
  intros Hrun. rewrite getFlightInspiration_pattern in Hrun.
  apply (pattern_throws cfg env inspirationRegion) in Hrun; try region.
  2:{ eapply quiet_returns, quiet_getMockInspirationData, Hfair. }
  destruct Hrun as (Hmode & w0 & Hmiss & Hadm & Hax & Hhow). split; [done|].
  destruct Hhow as [Hcall | (body & w2 & Hcall & Hthrow)].
  - destruct (liveCall_throws _ _ _ _ _ _ Hcall Hax) as [He Htok].
    split; [done|]. exists w0. split; [done|]. split; [|done].
    destruct (cacheGet_returns env inspirationRegion ltac:(region)
                (FlightAPI.inspirationKey o maxPrice oneWay) w)
      as (v & w1 & E & Hstate).
    rewrite Hmiss in E. by injection E as <- <-.
  - unfold bind in Hthrow.
    by rewrite (cacheSet_run env inspirationRegion) in Hthrow by region.
Qed.

Lemma thrown_by_getFlightCheapestDates o d oneWay w e w' :
  FlightAPI.getFlightCheapestDates cfg env o d oneWay w = (Throw e, w') ->
  MOCK_MODE cfg = false /\
  (token_failed cfg env w e w' \/ null_in_reply cfg env w e w').
Proof.
  intros Hrun.
  destruct (decide (o = d)) as [Hsame|Hne].
  { unfold FlightAPI.getFlightCheapestDates in Hrun.
    destruct (decide (o = d)); [|done].
    destruct (quiet_getMockPriceTrendsForRoute env Hfair o d w)
      as (a & w2 & E & _). by rewrite E in Hrun. }
  rewrite getFlightCheapestDates_pattern in Hrun by done.
  eapply (thrown_by_the_pattern trendsRegion); try exact Hrun; try region.
  - eapply quiet_returns, quiet_getMockPriceTrendsForRoute, Hfair.
  - intros body w2 Hthrow. cbv beta in Hthrow.
    destruct (body_data body) as [items|].
    + destruct (items_cases items) as [[entries ->]|Hnull].
      * unfold bind at 1 in Hthrow.
        rewrite extractPriceTrends_objects in Hthrow. unfold bind in Hthrow.
        by rewrite (cacheSet_run env trendsRegion) in Hthrow by region.
      * unfold bind in Hthrow.
        rewrite (extractPriceTrends_null _ _ _ Hnull) in Hthrow.
        injection Hthrow as <- <-. split; [done|]. split; [done|].
        by exists items.
    + destruct (quiet_getMockPriceTrendsForRoute env Hfair o d w2)
        as (a & w3 & E & _). by rewrite E in Hthrow.
Qed.

Lemma thrown_by_getPriceTrends params w e w' :
  FlightAPI.getPriceTrends cfg env params w = (Throw e, w') ->
  MOCK_MODE cfg = false /\
  (token_failed cfg env w e w' \/ null_in_reply cfg env w e w').
Proof.
  intros Hrun. unfold FlightAPI.getPriceTrends in Hrun. destruct (decide _).
  - destruct (quiet_getMockPriceTrendsForRoute env Hfair
                (sp_origin params) (sp_destination params) w)
      as (a & w2 & E & _). by rewrite E in Hrun.
  - by eapply thrown_by_getFlightCheapestDates.
Qed.

Lemma thrown_by_getAirportSuggestions query w e w' :
  FlightAPI.getAirportSuggestions cfg env query w = (Throw e, w') ->
  MOCK_MODE cfg = false /\
  (token_failed cfg env w e w' \/ null_in_reply cfg env w e w').
Proof.
  intros Hrun.
  destruct (Nat.ltb_spec (length16 query) 2) as [Hshort|Hlong].
  { by rewrite getAirportSuggestions_short in Hrun. }
  rewrite getAirportSuggestions_pattern in Hrun by done.
  eapply (thrown_by_the_pattern airportsRegion); try exact Hrun; try region.
  - intros w1. by eexists _, _.
  - intros body w2 Hthrow. cbv beta in Hthrow.
    destruct (body_data body) as [items|]; [|done].
    destruct (items_cases items) as [[entries ->]|Hnull].
    + unfold bind at 1 in Hthrow.
      rewrite toSuggestions_objects in Hthrow. unfold bind in Hthrow.
      by rewrite (cacheSet_run env airportsRegion) in Hthrow by region.
    + unfold bind in Hthrow. rewrite (toSuggestions_null _ _ Hnull) in Hthrow.
      injection Hthrow as <- <-. split; [done|]. split; [done|].
      by exists items.
Qed.

(** X17.  The operations throw in live mode only, on the live path, after
    a miss in the cache and a check that admitted the call, and nothing
    but this: [getFlightInspiration] the error that [getAmadeusToken] makes
    of a failed token exchange; [getFlightCheapestDates], [getPriceTrends]
    and [getAirportSuggestions] that error, or the [TypeError] of reading
    an element of the array of the reply that is [null]. *)
Theorem what_the_operations_throw w e w' :
  ((exists o maxPrice oneWay,
      FlightAPI.getFlightInspiration cfg env o maxPrice oneWay w = (Throw e, w')) ->
   MOCK_MODE cfg = false /\ token_failed cfg env w e w') /\
  ((exists o d oneWay,
      FlightAPI.getFlightCheapestDates cfg env o d oneWay w = (Throw e, w')) \/
   (exists params, FlightAPI.getPriceTrends cfg env params w = (Throw e, w')) \/
   (exists query, FlightAPI.getAirportSuggestions cfg env query w = (Throw e, w')) ->
   MOCK_MODE cfg = false /\
   (token_failed cfg env w e w' \/ null_in_reply cfg env w e w')).
Proof.
  split.
  - intros (o & maxPrice & oneWay & Hrun).
    by eapply thrown_by_getFlightInspiration.
  - intros [(o & d & oneWay & Hrun) | [(params & Hrun) | (query & Hrun)]].
    + by eapply thrown_by_getFlightCheapestDates.
    + by eapply thrown_by_getPriceTrends.
    + by eapply thrown_by_getAirportSuggestions.
Qed.

End OnlyError.

Lemma run_pair {A} (m : M A) w a :
  fst (m w) = Return a -> m w = (Return a, snd (m w)).
Proof. destruct (m w) as [r w']. simpl. by intros ->. Qed.

Lemma run_pair_throw {A} (m : M A) w e :
  fst (m w) = Throw e -> m w = (Throw e, snd (m w)).
Proof. destruct (m w) as [r w']. simpl. by intros ->. Qed.

(** A day whose quota is used up. *)
Lemma denial_and_failure_fall_back_witness :
  MOCK_MODE liveConfig = false /\
  FlightAPI.getAirportSuggestions liveConfig (sampleEnv 0 0 (Failure None)) "jf"
    (with_limiter (APIRateLimiter.mk 39 0 0) (newWorld 0))
  = (Return [mkAirport "JFK" "John F. Kennedy International" "New York"],
     snd (canMakeCall (sampleEnv 0 0 (Failure None))
            (with_limiter (APIRateLimiter.mk 39 0 0) (newWorld 0)))).
Proof.
  split; [reflexivity|].
  destruct (denial_and_failure_fall_back liveConfig (sampleEnv 0 0 (Failure None))
              (with_limiter (APIRateLimiter.mk 39 0 0) (newWorld 0))
              (with_limiter (APIRateLimiter.mk 39 0 0) (newWorld 0)) eq_refl)
    as (_ & _ & Hairports).
  destruct (Hairports "jf" ltac:(simpl; lia) eq_refl) as [Hdenied _].
  apply Hdenied. unfold admits. simpl. discriminate.
Defined.

(** A token endpoint that answers 401. *)
Lemma failed_token_exchange_is_thrown_witness :
  (MOCK_MODE liveConfig = false /\
   admits (sampleEnv 0 0 (Failure (Some 401))) (newWorld 0)) /\
  fst (FlightAPI.getFlightInspiration liveConfig
         (sampleEnv 0 0 (Failure (Some 401))) "JFK" 1000 false (newWorld 0))
  = Throw (Error "Failed to authenticate with Amadeus API").
Proof.
  split; [by split|].
  set (env := sampleEnv 0 0 (Failure (Some 401))).
  pose proof (run_pair_throw
                (getAmadeusToken liveConfig env)
                (snd (recordCall env (snd (canMakeCall env (newWorld 0)))))
                (Error "Failed to authenticate with Amadeus API") eq_refl)
    as Htoken.
  destruct (failed_token_exchange_is_thrown liveConfig env (newWorld 0)
              (newWorld 0) _ _ eq_refl eq_refl Htoken)
    as (_ & Hinspiration & _).
  by rewrite (Hinspiration "JFK" 1000 false eq_refl).
Defined.

(** A token endpoint that answers 401, and a reply whose array holds a
    [null]. *)
Lemma what_the_operations_throw_witness :
  fair (sampleEnv 0 0 (Failure (Some 401))) /\
  fair (sampleEnv 0 0 (Response nullBody)) /\
  token_failed liveConfig (sampleEnv 0 0 (Failure (Some 401))) (newWorld 0)
    (Error "Failed to authenticate with Amadeus API")
    (snd (FlightAPI.getFlightInspiration liveConfig
            (sampleEnv 0 0 (Failure (Some 401))) "JFK" 1000 false (newWorld 0))) /\
  fst (FlightAPI.getAirportSuggestions liveConfig
         (sampleEnv 0 0 (Response nullBody)) "JFK" (newWorld 0))
  = Throw TypeError /\
  (token_failed liveConfig (sampleEnv 0 0 (Response nullBody)) (newWorld 0)
     TypeError
     (snd (FlightAPI.getAirportSuggestions liveConfig
             (sampleEnv 0 0 (Response nullBody)) "JFK" (newWorld 0))) \/
   null_in_reply liveConfig (sampleEnv 0 0 (Response nullBody)) (newWorld 0)
     TypeError
     (snd (FlightAPI.getAirportSuggestions liveConfig
             (sampleEnv 0 0 (Response nullBody)) "JFK" (newWorld 0)))).
Proof.
  split; [apply sampleEnv_fair|]. split; [apply sampleEnv_fair|].
  split; [|split; [reflexivity|]].
  - pose proof (run_pair_throw
                  (FlightAPI.getFlightInspiration liveConfig
                     (sampleEnv 0 0 (Failure (Some 401))) "JFK" 1000 false)
                  (newWorld 0)
                  (Error "Failed to authenticate with Amadeus API") eq_refl)
      as Hrun.
    destruct (what_the_operations_throw liveConfig
                (sampleEnv 0 0 (Failure (Some 401)))
                (sampleEnv_fair 0 (Failure (Some 401))) (newWorld 0)
                (Error "Failed to authenticate with Amadeus API")
                (snd (FlightAPI.getFlightInspiration liveConfig
                        (sampleEnv 0 0 (Failure (Some 401))) "JFK" 1000 false
                        (newWorld 0))))
      as [Hinspiration _].
    apply Hinspiration. exists "JFK", 1000, false. exact Hrun.
  - pose proof (run_pair_throw
                  (FlightAPI.getAirportSuggestions liveConfig
                     (sampleEnv 0 0 (Response nullBody)) "JFK")
                  (newWorld 0) TypeError eq_refl) as Hrun.
    destruct (what_the_operations_throw liveConfig
                (sampleEnv 0 0 (Response nullBody))
                (sampleEnv_fair 0 (Response nullBody)) (newWorld 0) TypeError
                (snd (FlightAPI.getAirportSuggestions liveConfig
                        (sampleEnv 0 0 (Response nullBody)) "JFK" (newWorld 0))))
      as [_ Hothers].
    apply Hothers. right. right. exists "JFK". exact Hrun.
Defined.

(** Surroundings in which every request is answered with a token and one
    location. *)
Lemma inspiration_reply_is_cached_witness :
  (MOCK_MODE liveConfig = false /\
   cacheGet (sampleEnv 0 0 (Response (locationsBody "JFK" "Kennedy" "New York")))
     inspirationRegion (FlightAPI.inspirationKey "JFK" 1000 false) (newWorld 0)
     = (Return None, newWorld 0) /\
   admits (sampleEnv 0 0 (Response (locationsBody "JFK" "Kennedy" "New York")))
     (newWorld 0)) /\
  exists w',
    FlightAPI.getFlightInspiration liveConfig
      (sampleEnv 0 0 (Response (locationsBody "JFK" "Kennedy" "New York")))
      "JFK" 1000 false (newWorld 0)
    = (Return (locationsBody "JFK" "Kennedy" "New York"), w').
Proof.
  split; [by repeat split|].
  set (env := sampleEnv 0 0 (Response (locationsBody "JFK" "Kennedy" "New York"))).
  pose proof (run_pair
                (FlightAPI.liveCall liveConfig env
                   (fun token => GetFlightDestinations token "JFK" 1000 false))
                (snd (canMakeCall env (newWorld 0)))
                (locationsBody "JFK" "Kennedy" "New York") eq_refl) as Hcall.
  destruct (inspiration_reply_is_cached liveConfig env "JFK" 1000 false
              (newWorld 0) (newWorld 0) (locationsBody "JFK" "Kennedy" "New York")
              _ eq_refl eq_refl eq_refl Hcall)
    as (w' & E & _).
  by exists w'.
Defined.

(** The reply [datesBody]: the two elements that have a price make two
    price points, which come out in the order of their dates. *)
Lemma price_trends_reply_is_cached_witness :
  ("JFK" <> "LAX" /\
   MOCK_MODE liveConfig = false /\
   cacheGet (withDates (sampleEnv 0 0 (Response datesBody)))
     trendsRegion (FlightAPI.cheapestDatesKey "JFK" "LAX" false) (newWorld 0)
     = (Return None, newWorld 0) /\
   admits (withDates (sampleEnv 0 0 (Response datesBody))) (newWorld 0)) /\
  exists priceTrends w',
    FlightAPI.getFlightCheapestDates liveConfig
      (withDates (sampleEnv 0 0 (Response datesBody)))
      "JFK" "LAX" false (newWorld 0)
    = (Return priceTrends, w') /\
    priceTrends = [mkPoint "2026-12-01" 300%Q "Various";
                   mkPoint "2026-12-02" 350%Q "Various"].
Proof.
  split; [by repeat split|].
  set (env := withDates (sampleEnv 0 0 (Response datesBody))).
  pose proof (run_pair
                (FlightAPI.liveCall liveConfig env
                   (fun token => GetFlightDates token "JFK" "LAX" false))
                (snd (canMakeCall env (newWorld 0))) datesBody eq_refl) as Hcall.
  pose proof (price_trends_reply_is_cached liveConfig env "JFK" "LAX" false
                (newWorld 0) (newWorld 0) datesBody
                _ ltac:(discriminate) eq_refl eq_refl eq_refl Hcall) as Hreply.
  cbn [body_data datesBody] in Hreply. destruct Hreply as [_ Hreply].
  destruct (Hreply [datedEntry "2026-12-02" (Some 350%Q);
                    datedEntry "2026-12-03" None;
                    datedEntry "2026-12-01" (Some 300%Q)] eq_refl)
    as (priceTrends & w' & E & _).
  exists priceTrends, w'. split; [exact E|].
  assert (Hfst : fst (FlightAPI.getFlightCheapestDates liveConfig env
                        "JFK" "LAX" false (newWorld 0))
                 = Return [mkPoint "2026-12-01" 300%Q "Various";
                           mkPoint "2026-12-02" 350%Q "Various"])
    by (vm_compute; reflexivity).
  rewrite E in Hfst. cbn [fst] in Hfst. by injection Hfst.
Defined.

Lemma airport_reply_is_cached_witness :
  ((2 <= length16 "jf")%nat /\
   MOCK_MODE liveConfig = false /\
   cacheGet (sampleEnv 0 0 (Response (locationsBody "JFK" "Kennedy" "New York")))
     airportsRegion "airports_jf" (newWorld 0)
     = (Return None, newWorld 0) /\
   admits (sampleEnv 0 0 (Response (locationsBody "JFK" "Kennedy" "New York")))
     (newWorld 0)) /\
  exists w',
    FlightAPI.getAirportSuggestions liveConfig
      (sampleEnv 0 0 (Response (locationsBody "JFK" "Kennedy" "New York")))
      "jf" (newWorld 0)
    = (Return [mkAirport "JFK" "Kennedy" "New York"], w').
Proof.
  split; [repeat split; simpl; lia|].
  set (env := sampleEnv 0 0 (Response (locationsBody "JFK" "Kennedy" "New York"))).
  pose proof (run_pair
                (FlightAPI.liveCall liveConfig env
                   (fun token => GetLocations token "jf"))
                (snd (canMakeCall env (newWorld 0)))
                (locationsBody "JFK" "Kennedy" "New York") eq_refl) as Hcall.
  pose proof (airport_reply_is_cached liveConfig env "jf"
                (newWorld 0) (newWorld 0)
                (locationsBody "JFK" "Kennedy" "New York")
                _ ltac:(simpl; lia) eq_refl eq_refl eq_refl Hcall) as Hreply.
  cbn [body_data locationsBody] in Hreply. destruct Hreply as [_ Hreply].
  destruct (Hreply [{| en_type := "location"; en_origin := "";
                       en_destination := ""; en_departureDate := "";
                       en_returnDate := None; en_priceTotal := None;
                       en_iataCode := "JFK"; en_name := "Kennedy";
                       en_cityName := "New York" |}] eq_refl)
    as (suggestions & w' & -> & E & _).
  by exists w'.
Defined.

End OperationLaws.

Module ManagementLaws.
Import MonadFacts SynthesisFacts FootprintFacts OperationFacts GeneratorLaws
  OperationLaws.

(** *** Computations that always return *)

Section Leaves.
Context (env : Env) {X : Type} (part : World -> X).
Hypothesis part_tick : forall w n, part (with_tick n w) = part w.

Lemma leaves_ret {A} (a : A) : leaves part (ret a).
Proof. intros w. by exists a, w. Qed.

Lemma leaves_bind {A B} (m : M A) (k : A -> M B) :
  leaves part m -> (forall a, leaves part (k a)) -> leaves part (bind m k).
Proof.
  intros Hm Hk w. destruct (Hm w) as (a & w1 & E1 & P1).
  destruct (Hk a w1) as (b & w2 & E2 & P2).
  exists b, w2. unfold bind. rewrite E1. split; [done|congruence].
Qed.

Lemma leaves_quiet {A} (m : M A) P : quiet m P -> leaves part m.
Proof.
  intros Hq w. destruct (Hq w) as (a & w' & E & S & _).
  exists a, w'. split; [done|]. rewrite S. apply part_tick.
Qed.

Lemma leaves_cacheGet {T} (rg : Region T) key :
  (forall w ls, part (with_entries rg ls w) = part w) ->
  leaves part (cacheGet env rg key).
Proof.
  intros Hput w. unfold cacheGet.
  destruct (entries rg w !! _) as [[c|]|]; [|by eexists _, _..].
  unfold bind. cbn [Date_now].
  destruct (APICacheManager.get _ _ _) as [v ls].
  eexists _, _. split; [reflexivity|]. by rewrite Hput, part_tick.
Qed.

Lemma leaves_offline {T} cfg (rg : Region T) key mock request post :
  MOCK_MODE cfg = true ->
  (forall w ls, part (with_entries rg ls w) = part w) ->
  leaves part mock ->
  leaves part (cached_operation cfg env rg key mock request post).
Proof.
  intros Hmock Hput Hm. unfold cached_operation.
  apply leaves_bind; [by apply leaves_cacheGet|].
  intros [d|]; [apply leaves_ret|]. by rewrite Hmock.
Qed.

End Leaves.

Section Offline.
Context (cfg : Config) (env : Env) (Hfair : fair env).

(** X18.  In mock mode no operation sends a request, counts a call or
    touches the token, and every operation returns, but for one case:
    [searchFlights] with the Invalid Date for the departure date throws
    the [RangeError] of its first log line, with nothing changed.
    [getAirportSuggestions] returns for every query, those with letters
    outside ASCII and those shorter than two code units included.
    [checkAPIStatus] answers that mock data are used and changes nothing
    at all. *)
Theorem offline_mode_is_silent :
  MOCK_MODE cfg = true ->
  (forall params ms,
     sp_departureDate params = ValidDate ms ->
     leaves live_state (FlightAPI.searchFlights cfg env params)) /\
  (forall params w,
     sp_departureDate params = InvalidDate ->
     FlightAPI.searchFlights cfg env params w = (Throw RangeError, w)) /\
  (forall params, leaves live_state (FlightAPI.getPriceTrends cfg env params)) /\
  (forall o maxPrice oneWay,
     leaves live_state (FlightAPI.getFlightInspiration cfg env o maxPrice oneWay)) /\
  (forall o d oneWay,
     leaves live_state (FlightAPI.getFlightCheapestDates cfg env o d oneWay)) /\
  (forall query, leaves live_state (FlightAPI.getAirportSuggestions cfg env query)) /\
  (forall w,
     FlightAPI.checkAPIStatus cfg env w
     = (Return {| FlightAPI.available := false;
                  FlightAPI.usingMock := true;
                  FlightAPI.message := "Using mock data (configured)" |}, w)).
Proof.
  intros Hmock.
  pose proof (fun w n => live_state_tick n w) as Htick.
  assert (Hq : forall A (m : M A) P, quiet m P -> leaves live_state m)
    by (intros; eapply leaves_quiet; [apply Htick | eassumption]).
  assert (Hdates : forall o d oneWay,
            leaves live_state (FlightAPI.getFlightCheapestDates cfg env o d oneWay)).
  { intros o d oneWay. destruct (decide (o = d)) as [Hsame|Hne].
    - unfold FlightAPI.getFlightCheapestDates.
      destruct (decide (o = d)); [|done].
      eapply Hq, quiet_getMockPriceTrendsForRoute, Hfair.
    - rewrite getFlightCheapestDates_pattern by done.
      apply leaves_offline; [apply Htick | done | region |].
      eapply Hq, quiet_getMockPriceTrendsForRoute, Hfair. }
  split; [|split; [|split; [|split; [|split; [|split]]]]].
  - intros params ms Hdate w.
    rewrite (searchFlights_valid_date _ _ _ _ _ Hdate). rewrite Hmock.
    destruct (decide _);
      eapply Hq, quiet_generateEnhancedMockFlights, Hfair.
  - intros params w Hdate. by apply searchFlights_invalid_date.
  - intros params. unfold FlightAPI.getPriceTrends. destruct (decide _).
    + eapply Hq, quiet_getMockPriceTrendsForRoute, Hfair.
    + apply Hdates.
  - intros o maxPrice oneWay. rewrite getFlightInspiration_pattern.
    apply leaves_offline; [apply Htick | done | region |].
    eapply Hq, quiet_getMockInspirationData, Hfair.
  - apply Hdates.
  - intros query. destruct (Nat.ltb_spec (length16 query) 2) as [Hs|Hl].
    + unfold FlightAPI.getAirportSuggestions.
      destruct (Nat.ltb_spec (length16 query) 2); [|lia].
      apply leaves_ret.
    + rewrite getAirportSuggestions_pattern by done.
      apply leaves_offline; [apply Htick | done | region |].
      apply leaves_ret.
  - intros w. unfold FlightAPI.checkAPIStatus. by rewrite Hmock.
Qed.

End Offline.

Lemma offline_mode_is_silent_witness :
  (fair (sampleEnv 0 0 (Failure None)) /\ MOCK_MODE mockConfig = true) /\
  exists flights w',
    FlightAPI.searchFlights mockConfig (sampleEnv 0 0 (Failure None))
      (route "JFK" "LAX") (newWorld 0) = (Return flights, w') /\
    live_state w' = live_state (newWorld 0).
Proof.
  split; [split; [apply sampleEnv_fair | reflexivity]|].
  destruct (offline_mode_is_silent mockConfig (sampleEnv 0 0 (Failure None))
              (sampleEnv_fair 0 (Failure None)) eq_refl) as [Hsearch _].
  by apply (Hsearch (route "JFK" "LAX") 0).
Defined.

(** *** [clearCache], [getCacheStats] and [getRateLimitInfo] *)

Lemma cleared_keys {T} (m : gmap string (Stored (APICacheManager.APICache T))) :
  List.filter (String.prefix APICacheManager.CACHE_PREFIX)
    (map_to_list (APICacheManager.clearAll m)).*1 = [].
Proof.
  apply GeneratorLaws.filter_none. apply Forall_forall. intros k Hk.
  apply list_elem_of_fmap in Hk. destruct Hk as ([k' x] & -> & Hk).
  apply elem_of_map_to_list in Hk. unfold APICacheManager.clearAll in Hk.
  apply map_lookup_filter_Some in Hk. by destruct Hk as [_ Hk].
Qed.

(** X19.  [clearCache] leaves nothing behind: every look into the cache misses,
    [getCacheStats] counts no key, the rate limiter starts afresh with its
    saved copy removed, so that [getRateLimitInfo] shows 39 calls left and
    the next check admits a call at whatever time it is made, and the token
    is forgotten.  No request is sent. *)
Theorem clearCache_starts_afresh env w :
  exists w',
    FlightAPI.clearCache env w = (Return tt, w') /\
    requests w' = requests w /\
    tokenInfo w' = None /\
    savedCalls w' = None /\
    limiter w' = APIRateLimiter.fresh (timeAt env (tick w)) /\
    (forall env' key,
       cacheGet env' inspirationRegion key w' = (Return None, w') /\
       cacheGet env' trendsRegion key w' = (Return None, w') /\
       cacheGet env' airportsRegion key w' = (Return None, w')) /\
    FlightAPI.getCacheStats w'
      = (Return {| FlightAPI.total := 0; FlightAPI.keys := [] |}, w') /\
    FlightAPI.getRateLimitInfo w'
      = (Return {| APIRateLimiter.st_callsToday := 0;
                   APIRateLimiter.st_callsThisMinute := 0;
                   APIRateLimiter.maxPerDay := 39;
                   APIRateLimiter.maxPerMinute := 10;
                   APIRateLimiter.callsLeftToday := 39 |}, w') /\
    (forall now,
       APIRateLimiter.allowed
         (fst (APIRateLimiter.canMakeCall now (limiter w'))) = true).
Proof.
  destruct w as [ic tc ac sc lim tok rq tk].
  exists {| inspirationCache := APICacheManager.clearAll ic;
            trendsCache := APICacheManager.clearAll tc;
            airportsCache := APICacheManager.clearAll ac;
            savedCalls := None;
            limiter := APIRateLimiter.fresh (timeAt env tk);
            tokenInfo := None;
            requests := rq;
            tick := S tk |}.
  split; [reflexivity|].
  cbn [requests tokenInfo savedCalls limiter tick].
  split; [done|]. split; [done|]. split; [done|]. split; [done|].
  split; [|split; [|split]].
  - intros env' key. unfold cacheGet.
    cbn [entries inspirationRegion trendsRegion airportsRegion
         inspirationCache trendsCache airportsCache].
    rewrite !CacheLaws.clearAll_lookup_prefixed by apply CacheLaws.prefix_app.
    done.
  - unfold FlightAPI.getCacheStats, read, FlightAPI.storageKeys.
    cbn [inspirationCache trendsCache airportsCache savedCalls].
    rewrite app_nil_r, !List.filter_app, !cleared_keys. done.
  - done.
  - intros now. rewrite RateLimiterFacts.canMakeCall_refines.
    unfold APIRateLimiter.canMakeCall_described, APIRateLimiter.fresh.
    cbn [APIRateLimiter.minuteStart].
    destruct (decide (now - timeAt env tk > 60000));
      cbn [APIRateLimiter.callsThisMinute APIRateLimiter.callsToday];
      (destruct (decide (0 >= 10)); [lia|]);
      (destruct (decide (0 >= 39)); [lia|]); done.
Qed.

Lemma removeFirst_unfold (pat s : string) :
  removeFirst pat s =
  if String.prefix pat s
  then String.substring (String.length pat)
         (String.length s - String.length pat) s
  else match s with
       | EmptyString => EmptyString
       | String c rest => String c (removeFirst pat rest)
       end.
Proof. by destruct s. Qed.

Lemma string_length_app (p s : string) :
  String.length (p +:+ s) = (String.length p + String.length s)%nat.
Proof. induction p as [|c p IH]; simpl; [done|]. by rewrite IH. Qed.

Lemma substring_all (s : string) : String.substring 0 (String.length s) s = s.
Proof. induction s as [|c s IH]; simpl; [done|]. by rewrite IH. Qed.

Lemma substring_skip (p s : string) (m : nat) :
  String.substring (String.length p) m (p +:+ s) = String.substring 0 m s.
Proof. induction p as [|c p IH]; simpl; [done|]. apply IH. Qed.

Lemma removeFirst_prefixed (p s : string) : removeFirst p (p +:+ s) = s.
Proof.
  rewrite removeFirst_unfold, CacheLaws.prefix_app, substring_skip.
  rewrite string_length_app.
  replace (String.length p + String.length s - String.length p)%nat
    with (String.length s) by lia.
  apply substring_all.
Qed.

Lemma reported_keys {T} (m : gmap string (Stored (APICacheManager.APICache T)))
    (key : string) :
  key ∈ map (removeFirst APICacheManager.CACHE_PREFIX)
          (List.filter (String.prefix APICacheManager.CACHE_PREFIX)
             (map_to_list m).*1)
  <-> is_Some (m !! (APICacheManager.CACHE_PREFIX +:+ key)).
Proof.
  rewrite list_elem_of_In, in_map_iff. split.
  - intros (k & <- & Hk). apply filter_In in Hk. destruct Hk as [Hk Hp].
    apply AirportFacts.prefix_spec in Hp. destruct Hp as [after ->].
    rewrite removeFirst_prefixed.
    apply list_elem_of_In, list_elem_of_fmap in Hk.
    destruct Hk as ([k x] & Hfst & Hk). simpl in Hfst. subst k.
    apply elem_of_map_to_list in Hk. by exists x.
  - intros [x Hx]. exists (APICacheManager.CACHE_PREFIX +:+ key).
    split; [apply removeFirst_prefixed|].
    apply filter_In. split; [|apply CacheLaws.prefix_app].
    apply list_elem_of_In, list_elem_of_fmap.
    exists (APICacheManager.CACHE_PREFIX +:+ key, x). split; [done|].
    by apply elem_of_map_to_list.
Qed.

(** X20.  [getCacheStats] changes nothing and reports the keys of the entries of
    the cache, and only them, each without the prefix it is stored under;
    [total] is their number.  The copy of the rate limiter, stored under a
    key without that prefix, is not counted. *)
Theorem cache_stats_report_the_entries w :
  exists stats,
    FlightAPI.getCacheStats w = (Return stats, w) /\
    FlightAPI.total stats = Z.of_nat (length (FlightAPI.keys stats)) /\
    forall key,
      key ∈ FlightAPI.keys stats <->
      is_Some (inspirationCache w !! (APICacheManager.CACHE_PREFIX +:+ key)) \/
      is_Some (trendsCache w !! (APICacheManager.CACHE_PREFIX +:+ key)) \/
      is_Some (airportsCache w !! (APICacheManager.CACHE_PREFIX +:+ key)).
Proof.
  eexists. split; [reflexivity|]. cbn [FlightAPI.total FlightAPI.keys].
  split; [by rewrite length_map|].
  intros key. unfold FlightAPI.storageKeys.
  assert (Hsaved : List.filter (String.prefix APICacheManager.CACHE_PREFIX)
                     (match savedCalls w with
                      | Some _ => ["amadeus_api_calls"]
                      | None => []
                      end) = [])
    by (by destruct (savedCalls w)).
  rewrite !List.filter_app, Hsaved, app_nil_r, !map_app, !elem_of_app.
  by rewrite !reported_keys.
Qed.

(** *** [checkAPIStatus] *)

(** X21.  [checkAPIStatus] never throws, and [usingMock] is the negation of
    [available].  Without credentials, or with the placeholders in their
    place, it says so and does nothing.  It reports the API as available
    only when [getAmadeusToken] returned a token and the trial search for
    "JFK" returned as well. *)
Theorem checkAPIStatus_never_throws cfg env w :
  exists status w',
    FlightAPI.checkAPIStatus cfg env w = (Return status, w') /\
    FlightAPI.usingMock status = negb (FlightAPI.available status) /\
    (MOCK_MODE cfg = false ->
     API_KEY cfg = "" \/ API_KEY cfg = "YOUR_API_KEY_HERE" \/
     API_SECRET cfg = "" \/ API_SECRET cfg = "YOUR_API_SECRET_HERE" ->
     status = {| FlightAPI.available := false;
                 FlightAPI.usingMock := true;
                 FlightAPI.message := "No API credentials configured" |} /\
     w' = w) /\
    (FlightAPI.available status = true ->
     exists token w1 suggestions,
       getAmadeusToken cfg env w = (Return token, w1) /\
       token <> "" /\
       FlightAPI.getAirportSuggestions cfg env "JFK" w1
         = (Return suggestions, w')).
Proof.
  unfold FlightAPI.checkAPIStatus.
  destruct (MOCK_MODE cfg).
  { eexists _, _. split; [reflexivity|]. by repeat split. }
  destruct (bool_decide (API_KEY cfg = "") || _ || _ || _) eqn:Hcred.
  { eexists _, _. split; [reflexivity|]. by repeat split. }
  rewrite !orb_false_iff, !bool_decide_eq_false in Hcred.
  destruct Hcred as [[[H1 H2] H3] H4].
  unfold try_catch, bind.
  destruct (getAmadeusToken cfg env w) as [[token|e] w1] eqn:Etoken.
  2:{ eexists _, _. split; [reflexivity|].
      split; [done|]. split; [tauto|done]. }
  destruct (FlightAPI.getAirportSuggestions cfg env "JFK" w1)
    as [[suggestions|e] w2] eqn:Esuggestions.
  2:{ eexists _, _. split; [reflexivity|].
      split; [done|]. split; [tauto|done]. }
  eexists _, _. split; [reflexivity|].
  cbn [FlightAPI.available FlightAPI.usingMock].
  split; [done|]. split; [tauto|].
  intros Hav. apply negb_true_iff, bool_decide_eq_false in Hav.
  by exists token, w1, suggestions.
Qed.

End ManagementLaws.

Module CallerFacts.
Import MonadFacts SynthesisFacts OperationFacts AirportFacts GeneratorLaws
  OperationLaws.

(** *** [applyFilters] *)

Lemma existsb_Z (x : Z) (l : list Z) : existsb (Z.eqb x) l = true <-> x ∈ l.
Proof.
  rewrite existsb_exists. split.
  - intros (y & Hy & E). apply Z.eqb_eq in E. subst y. by apply list_elem_of_In.
  - intros Hx. exists x. split; [by apply list_elem_of_In | apply Z.eqb_refl].
Qed.

Lemma existsb_string (x : string) (l : list string) :
  existsb (String.eqb x) l = true <-> x ∈ l.
Proof.
  rewrite existsb_exists. split.
  - intros (y & Hy & E). apply String.eqb_eq in E. subst y.
    by apply list_elem_of_In.
  - intros Hx. exists x. split; [by apply list_elem_of_In | apply String.eqb_refl].
Qed.

Lemma passes_spec filterOptions flight :
  useFlights.passes filterOptions flight = true ->
  price flight <= fo_maxPrice filterOptions /\
  stops flight ∈ fo_stops filterOptions /\
  (fo_airlines filterOptions = [] \/ airline flight ∈ fo_airlines filterOptions) /\
  (forall departureHour,
     parseInt (firstField (departureTime flight)) = Some departureHour ->
     fst (fo_departureTimeRange filterOptions) <= departureHour
       <= snd (fo_departureTimeRange filterOptions)).
Proof.
  unfold useFlights.passes.
  destruct (Z.ltb_spec (fo_maxPrice filterOptions) (price flight)); [done|].
  destruct (existsb (Z.eqb (stops flight)) _) eqn:Hs; [|done]. cbn [negb].
  apply existsb_Z in Hs.
  destruct (fo_airlines filterOptions) as [|a l] eqn:Ha; cbn [length Nat.ltb andb].
  - intros Hh. split; [lia|]. split; [done|]. split; [by left|].
    intros h Eh. rewrite Eh in Hh.
    destruct (Z.ltb_spec h (fst (fo_departureTimeRange filterOptions)));
      destruct (Z.ltb_spec (snd (fo_departureTimeRange filterOptions)) h);
      try done; lia.
  - change (0 <? S (length l))%nat with true. cbn [andb].
    destruct (existsb (String.eqb (airline flight)) (a :: l)) eqn:Hl; [|done].
    apply existsb_string in Hl. cbn [negb].
    intros Hh. split; [lia|]. split; [done|]. split; [by right|].
    intros h Eh. rewrite Eh in Hh.
    destruct (Z.ltb_spec h (fst (fo_departureTimeRange filterOptions)));
      destruct (Z.ltb_spec (snd (fo_departureTimeRange filterOptions)) h);
      try done; lia.
Qed.

Lemma filter_twice {A} (f : A -> bool) (l : list A) :
  List.filter f (List.filter f l) = List.filter f l.
Proof.
  induction l as [|a l IH]; simpl; [done|].
  destruct (f a) eqn:E; simpl; [|done]. by rewrite E, IH.
Qed.

(** X22.  [applyFilters] takes flights out and does nothing else: what is left is
    in the order of the list given, so a list sorted by price stays sorted;
    every flight left costs at most [maxPrice], has a number of stops that
    is in [stops], is of an airline in [airlines] unless that list is
    empty, and leaves within the range of hours when its departure time
    begins with a number; and filtering again changes nothing. *)
Theorem applyFilters_only_removes flightList filterOptions :
  useFlights.applyFilters flightList filterOptions `sublist_of` flightList /\
  (ascending_by_price flightList ->
   ascending_by_price (useFlights.applyFilters flightList filterOptions)) /\
  Forall (fun flight =>
            price flight <= fo_maxPrice filterOptions /\
            stops flight ∈ fo_stops filterOptions /\
            (fo_airlines filterOptions = [] \/
             airline flight ∈ fo_airlines filterOptions) /\
            (forall departureHour,
               parseInt (firstField (departureTime flight)) = Some departureHour ->
               fst (fo_departureTimeRange filterOptions) <= departureHour
                 <= snd (fo_departureTimeRange filterOptions)))
    (useFlights.applyFilters flightList filterOptions) /\
  useFlights.applyFilters (useFlights.applyFilters flightList filterOptions)
    filterOptions
  = useFlights.applyFilters flightList filterOptions.
Proof.
  unfold useFlights.applyFilters. split; [apply List_filter_sublist|].
  split; [|split].
  - unfold ascending_by_price. intros Hs.
    induction Hs as [|f l Hs IH Hf]; simpl; [constructor|].
    destruct (useFlights.passes filterOptions f); [|done].
    constructor; [done|].
    apply Forall_forall. intros g Hg. rewrite Forall_forall in Hf. apply Hf.
    apply list_elem_of_In, filter_In in Hg. apply list_elem_of_In. tauto.
  - apply Forall_forall. intros f Hf.
    apply list_elem_of_In, filter_In in Hf. apply passes_spec. tauto.
  - apply filter_twice.
Qed.

(** *** The hook *)

Lemma departure_hour_read (h : Z) (mm : string) :
  6 <= h <= 21 -> parseInt (firstField (pad2 h +:+ ":" +:+ mm)) = Some h.
Proof.
  intros Hh.
  assert (E : h = 6 \/ h = 7 \/ h = 8 \/ h = 9 \/ h = 10 \/ h = 11 \/ h = 12 \/
              h = 13 \/ h = 14 \/ h = 15 \/ h = 16 \/ h = 17 \/ h = 18 \/
              h = 19 \/ h = 20 \/ h = 21) by lia.
  repeat (destruct E as [->|E]; [vm_compute; reflexivity|]).
  subst h. vm_compute. reflexivity.
Qed.

(** Of what the generator makes, the filters of a page just loaded take
    out the flights that cost more than 1000, and no other. *)
Lemma initial_filters_on_generated base f :
  flight_shape base f ->
  useFlights.passes (useFlights.filters useFlights.initial) f
  = (price f <=? 1000).
Proof.
  intros (h & mm & v & Hh & _ & _ & Hdep & _ & _ & _ & Hs).
  unfold useFlights.passes.
  cbn [useFlights.filters useFlights.initial fo_maxPrice fo_stops fo_airlines
       fo_departureTimeRange length fst snd].
  rewrite Hdep, (departure_hour_read h mm Hh).
  assert (Hstops : existsb (Z.eqb (stops f)) [0; 1; 2] = true).
  { destruct Hs as [E | [E | E]]; rewrite E; reflexivity. }
  rewrite Hstops. cbn [negb andb Nat.ltb Nat.leb].
  destruct (Z.ltb_spec 1000 (price f)); destruct (Z.leb_spec (price f) 1000);
    try lia; try reflexivity.
  destruct (Z.ltb_spec h 0); destruct (Z.ltb_spec 24 h); try lia. reflexivity.
Qed.

Section Hook.
Context (cfg : Config) (env : Env) (Hfair : fair env).

(** X23.  [search] never throws.  With a valid departure date it does
    not end in the error state: it leaves the flights of [searchFlights]
    (12 to 17 of them, sorted by price) in [flights], what [applyFilters]
    keeps of them under the filters of the hook in [filteredFlights], no
    error, and [loading] off; the effect that follows changes nothing, and
    under the filters of a page just loaded the flights shown are those
    that cost at most 1000.  With the Invalid Date, on which
    [searchFlights] throws, it ends in the error state: the message of
    the [catch] block, no flights, [loading] off, and nothing else
    changed. *)
Theorem search_settles params h w :
  (forall ms,
     sp_departureDate params = ValidDate ms ->
     exists h' w',
       useFlights.search cfg env params h w = (Return h', w') /\
       FlightAPI.searchFlights cfg env params w
         = (Return (useFlights.flights h'), w') /\
       useFlights.error h' = None /\
       useFlights.loading h' = false /\
       useFlights.searchParams h' = Some params /\
       useFlights.filters h' = useFlights.filters h /\
       ascending_by_price (useFlights.flights h') /\
       (12 <= length (useFlights.flights h') <= 17)%nat /\
       useFlights.filteredFlights h'
         = useFlights.applyFilters (useFlights.flights h')
             (useFlights.filters h') /\
       useFlights.effect h' = h' /\
       (useFlights.filters h = useFlights.filters useFlights.initial ->
        useFlights.filteredFlights h'
        = List.filter (fun flight => price flight <=? 1000)
            (useFlights.flights h'))) /\
  (sp_departureDate params = InvalidDate ->
   useFlights.search cfg env params h w
   = (Return {| useFlights.flights := [];
                useFlights.filteredFlights := [];
                useFlights.loading := false;
                useFlights.error :=
                  Some "Failed to search flights. Please try again.";
                useFlights.searchParams := Some params;
                useFlights.filters := useFlights.filters h |}, w)).
Proof.
  split.
  - intros ms Hdate.
    destruct (searchFlights_returns cfg env Hfair params ms w Hdate)
      as (flights & w' & E & Hsorted & Hlen & base & Hshape).
    eexists _, w'. unfold useFlights.search, try_catch, bind. rewrite E.
    split; [reflexivity|].
    cbn [useFlights.flights useFlights.error useFlights.loading
         useFlights.searchParams useFlights.filters useFlights.filteredFlights].
    split; [done|]. split; [done|]. split; [done|]. split; [done|].
    split; [done|]. split; [done|]. split; [done|]. split; [done|]. split.
    + unfold useFlights.effect. cbn [useFlights.flights useFlights.filters].
      destruct flights; [simpl in Hlen; lia|]. done.
    + intros ->. unfold useFlights.applyFilters. apply filter_ext_in.
      intros f Hf. apply (initial_filters_on_generated base).
      rewrite Forall_forall in Hshape. by apply Hshape, list_elem_of_In.
  - intros Hdate. unfold useFlights.search, try_catch, bind.
    by rewrite (searchFlights_invalid_date _ _ _ _ Hdate).
Qed.

End Hook.

Lemma search_settles_witness :
  fair (sampleEnv 0 0 (Failure (Some 401))) /\
  (exists h' w',
     useFlights.search liveConfig (sampleEnv 0 0 (Failure (Some 401)))
       (route "JFK" "LAX") useFlights.initial (newWorld 0) = (Return h', w') /\
     useFlights.error h' = None /\
     useFlights.loading h' = false) /\
  fst (useFlights.search liveConfig (sampleEnv 0 0 (Failure (Some 401)))
         (mkParams "JFK" "LAX" InvalidDate (1, 0, 0)) useFlights.initial
         (newWorld 0))
  = Return {| useFlights.flights := [];
              useFlights.filteredFlights := [];
              useFlights.loading := false;
              useFlights.error :=
                Some "Failed to search flights. Please try again.";
              useFlights.searchParams :=
                Some (mkParams "JFK" "LAX" InvalidDate (1, 0, 0));
              useFlights.filters := useFlights.filters useFlights.initial |}.
Proof.
  split; [apply sampleEnv_fair|]. split.
  - destruct (search_settles liveConfig (sampleEnv 0 0 (Failure (Some 401)))
                (sampleEnv_fair 0 (Failure (Some 401))) (route "JFK" "LAX")
                useFlights.initial (newWorld 0)) as [Hvalid _].
    destruct (Hvalid 0 eq_refl) as (h' & w' & E & _ & He & Hl & _).
    exists h', w'. split; [exact E|]. split; [exact He | exact Hl].
  - destruct (search_settles liveConfig (sampleEnv 0 0 (Failure (Some 401)))
                (sampleEnv_fair 0 (Failure (Some 401)))
                (mkParams "JFK" "LAX" InvalidDate (1, 0, 0))
                useFlights.initial (newWorld 0)) as [_ Hinvalid].
    by rewrite (Hinvalid eq_refl).
Defined.

(** X24.  The list shown follows the filters: when [filteredFlights] is what
    [applyFilters] makes of [flights], it is so again after [updateFilters]
    and the effect that the change of the filters sets off.  The flights
    themselves stay, and each of the four filters is the one given, or the
    one there was when none is given. *)
Theorem filtered_flights_follow_the_filters newFilters h :
  useFlights.filteredFlights h
    = useFlights.applyFilters (useFlights.flights h) (useFlights.filters h) ->
  let h' := useFlights.effect (useFlights.updateFilters newFilters h) in
  useFlights.flights h' = useFlights.flights h /\
  useFlights.filteredFlights h'
    = useFlights.applyFilters (useFlights.flights h) (useFlights.filters h') /\
  fo_maxPrice (useFlights.filters h')
    = match pf_maxPrice newFilters with
      | Some maxPrice => maxPrice
      | None => fo_maxPrice (useFlights.filters h)
      end /\
  fo_stops (useFlights.filters h')
    = match pf_stops newFilters with
      | Some stops => stops
      | None => fo_stops (useFlights.filters h)
      end /\
  fo_airlines (useFlights.filters h')
    = match pf_airlines newFilters with
      | Some airlines => airlines
      | None => fo_airlines (useFlights.filters h)
      end /\
  fo_departureTimeRange (useFlights.filters h')
    = match pf_departureTimeRange newFilters with
      | Some range => range
      | None => fo_departureTimeRange (useFlights.filters h)
      end.
Proof.
  intros Hinv. cbv zeta. unfold useFlights.effect.
  destruct (Nat.ltb_spec 0
              (length (useFlights.flights (useFlights.updateFilters newFilters h))))
    as [Hsome|Hnone].
  - cbn [useFlights.updateFilters useFlights.flights useFlights.filteredFlights
         useFlights.filters fo_maxPrice fo_stops fo_airlines
         fo_departureTimeRange].
    repeat split;
      by destruct newFilters as [[?|] [?|] [?|] [?|]].
  - cbn [useFlights.updateFilters useFlights.flights useFlights.filteredFlights
         useFlights.filters fo_maxPrice fo_stops fo_airlines
         fo_departureTimeRange] in *.
    destruct (useFlights.flights h) as [|f l] eqn:Hf; [|simpl in Hnone; lia].
    rewrite Hinv.
    repeat split;
      by destruct newFilters as [[?|] [?|] [?|] [?|]].
Qed.

(** Of two flights shown, at 500 and at 900, a highest price of 600 leaves
    the first. *)
Lemma filtered_flights_follow_the_filters_witness :
  useFlights.filteredFlights sampleHook
    = useFlights.applyFilters (useFlights.flights sampleHook)
        (useFlights.filters sampleHook) /\
  useFlights.filteredFlights
    (useFlights.effect
       (useFlights.updateFilters
          {| pf_maxPrice := Some 600; pf_stops := None; pf_airlines := None;
             pf_departureTimeRange := None |}
          sampleHook)) = [sampleFlight 500] /\
  fo_maxPrice
    (useFlights.filters
       (useFlights.effect
          (useFlights.updateFilters
             {| pf_maxPrice := Some 600; pf_stops := None; pf_airlines := None;
                pf_departureTimeRange := None |}
             sampleHook))) = 600.
Proof.
  split; [reflexivity|].
  destruct (filtered_flights_follow_the_filters
              {| pf_maxPrice := Some 600; pf_stops := None; pf_airlines := None;
                 pf_departureTimeRange := None |}
              sampleHook eq_refl) as (_ & E & Hmax & _).
  split; [rewrite E; reflexivity | exact Hmax].
Defined.

(** *** The filter panel *)

Section Toggle.
Context {A : Type} (eqb : A -> A -> bool).
Hypothesis eqb_eq : forall x y, eqb x y = true <-> x = y.

Lemma existsb_elem (a : A) (l : list A) : existsb (eqb a) l = true <-> a ∈ l.
Proof.
  rewrite existsb_exists. split.
  - intros (y & Hy & E). apply eqb_eq in E. subst y. by apply list_elem_of_In.
  - intros Ha. exists a. split; [by apply list_elem_of_In | by apply eqb_eq].
Qed.

Lemma elem_of_without (a x : A) (l : list A) :
  x ∈ List.filter (fun s => negb (eqb s a)) l <-> x ∈ l /\ x <> a.
Proof.
  rewrite list_elem_of_In, filter_In, <- list_elem_of_In, negb_true_iff.
  split; intros [Hx Hne]; (split; [done|]).
  - intros ->. assert (eqb a a = true) by (by apply eqb_eq). congruence.
  - apply not_true_is_false. intros E. by apply eqb_eq in E.
Qed.

Lemma toggled_once (a : A) (l : list A) : a ∈ toggled eqb a l <-> a ∉ l.
Proof.
  unfold toggled. destruct (existsb (eqb a) l) eqn:E.
  - apply existsb_elem in E. rewrite elem_of_without. tauto.
  - assert (a ∉ l) by (intros Ha; apply existsb_elem in Ha; congruence).
    rewrite elem_of_app, list_elem_of_singleton. tauto.
Qed.

Lemma toggled_twice (a x : A) (l : list A) :
  x ∈ toggled eqb a (toggled eqb a l) <-> x ∈ l.
Proof.
  pose proof (toggled_once a l) as Honce.
  unfold toggled at 1.
  destruct (existsb (eqb a) (toggled eqb a l)) eqn:E.
  - apply existsb_elem in E. apply Honce in E.
    rewrite elem_of_without. unfold toggled.
    assert (existsb (eqb a) l = false) as ->
      by (apply not_true_is_false; intros Ha; by apply existsb_elem in Ha).
    rewrite elem_of_app, list_elem_of_singleton. split; [tauto|].
    intros Hx. split; [tauto|]. by intros ->.
  - assert (Hn : a ∉ toggled eqb a l)
      by (intros Ha; apply existsb_elem in Ha; congruence).
    assert (Ha : a ∈ l).
    { destruct (existsb (eqb a) l) eqn:El; [by apply existsb_elem|].
      exfalso. apply Hn, Honce. intros Ha. apply existsb_elem in Ha. congruence. }
    rewrite elem_of_app, list_elem_of_singleton. unfold toggled.
    assert (existsb (eqb a) l = true) as -> by (by apply existsb_elem).
    rewrite elem_of_without. split.
    + intros [[? _] | ->]; done.
    + intros Hx. destruct (eqb x a) eqn:Exa.
      * right. by apply eqb_eq.
      * left. split; [done|]. intros ->.
        assert (eqb a a = true) by (by apply eqb_eq). congruence.
Qed.

Lemma existsb_same (l l' : list A) :
  (forall x, x ∈ l <-> x ∈ l') ->
  forall x, existsb (eqb x) l = existsb (eqb x) l'.
Proof.
  intros H x. apply eq_true_iff_eq. by rewrite !existsb_elem.
Qed.

Lemma empty_same (l l' : list A) :
  (forall x, x ∈ l <-> x ∈ l') -> (0 <? length l)%nat = (0 <? length l')%nat.
Proof.
  intros H. destruct l as [|a l], l' as [|b l']; try done.
  - exfalso. eapply not_elem_of_nil, H. by left.
  - exfalso. eapply not_elem_of_nil, H. by left.
Qed.

End Toggle.

Lemma passes_same a b flight :
  fo_maxPrice a = fo_maxPrice b ->
  (forall x, x ∈ fo_stops a <-> x ∈ fo_stops b) ->
  (forall x, x ∈ fo_airlines a <-> x ∈ fo_airlines b) ->
  fo_departureTimeRange a = fo_departureTimeRange b ->
  useFlights.passes a flight = useFlights.passes b flight.
Proof.
  intros Hp Hs Ha Hr. unfold useFlights.passes.
  rewrite Hp, Hr.
  rewrite (existsb_same Z.eqb Z.eqb_eq _ _ Hs).
  rewrite (existsb_same String.eqb String.eqb_eq _ _ Ha).
  by rewrite (empty_same _ _ Ha).
Qed.

Lemma after_stops_change h stops :
  let h1 := useFlights.updateFilters
              (FlightFilters.handleStopsChange (useFlights.filters h) stops) h in
  fo_stops (useFlights.filters h1)
    = toggled Z.eqb stops (fo_stops (useFlights.filters h)) /\
  fo_maxPrice (useFlights.filters h1) = fo_maxPrice (useFlights.filters h) /\
  (forall x, x ∈ fo_airlines (useFlights.filters h1)
             <-> x ∈ fo_airlines (useFlights.filters h)) /\
  fo_departureTimeRange (useFlights.filters h1)
    = fo_departureTimeRange (useFlights.filters h).
Proof.
  cbv zeta. unfold FlightFilters.handleStopsChange, toggled.
  by destruct (existsb (Z.eqb stops) (fo_stops (useFlights.filters h))).
Qed.

Lemma after_airline_change h airline :
  let g1 := useFlights.updateFilters
              (FlightFilters.handleAirlineChange (useFlights.filters h) airline) h in
  fo_airlines (useFlights.filters g1)
    = toggled String.eqb airline (fo_airlines (useFlights.filters h)) /\
  fo_maxPrice (useFlights.filters g1) = fo_maxPrice (useFlights.filters h) /\
  (forall x, x ∈ fo_stops (useFlights.filters g1)
             <-> x ∈ fo_stops (useFlights.filters h)) /\
  fo_departureTimeRange (useFlights.filters g1)
    = fo_departureTimeRange (useFlights.filters h).
Proof.
  cbv zeta. unfold FlightFilters.handleAirlineChange, toggled.
  by destruct (existsb (String.eqb airline) (fo_airlines (useFlights.filters h))).
Qed.

(** X25.  Ticking a box of the filter panel twice changes nothing of what is
    shown: after [handleStopsChange] for a number of stops that number is
    among the stops of the filters when it was not before, and out when it
    was; after a second one the filters let the same flights through as at
    the start.  Likewise with [handleAirlineChange] for an airline. *)
Theorem ticking_twice_changes_nothing h stops airline flightList :
  let h1 := useFlights.updateFilters
              (FlightFilters.handleStopsChange (useFlights.filters h) stops) h in
  let h2 := useFlights.updateFilters
              (FlightFilters.handleStopsChange (useFlights.filters h1) stops) h1 in
  let g1 := useFlights.updateFilters
              (FlightFilters.handleAirlineChange (useFlights.filters h) airline) h in
  let g2 := useFlights.updateFilters
              (FlightFilters.handleAirlineChange (useFlights.filters g1) airline) g1 in
  (stops ∈ fo_stops (useFlights.filters h1)
     <-> stops ∉ fo_stops (useFlights.filters h)) /\
  useFlights.applyFilters flightList (useFlights.filters h2)
    = useFlights.applyFilters flightList (useFlights.filters h) /\
  (airline ∈ fo_airlines (useFlights.filters g1)
     <-> airline ∉ fo_airlines (useFlights.filters h)) /\
  useFlights.applyFilters flightList (useFlights.filters g2)
    = useFlights.applyFilters flightList (useFlights.filters h).
Proof.
  cbv zeta.
  set (h1 := useFlights.updateFilters
               (FlightFilters.handleStopsChange (useFlights.filters h) stops) h).
  set (g1 := useFlights.updateFilters
               (FlightFilters.handleAirlineChange (useFlights.filters h) airline) h).
  destruct (after_stops_change h stops) as (S1 & S2 & S3 & S4).
  destruct (after_stops_change h1 stops) as (T1 & T2 & T3 & T4).
  destruct (after_airline_change h airline) as (A1 & A2 & A3 & A4).
  destruct (after_airline_change g1 airline) as (B1 & B2 & B3 & B4).
  fold h1 in S1, S2, S3, S4. fold g1 in A1, A2, A3, A4.
  split; [|split; [|split]].
  - rewrite S1. apply (toggled_once Z.eqb Z.eqb_eq).
  - unfold useFlights.applyFilters. apply filter_ext. intros f.
    apply passes_same; [congruence | | | congruence].
    + intros x. rewrite T1, S1. apply (toggled_twice Z.eqb Z.eqb_eq).
    + intros x. by rewrite T3, S3.
  - rewrite A1. apply (toggled_once String.eqb String.eqb_eq).
  - unfold useFlights.applyFilters. apply filter_ext. intros f.
    apply passes_same; [congruence | | | congruence].
    + intros x. by rewrite B3, A3.
    + intros x. rewrite B1, A1. apply (toggled_twice String.eqb String.eqb_eq).
Qed.

(** *** The page *)

Lemma sum_of_prices_bounds lo hi (l : list Flight) : forall acc,
  Forall (fun flight => lo <= price flight <= hi) l ->
  acc + Z.of_nat (length l) * lo
  <= fold_left (fun sum flight => sum + price flight) l acc
  <= acc + Z.of_nat (length l) * hi.
Proof.
  induction l as [|f l IH]; intros acc Hall; simpl fold_left.
  - simpl. lia.
  - apply Forall_cons_1 in Hall. destruct Hall as [Hf Hl].
    specialize (IH (acc + price f) Hl). cbn [length]. lia.
Qed.

(** X26.  The average price the page shows lies between the lowest and the
    highest price of the flights shown; for no flight it is 0. *)
Theorem average_price_is_between lo hi filteredFlights :
  filteredFlights <> [] ->
  Forall (fun flight => lo <= price flight <= hi) filteredFlights ->
  lo <= App.calculateAveragePrice filteredFlights <= hi /\
  App.calculateAveragePrice [] = 0.
Proof.
  intros Hne Hall. split; [|reflexivity].
  unfold App.calculateAveragePrice.
  destruct filteredFlights as [|f l] eqn:El; [done|]. rewrite <- El in *.
  cbv zeta.
  pose proof (sum_of_prices_bounds lo hi filteredFlights 0 Hall) as Hsum.
  set (total := fold_left _ filteredFlights 0) in *.
  set (n := Z.of_nat (length filteredFlights)) in *.
  assert (Hn : 0 < n) by (unfold n; rewrite El; simpl; lia).
  assert (Hq : (0 < inject_Z n)%Q) by (by apply (Q_of_Z_lt 0 n)).
  assert (Hlo : (inject_Z lo <= inject_Z total / inject_Z n)%Q).
  { apply Qle_shift_div_l; [done|]. rewrite <- inject_Z_mult.
    apply Q_of_Z_le. lia. }
  assert (Hhi : (inject_Z total / inject_Z n <= inject_Z hi)%Q).
  { apply Qle_shift_div_r; [done|]. rewrite <- inject_Z_mult.
    apply Q_of_Z_le. lia. }
  unfold Math_round.
  generalize dependent (inject_Z total / inject_Z n)%Q. intros q Hlo Hhi.
  split.
  - apply Qfloor_lower. lra.
  - assert (Qfloor (q + (1 # 2)) < hi + 1); [|lia].
    apply Qfloor_upper. rewrite inject_Z_plus. change (inject_Z 1) with 1%Q. lra.
Qed.

Lemma average_price_is_between_witness :
  ([mkFlight "a" "" "" "" "" "" "" "" 0 100 0 None None;
    mkFlight "b" "" "" "" "" "" "" "" 0 201 0 None None] <> [] /\
   Forall (fun flight => 100 <= price flight <= 201)
     [mkFlight "a" "" "" "" "" "" "" "" 0 100 0 None None;
      mkFlight "b" "" "" "" "" "" "" "" 0 201 0 None None]) /\
  100 <= App.calculateAveragePrice
           [mkFlight "a" "" "" "" "" "" "" "" 0 100 0 None None;
            mkFlight "b" "" "" "" "" "" "" "" 0 201 0 None None] <= 201.
Proof.
  assert (Hall : Forall (fun flight => 100 <= price flight <= 201)
            [mkFlight "a" "" "" "" "" "" "" "" 0 100 0 None None;
             mkFlight "b" "" "" "" "" "" "" "" 0 201 0 None None])
    by (repeat constructor; simpl; lia).
  split; [split; [done | exact Hall]|].
  apply average_price_is_between; [done | exact Hall].
Defined.

Section Page.
Context (cfg : Config) (env : Env) (Hfair : fair env).

(** X27.  [fetchPriceTrends] never throws and always turns the loading flag
    off.  It shows the price points [getPriceTrends] returned; when
    [getPriceTrends] throws, which it does in live mode only, when the
    token exchange fails or the array of the reply holds a [null], it
    shows none.  For a route from an airport to itself it shows the seven
    mock points. *)
Theorem fetchPriceTrends_never_throws params w :
  exists data w',
    App.fetchPriceTrends cfg env params w = (Return (data, false), w') /\
    match FlightAPI.getPriceTrends cfg env params w with
    | (Return trends, w1) => data = trends /\ w' = w1
    | (Throw e, w1) =>
        data = [] /\ w' = w1 /\ MOCK_MODE cfg = false /\
        (token_failed cfg env w e w1 \/ null_in_reply cfg env w e w1)
    end /\
    (sp_origin params = sp_destination params -> length data = 7%nat).
Proof.
  unfold App.fetchPriceTrends, try_catch, bind.
  destruct (FlightAPI.getPriceTrends cfg env params w) as [[trends|e] w1] eqn:E.
  - exists trends, w1. split; [done|]. split; [done|].
    intros Hsame. unfold FlightAPI.getPriceTrends in E.
    destruct (decide _); [|done].
    destruct (quiet_getMockPriceTrendsForRoute env Hfair (sp_origin params)
                (sp_destination params) w) as (l & w2 & E2 & _ & Hlen).
    rewrite E2 in E. by injection E as <- <-.
  - exists [], w1. split; [done|].
    destruct (thrown_by_getPriceTrends cfg env Hfair params w e w1 E)
      as (Hlive & He).
    split; [done|].
    intros Hsame. exfalso. unfold FlightAPI.getPriceTrends in E.
    destruct (decide _); [|done].
    destruct (quiet_getMockPriceTrendsForRoute env Hfair (sp_origin params)
                (sp_destination params) w) as (l & w2 & E2 & _).
    by rewrite E2 in E.
Qed.

End Page.

Lemma fetchPriceTrends_never_throws_witness :
  fair (sampleEnv 0 0 (Failure (Some 401))) /\
  exists w',
    App.fetchPriceTrends liveConfig (sampleEnv 0 0 (Failure (Some 401)))
      (route "JFK" "LAX") (newWorld 0) = (Return ([], false), w').
Proof.
  split; [apply sampleEnv_fair|].
  destruct (fetchPriceTrends_never_throws liveConfig
              (sampleEnv 0 0 (Failure (Some 401)))
              (sampleEnv_fair 0 (Failure (Some 401))) (route "JFK" "LAX")
              (newWorld 0)) as (data & w' & E & Hcase & _).
  exists w'.
  assert (Hthrows : exists e w1,
            FlightAPI.getPriceTrends liveConfig
              (sampleEnv 0 0 (Failure (Some 401))) (route "JFK" "LAX")
              (newWorld 0) = (Throw e, w1))
    by (eexists _, _; apply run_pair_throw; reflexivity).
  destruct Hthrows as (e & w1 & Hthrows). rewrite Hthrows in Hcase.
  destruct Hcase as (-> & _). exact E.
Defined.

(** *** The search form *)

Lemma fallback_codes_distinct : NoDup (code <$> SearchForm.FALLBACK_AIRPORTS).
Proof. apply (bool_decide_unpack _). vm_compute. reflexivity. Qed.

Lemma fallbackResults_shape env query :
  (length (SearchForm.fallbackResults env query) <= 5)%nat /\
  NoDup (code <$> SearchForm.fallbackResults env query).
Proof.
  unfold SearchForm.fallbackResults. split.
  - rewrite length_take. lia.
  - eapply sublist_NoDup; [apply fallback_codes_distinct|].
    apply fmap_sublist. etransitivity; [apply sublist_take|].
    generalize SearchForm.FALLBACK_AIRPORTS. intros l.
    induction l as [|a l IH]; cbn [List.filter]; [constructor|].
    destruct (_ || _); by constructor.
Qed.

(** X28.  [searchAirports] never throws.  For a query shorter than two
    UTF-16 code units, which is what [query.length] counts, it empties the
    suggestions of its field and asks nothing.  Otherwise it shows what
    [getAirportSuggestions] returned, or, when that throws, the first five
    airports of its own list whose code, city or name, put in lower case,
    contains the query put in lower case; the loading flag of the field is
    off at the end, the suggestions of the other field are as before, and
    with a cache of airport suggestions that is well formed there are at
    most 8 suggestions, no two with the same code. *)
Theorem searchAirports_always_settles cfg env query type s w :
  airports_wf w ->
  exists s' w',
    SearchForm.searchAirports cfg env query type s w = (Return s', w') /\
    (length (SearchForm.suggestionsOf type s') <= 8)%nat /\
    NoDup (code <$> SearchForm.suggestionsOf type s') /\
    match type with
    | SearchForm.origin_field =>
        SearchForm.destinationSuggestions s' = SearchForm.destinationSuggestions s
    | SearchForm.destination_field =>
        SearchForm.originSuggestions s' = SearchForm.originSuggestions s
    end /\
    ((length16 query < 2)%nat ->
     SearchForm.suggestionsOf type s' = [] /\ w' = w /\
     SearchForm.isLoadingSuggestions s' = SearchForm.isLoadingSuggestions s /\
     SearchForm.getAt type (SearchForm.usingAPISuggestions s') = false) /\
    ((2 <= length16 query)%nat ->
     SearchForm.getAt type (SearchForm.isLoadingSuggestions s') = false /\
     match FlightAPI.getAirportSuggestions cfg env query w with
     | (Return suggestions, w1) =>
         SearchForm.suggestionsOf type s' = suggestions /\ w' = w1 /\
         SearchForm.getAt type (SearchForm.usingAPISuggestions s') = true
     | (Throw _, w1) =>
         SearchForm.suggestionsOf type s'
         = take 5
             (List.filter
                (fun airport =>
                   includes (toLowerCase env (code airport))
                     (toLowerCase env query)
                   || includes (toLowerCase env (city airport))
                        (toLowerCase env query)
                   || includes (toLowerCase env (name airport))
                        (toLowerCase env query))
                SearchForm.FALLBACK_AIRPORTS) /\
         w' = w1 /\
         SearchForm.getAt type (SearchForm.usingAPISuggestions s') = false /\
         (length (SearchForm.suggestionsOf type s') <= 5)%nat
     end).
Proof.
  intros Hwf. unfold SearchForm.searchAirports.
  destruct (Nat.ltb_spec (length16 query) 2) as [Hshort|Hlong].
  { generalize (FlightAPI.getAirportSuggestions cfg env query w). intros r.
    eexists _, _. split; [reflexivity|].
    destruct type; cbn [SearchForm.suggestionsOf SearchForm.setSuggestions
      SearchForm.originSuggestions SearchForm.destinationSuggestions
      SearchForm.isLoadingSuggestions SearchForm.usingAPISuggestions
      SearchForm.getAt SearchForm.setAt fst snd length fmap list_fmap].
    all: split; [lia|]; split; [constructor|]; split; [reflexivity|].
    all: split; [intros _; repeat split | intros ?; lia]. }
  unfold bind, try_catch.
  destruct (FlightAPI.getAirportSuggestions cfg env query w)
    as [[suggestions|e] w1] eqn:E.
  - destruct (suggestions_run cfg env query w suggestions w1 Hwf E)
      as (H8 & Hnd & _).
    clear E. eexists _, _. split; [reflexivity|].
    destruct type; cbn [SearchForm.suggestionsOf SearchForm.setSuggestions
      SearchForm.setLoading SearchForm.getAt SearchForm.setAt fst snd
      SearchForm.originSuggestions SearchForm.destinationSuggestions
      SearchForm.isLoadingSuggestions SearchForm.usingAPISuggestions].
    all: split; [exact H8|]; split; [exact Hnd|]; split; [reflexivity|].
    all: split; [intros ?; lia | intros _; repeat split].
  - destruct (fallbackResults_shape env query) as (H5 & Hnd).
    clear E. eexists _, _. split; [reflexivity|].
    destruct type; cbn [SearchForm.suggestionsOf SearchForm.setSuggestions
      SearchForm.setLoading SearchForm.getAt SearchForm.setAt fst snd
      SearchForm.originSuggestions SearchForm.destinationSuggestions
      SearchForm.isLoadingSuggestions SearchForm.usingAPISuggestions].
    all: split; [lia|]; split; [exact Hnd|]; split; [reflexivity|].
    all: split; [intros ?; lia | intros _; repeat split; exact H5].
Qed.

Lemma searchAirports_always_settles_witness :
  airports_wf (newWorld 0) /\
  exists s' w',
    SearchForm.searchAirports liveConfig (sampleEnv 0 0 (Failure (Some 401)))
      "jf" SearchForm.origin_field
      (SearchForm.mkState [] [] (false, false) (false, false)) (newWorld 0)
    = (Return s', w') /\
    SearchForm.originSuggestions s'
    = [mkAirport "JFK" "John F. Kennedy International" "New York"].
Proof.
  split; [apply newWorld_wf|].
  destruct (searchAirports_always_settles liveConfig
              (sampleEnv 0 0 (Failure (Some 401))) "jf" SearchForm.origin_field
              (SearchForm.mkState [] [] (false, false) (false, false))
              (newWorld 0) (newWorld_wf 0))
    as (s' & w' & E & _ & _ & _ & _ & Hlong).
  exists s', w'. split; [exact E|].
  destruct (Hlong ltac:(simpl; lia)) as [_ Hcase].
  assert (Hthrows : exists e w1,
            FlightAPI.getAirportSuggestions liveConfig
              (sampleEnv 0 0 (Failure (Some 401))) "jf" (newWorld 0)
            = (Throw e, w1))
    by (eexists _, _; apply run_pair_throw; reflexivity).
  destruct Hthrows as (e & w1 & Hthrows). rewrite Hthrows in Hcase.
  destruct Hcase as (Hs & _).
  etransitivity; [exact Hs | vm_compute; reflexivity].
Defined.

End CallerFacts.

